(** * Conversation state machine and tool pipeline: a shallow embedding

    The development follows the Python sources function by function:
    [utilities.py] (tool selection, action history, exit conditions),
    [validation.py] (schema validator), [tools.py] (tool registry and
    executor), [nodes.py] (graph nodes), [graph_builder.py] (routing
    functions) and [llamaindex_agent.py] (question generation).

    Modelling conventions.
    - Python objects are terms of [value]; a [dict] is an association list in
      insertion order (Python dicts keep insertion order, and the code reads
      "the first enabled tool" and "the first key").
    - A string is a sequence of characters with code points below 256, one
      [ascii] per character: [len], slices and [split] count characters,
      and the character classes ([str.isspace], [\s], [\w], [str.lower],
      [str.isprintable]) are CPython's on every code point of that range,
      the non-breaking space and the accented letters included.  Text with
      a character above 255 is outside the model.  The literals of this
      file are ASCII; a character above 127 is written [ascii_of_nat n]
      with [n] its code point (233 for e with an acute accent), never by
      the bytes of an encoding.
    - Container shapes follow the annotations of the source
      ([Dict[str, Any]], [List[Dict[str, Any]]], [ConversationState]) and
      the layout of the agent configuration: where a node walks the list of
      tools, messages or actions held in a field, the model reads the field
      with [dicts]; a field of another shape, on which Python raises, reads
      as empty.  The [Any] positions stay dynamic: the functions whose
      totality is at stake (validator, exit conditions, tools, extractor)
      are written in the error monad [result] and raise as Python does.
    - What the code obtains from outside (the language model, HTTP, SMTP,
      the float and JSON machinery of the interpreter) is an argument or a
      field of [Runtime]; every theorem holds for all of them. *)

From Stdlib Require Import String Ascii List ZArith Bool Lia PeanoNat.
From Stdlib Require Import DecimalString.
Import ListNotations.

Local Open Scope list_scope.
Local Open Scope string_scope.

(** ** Characters and strings *)

Module PyStr.

Definition code (c : ascii) : nat := nat_of_ascii c.

Definition between (lo hi : nat) (c : ascii) : bool :=
  (lo <=? code c)%nat && (code c <=? hi)%nat.

(** [str.isspace] and the regex class [\s]: 9-13, 28-32, the next-line
    control 133 and the non-breaking space 160. *)
Definition isspace (c : ascii) : bool :=
  between 9 13 c || between 28 32 c || (code c =? 133)%nat || (code c =? 160)%nat.

(** The whitespace [int()] skips around a literal: 9-13, 32, 133 and 160
    (not 28-31). *)
Definition is_c_space (c : ascii) : bool :=
  between 9 13 c || (code c =? 32)%nat || (code c =? 133)%nat || (code c =? 160)%nat.

(** The decimal digits, the ones [int()] reads. *)
Definition isdigit (c : ascii) : bool := between 48 57 c.

(** The letters that have a lower case: A-Z and the capitals 192-222 but
    the multiplication sign 215. *)
Definition isupper (c : ascii) : bool :=
  between 65 90 c || between 192 214 c || between 216 222 c.

(** The letters whose capital is 32 below them: a-z and 224-254 but the
    division sign 247. *)
Definition islower (c : ascii) : bool :=
  between 97 122 c || between 224 246 c || between 248 254 c.

(** [str.isalnum]: digits and letters, with the superscripts, fractions,
    ordinal indicators and the micro sign of the range. *)
Definition isalnum (c : ascii) : bool :=
  between 48 57 c || between 65 90 c || between 97 122 c
  || (code c =? 170)%nat || between 178 179 c || (code c =? 181)%nat
  || between 185 186 c || between 188 190 c
  || between 192 214 c || between 216 246 c || between 248 255 c.

(** The regex class [\w]: [str.isalnum] or an underscore. *)
Definition is_word (c : ascii) : bool := isalnum c || (code c =? 95)%nat.

(** [str.isprintable] *)
Definition isprintable (c : ascii) : bool :=
  between 32 126 c || between 161 172 c || between 174 255 c.

Definition lower_char (c : ascii) : ascii :=
  if isupper c then ascii_of_nat (code c + 32) else c.

Definition upper_char (c : ascii) : ascii :=
  if islower c then ascii_of_nat (code c - 32) else c.

Fixpoint lower (s : string) : string :=
  match s with
  | EmptyString => EmptyString
  | String c r => String (lower_char c) (lower r)
  end.

(** [s.upper()].  The sharp s (223) becomes SS.  The micro sign and the y
    with diaeresis, whose capitals lie above 255, are left as they are. *)
Fixpoint upper (s : string) : string :=
  match s with
  | EmptyString => EmptyString
  | String c r =>
      if (code c =? 223)%nat then String "S" (String "S" (upper r))
      else String (upper_char c) (upper r)
  end.

Fixpoint lstrip_by (p : ascii -> bool) (s : string) : string :=
  match s with
  | EmptyString => EmptyString
  | String c r => if p c then lstrip_by p r else s
  end.

Fixpoint rstrip_by (p : ascii -> bool) (s : string) : string :=
  match s with
  | EmptyString => EmptyString
  | String c r =>
      match rstrip_by p r with
      | EmptyString => if p c then EmptyString else String c EmptyString
      | r' => String c r'
      end
  end.

(** [s.strip()] *)
Definition strip (s : string) : string := rstrip_by isspace (lstrip_by isspace s).

Definition startswith (p s : string) : bool := String.prefix p s.

Fixpoint endswith (p s : string) : bool :=
  String.eqb s p ||
  match s with
  | EmptyString => false
  | String _ r => endswith p r
  end.

(** [sub in s] for two strings *)
Fixpoint contains (sub s : string) : bool :=
  String.prefix sub s ||
  match s with
  | EmptyString => false
  | String _ r => contains sub r
  end.

Fixpoint take (n : nat) (s : string) : string :=
  match n, s with
  | S n', String c r => String c (take n' r)
  | _, _ => EmptyString
  end.

Fixpoint removelast (s : string) : string :=
  match s with
  | EmptyString => EmptyString
  | String c EmptyString => EmptyString
  | String c r => String c (removelast r)
  end.

(** [s[1:-1]] *)
Definition slice_1_m1 (s : string) : string :=
  match s with
  | EmptyString => EmptyString
  | String _ r => removelast r
  end.

(** [s.split(sep)] for a one-character separator *)
Fixpoint split_on (sep : ascii) (s : string) : list string :=
  match s with
  | EmptyString => [EmptyString]
  | String c r =>
      if Ascii.eqb c sep then EmptyString :: split_on sep r
      else match split_on sep r with
           | h :: t => String c h :: t
           | [] => [String c EmptyString]
           end
  end.

(** [sep.join(l)] *)
Definition join (sep : string) (l : list string) : string := String.concat sep l.

Definition str_of_Z (z : Z) : string := NilZero.string_of_int (Z.to_int z).

Definition str_of_nat (n : nat) : string := str_of_Z (Z.of_nat n).

(** [int(s)]: optional surrounding whitespace, an optional sign, decimal
    digits, single underscores between digits. *)
Definition digit_val (c : ascii) : Z := Z.of_nat (code c - 48).

Fixpoint int_digits (acc : Z) (after_digit : bool) (s : string) : option Z :=
  match s with
  | EmptyString => if after_digit then Some acc else None
  | String c r =>
      if isdigit c then int_digits (acc * 10 + digit_val c)%Z true r
      else if (code c =? 95)%nat && after_digit then
        match r with
        | String d _ => if isdigit d then int_digits acc false r else None
        | EmptyString => None
        end
      else None
  end.

Definition int_of_str (s : string) : option Z :=
  match rstrip_by is_c_space (lstrip_by is_c_space s) with
  | String "+" r => int_digits 0 false r
  | String "-" r => option_map Z.opp (int_digits 0 false r)
  | t => int_digits 0 false t
  end.

Definition hex_digit (n : nat) : ascii :=
  if (n <? 10)%nat then ascii_of_nat (48 + n) else ascii_of_nat (87 + n).

(** [repr(s)] *)
Fixpoint repr_body (q : ascii) (s : string) : string :=
  match s with
  | EmptyString => EmptyString
  | String c r =>
      let rest := repr_body q r in
      if Ascii.eqb c "\" then "\\" ++ rest
      else if Ascii.eqb c q then String "\" (String c rest)
      else if (code c =? 10)%nat then "\n" ++ rest
      else if (code c =? 13)%nat then "\r" ++ rest
      else if (code c =? 9)%nat then "\t" ++ rest
      else if isprintable c then String c rest
      else "\x" ++ String (hex_digit (code c / 16)) (String (hex_digit (code c mod 16)) rest)
  end.

Definition dquote : ascii := ascii_of_nat 34.

Definition has_char (c : ascii) (s : string) : bool :=
  contains (String c EmptyString) s.

Definition repr_str (s : string) : string :=
  let q : ascii := if has_char "'" s && negb (has_char dquote s) then dquote else "'"%char in
  String q (repr_body q s ++ String q EmptyString).

End PyStr.

(** ** Python objects *)

#[warnings="-register-all"] Inductive value (F : Type) : Type :=
| VNone
| VBool (b : bool)
| VInt (z : Z)
| VFloat (f : F)
| VStr (s : string)
| VList (l : list (value F))
| VDict (d : list (string * value F)).

Arguments VNone {F}.
Arguments VBool {F} b.
Arguments VInt {F} z.
Arguments VFloat {F} f.
Arguments VStr {F} s.
Arguments VList {F} l.
Arguments VDict {F} d.

(** What the interpreter and its libraries provide and the model does not
    spell out: binary floating point, [json.loads], and [re.search] on a
    pattern that is only known at run time.  [None] stands for a raised
    exception. *)
Class Runtime : Type := {
  float : Type;
  float_nonzero : float -> bool;
  float_eqb : float -> float -> bool;
  float_eq_int : float -> Z -> bool;
  float_repr : float -> string;
  float_trunc : float -> option Z;
  float_of_int : Z -> option float;
  float_of_str : string -> option float;
  json_loads : string -> option (value float);
  re_search_ignorecase : string -> string -> option bool
}.

Definition pyobj `{Runtime} : Type := value float.
Definition dict `{Runtime} : Type := list (string * pyobj).

(** Exceptions, with the text [str(e)] gives. *)
Inductive exn : Type :=
| KeyError (key : string)
| AttributeError (msg : string)
| TypeError (msg : string)
| ValueError (msg : string)
| IndexError (msg : string)
| FileNotFoundError (msg : string)
| ImportError (msg : string)
| OtherError (msg : string).

Definition exn_str (e : exn) : string :=
  match e with
  | KeyError k => PyStr.repr_str k
  | AttributeError m | TypeError m | ValueError m | IndexError m
  | FileNotFoundError m | ImportError m | OtherError m => m
  end.

Inductive result (A : Type) : Type :=
| Ok (a : A)
| Raise (e : exn).

Arguments Ok {A} a.
Arguments Raise {A} e.

Definition bind {A B} (r : result A) (k : A -> result B) : result B :=
  match r with
  | Ok a => k a
  | Raise e => Raise e
  end.

(** [try: r  except Exception as e: h e] *)
Definition try_except {A} (r : result A) (h : exn -> result A) : result A :=
  match r with
  | Ok a => Ok a
  | Raise e => h e
  end.

Definition of_option {A} (o : option A) (e : exn) : result A :=
  match o with
  | Some a => Ok a
  | None => Raise e
  end.

Definition raises {A} (r : result A) : bool :=
  match r with
  | Ok _ => false
  | Raise _ => true
  end.

Declare Scope py_scope.
Delimit Scope py_scope with py.
Notation "x <- c ;; k" := (bind c (fun x => k))
  (at level 61, c at next level, right associativity) : py_scope.
Local Open Scope py_scope.

Section Objects.
Context {RT : Runtime}.

(** *** Dictionaries *)

Fixpoint dget (d : dict) (k : string) : option pyobj :=
  match d with
  | [] => None
  | (k', v) :: r => if String.eqb k' k then Some v else dget r k
  end.

(** [d.get(k, dflt)] *)
Definition get_default (d : dict) (k : string) (dflt : pyobj) : pyobj :=
  match dget d k with
  | Some v => v
  | None => dflt
  end.

(** [d.get(k)] *)
Definition get (d : dict) (k : string) : pyobj := get_default d k VNone.

(** [k in d] *)
Definition has_key (d : dict) (k : string) : bool :=
  match dget d k with
  | Some _ => true
  | None => false
  end.

(** [d[k] = v]: an existing key keeps its position, a new one goes last. *)
Fixpoint dset (d : dict) (k : string) (v : pyobj) : dict :=
  match d with
  | [] => [(k, v)]
  | (k', v') :: r => if String.eqb k' k then (k', v) :: r else (k', v') :: dset r k v
  end.

(** [d.update(u)], also [{**d, **u}] *)
Definition update (d u : dict) : dict :=
  fold_left (fun acc kv => dset acc (fst kv) (snd kv)) u d.

Definition keys (d : dict) : list string := map fst d.

(** *** Truthiness, equality, printing *)

Definition truthy (v : pyobj) : bool :=
  match v with
  | VNone => false
  | VBool b => b
  | VInt z => negb (z =? 0)%Z
  | VFloat f => float_nonzero f
  | VStr s => negb (String.eqb s "")
  | VList l => match l with [] => false | _ => true end
  | VDict d => match d with [] => false | _ => true end
  end.

(** [a or b] *)
Definition py_or (a b : pyobj) : pyobj := if truthy a then a else b.

Definition Z_of_bool (b : bool) : Z := if b then 1%Z else 0%Z.

(** [a == b].  Numbers compare by value across [bool], [int] and [float];
    lists element by element; dicts as finite maps. *)
Fixpoint py_eq (a b : pyobj) {struct a} : bool :=
  match a, b with
  | VNone, VNone => true
  | VBool x, VBool y => Bool.eqb x y
  | VBool x, VInt y => (Z_of_bool x =? y)%Z
  | VInt x, VBool y => (x =? Z_of_bool y)%Z
  | VInt x, VInt y => (x =? y)%Z
  | VFloat x, VFloat y => float_eqb x y
  | VFloat x, VInt y => float_eq_int x y
  | VInt x, VFloat y => float_eq_int y x
  | VFloat x, VBool y => float_eq_int x (Z_of_bool y)
  | VBool x, VFloat y => float_eq_int y (Z_of_bool x)
  | VStr x, VStr y => String.eqb x y
  | VList l1, VList l2 =>
      (fix go (l1 l2 : list pyobj) {struct l1} : bool :=
         match l1, l2 with
         | [], [] => true
         | x :: xs, y :: ys => py_eq x y && go xs ys
         | _, _ => false
         end) l1 l2
  | VDict d1, VDict d2 =>
      (length d1 =? length d2)%nat &&
      (fix all (d1 : list (string * pyobj)) {struct d1} : bool :=
         match d1 with
         | [] => true
         | (k, v) :: r =>
             (fix look (d2 : list (string * pyobj)) {struct d2} : bool :=
                match d2 with
                | [] => false
                | (k2, v2) :: r2 => if String.eqb k2 k then py_eq v v2 else look r2
                end) d2 && all r
         end) d1
  | _, _ => false
  end.

(** [str(v)] and [repr(v)] *)
Fixpoint py_fmt (quote : bool) (v : pyobj) {struct v} : string :=
  match v with
  | VNone => "None"
  | VBool true => "True"
  | VBool false => "False"
  | VInt z => PyStr.str_of_Z z
  | VFloat f => float_repr f
  | VStr s => if quote then PyStr.repr_str s else s
  | VList l =>
      "[" ++ PyStr.join ", " ((fix go (l : list pyobj) : list string :=
                                match l with
                                | [] => []
                                | x :: xs => py_fmt true x :: go xs
                                end) l) ++ "]"
  | VDict d =>
      "{" ++ PyStr.join ", " ((fix go (d : list (string * pyobj)) : list string :=
                                match d with
                                | [] => []
                                | (k, x) :: r => (PyStr.repr_str k ++ ": " ++ py_fmt true x) :: go r
                                end) d) ++ "}"
  end.

Definition py_str (v : pyobj) : string := py_fmt false v.


Definition is_str (v : pyobj) : bool :=
  match v with VStr _ => true | _ => false end.

Definition is_none (v : pyobj) : bool :=
  match v with VNone => true | _ => false end.

(** Reading a field at its declared shape. *)
Definition as_list (v : pyobj) : list pyobj :=
  match v with VList l => l | _ => [] end.

Definition as_dict (v : pyobj) : dict :=
  match v with VDict d => d | _ => [] end.

Definition as_str (v : pyobj) : string :=
  match v with VStr s => s | _ => "" end.

Definition dicts (v : pyobj) : list dict := map as_dict (as_list v).

Definition vstrs (l : list string) : pyobj := VList (map VStr l).

(** [len(v)] for the sized types *)
Definition py_len (v : pyobj) : nat :=
  match v with
  | VStr s => String.length s
  | VList l => List.length l
  | VDict d => List.length d
  | _ => 0
  end.

End Objects.

(** ** Regular expressions of the source

    A backtracking matcher for the two patterns the source compiles.  A
    pattern is a sequence of items; [Star] is greedy and gives characters
    back one at a time, as [re] does; [x+] is written [Chr x; Star x]. *)

Module Regex.

Inductive item : Type :=
| Chr (p : ascii -> bool)      (* one character of a class *)
| Star (p : ascii -> bool)     (* greedy repetition of a class *)
| GroupOpen
| GroupClose
| EndAnchor.                   (* [$]: at the end, or before a final newline *)

Definition newline : ascii := ascii_of_nat 10.

Definition at_end (s : string) : bool :=
  match s with
  | EmptyString => true
  | String c EmptyString => Ascii.eqb c newline
  | _ => false
  end.

Fixpoint star {A} (p : ascii -> bool) (k : string -> option A) (s : string) : option A :=
  match s with
  | EmptyString => k s
  | String c r =>
      if p c then
        match star p k r with
        | Some x => Some x
        | None => k s
        end
      else k s
  end.

(** [opens] holds the input as it was at each group still open; [caps]
    the groups closed so far, last first. *)
Fixpoint run (items : list item) (opens caps : list string) (s : string)
  : option (list string) :=
  match items with
  | [] => Some (rev caps)
  | Chr p :: rest =>
      match s with
      | String c r => if p c then run rest opens caps r else None
      | EmptyString => None
      end
  | Star p :: rest => star p (run rest opens caps) s
  | GroupOpen :: rest => run rest (s :: opens) caps s
  | GroupClose :: rest =>
      match opens with
      | o :: os => run rest os (PyStr.take (String.length o - String.length s) o :: caps) s
      | [] => None
      end
  | EndAnchor :: rest => if at_end s then run rest opens caps s else None
  end.

(** [pattern.match(s)] *)
Definition match_at (items : list item) (s : string) : option (list string) :=
  run items [] [] s.

(** [pattern.search(s)]: the first position at which the pattern matches *)
Fixpoint search (items : list item) (s : string) : option (list string) :=
  match match_at items s with
  | Some caps => Some caps
  | None =>
      match s with
      | EmptyString => None
      | String _ r => search items r
      end
  end.

Definition lit (c : ascii) : item := Chr (Ascii.eqb c).

(** A literal character under [re.IGNORECASE] *)
Definition lit_i (c : ascii) : item :=
  Chr (fun x => Ascii.eqb (PyStr.lower_char x) (PyStr.lower_char c)).

Fixpoint lits_i (s : string) : list item :=
  match s with
  | EmptyString => []
  | String c r => lit_i c :: lits_i r
  end.

(** [[\w\-_]] *)
Definition token_char (c : ascii) : bool :=
  PyStr.is_word c || Ascii.eqb c "-" || Ascii.eqb c "_".

(** [.] without DOTALL *)
Definition dot (c : ascii) : bool := negb (Ascii.eqb c newline).

(** nodes.py:684, the decision pattern, compiled with [re.IGNORECASE]:
    the literal DECISION: ; whitespace; group 1, one or more of [\w\-_];
    whitespace; a hyphen; whitespace; group 2, the rest of the line. *)
Definition DECISION_REGEX : list item :=
  (lits_i "DECISION:" ++
   [Star PyStr.isspace;
    GroupOpen; Chr token_char; Star token_char; GroupClose;
    Star PyStr.isspace; lit "-"; Star PyStr.isspace;
    GroupOpen; Star dot; GroupClose])%list.

(** [[^@\s]] *)
Definition not_at_space (c : ascii) : bool :=
  negb (Ascii.eqb c "@" || PyStr.isspace c).

(** validation.py:7, the e-mail pattern, used with [.match]: one or more of
    [^@\s]; an at sign; one or more of [^@\s]; a dot; one or more of
    [^@\s]; the end anchor. *)
Definition EMAIL_REGEX : list item :=
  [Chr not_at_space; Star not_at_space; lit "@";
   Chr not_at_space; Star not_at_space; lit ".";
   Chr not_at_space; Star not_at_space; EndAnchor].

Definition email_matches (s : string) : bool :=
  match match_at EMAIL_REGEX s with
  | Some _ => true
  | None => false
  end.

End Regex.

(** ** Dynamic operations that can raise *)

Section Dynamic.
Context {RT : Runtime}.

Definition type_name (v : pyobj) : string :=
  match v with
  | VNone => "NoneType"
  | VBool _ => "bool"
  | VInt _ => "int"
  | VFloat _ => "float"
  | VStr _ => "str"
  | VList _ => "list"
  | VDict _ => "dict"
  end.

Definition no_attribute (v : pyobj) (attr : string) : exn :=
  AttributeError ("'" ++ type_name v ++ "' object has no attribute '" ++ attr ++ "'").

(** A string method applied to an arbitrary object. *)
Definition str_method {A} (attr : string) (f : string -> A) (v : pyobj) : result A :=
  match v with
  | VStr s => Ok (f s)
  | _ => Raise (no_attribute v attr)
  end.

(** [v.get(...)] needs a dict. *)
Definition dict_of (v : pyobj) : result dict :=
  match v with
  | VDict d => Ok d
  | _ => Raise (no_attribute v "get")
  end.

(** [len(v)] *)
Definition len (v : pyobj) : result nat :=
  match v with
  | VStr s => Ok (String.length s)
  | VList l => Ok (List.length l)
  | VDict d => Ok (List.length d)
  | _ => Raise (TypeError ("object of type '" ++ type_name v ++ "' has no len()"))
  end.

(** [int(v)] *)
Definition py_int (v : pyobj) : result Z :=
  match v with
  | VInt z => Ok z
  | VBool b => Ok (Z_of_bool b)
  | VFloat f => of_option (float_trunc f) (ValueError "cannot convert float to integer")
  | VStr s => of_option (PyStr.int_of_str s)
                (ValueError ("invalid literal for int() with base 10: " ++ PyStr.repr_str s))
  | _ => Raise (TypeError ("int() argument must be a string, a bytes-like object or a real number, not '"
                           ++ type_name v ++ "'"))
  end.

(** [float(v)] *)
Definition py_float (v : pyobj) : result float :=
  match v with
  | VFloat f => Ok f
  | VInt z => of_option (float_of_int z) (OtherError "int too large to convert to float")
  | VBool b => of_option (float_of_int (Z_of_bool b)) (OtherError "int too large to convert to float")
  | VStr s => of_option (float_of_str s)
                (ValueError ("could not convert string to float: " ++ PyStr.repr_str s))
  | _ => Raise (TypeError ("float() argument must be a string or a real number, not '"
                           ++ type_name v ++ "'"))
  end.

(** [d.get(k, dflt)] where the key is itself an object: only a string can
    be found among string keys; an unhashable key raises. *)
Definition get_obj_default (d : dict) (k dflt : pyobj) : result pyobj :=
  match k with
  | VStr s => Ok (get_default d s dflt)
  | VList _ | VDict _ => Raise (TypeError ("unhashable type: '" ++ type_name k ++ "'"))
  | _ => Ok dflt
  end.

Definition get_obj (d : dict) (k : pyobj) : result pyobj := get_obj_default d k VNone.

(** [x in c] at the shapes the source uses: substring, list membership,
    dictionary key. *)
Definition py_in (x c : pyobj) : bool :=
  match c with
  | VStr s => match x with VStr sub => PyStr.contains sub s | _ => false end
  | VList l => existsb (py_eq x) l
  | VDict d => match x with VStr k => has_key d k | _ => false end
  | _ => false
  end.

End Dynamic.

(** ** utilities.py *)

Module Utilities.
Section Utilities.
Context {RT : Runtime}.

Definition enabled (tool : dict) : bool :=
  truthy (get_default tool "enabled" (VBool true)).

Definition is_list (v : pyobj) : bool :=
  match v with VList _ => true | _ => false end.

Definition is_dict (v : pyobj) : bool :=
  match v with VDict _ => true | _ => false end.

(** utilities.py:11, the tool the state or the configuration asks for *)
Definition preferred_tool (config state : dict) : pyobj :=
  py_or (py_or (get state "chosen_tool") (get state "next_action")) (get config "tool_type").

(** utilities.py:8-22.  The pair is (tool name, tool entry or None). *)
Definition get_selected_tool_config (config state : dict) : pyobj * pyobj :=
  let preferred := preferred_tool config state in
  let tools := py_or (get config "tools") (VList []) in
  let by_name :=
    if truthy preferred && is_list tools then
      find (fun tool => py_eq (get tool "name") preferred && enabled tool) (dicts tools)
    else None in
  match by_name with
  | Some tool => (preferred, VDict tool)
  | None =>
      match find enabled (dicts tools) with
      | Some tool => (get tool "name", VDict tool)
      | None => (preferred, VNone)
      end
  end.

(** utilities.py:24-30 *)
Definition get_tool_category (config : dict) (tool_name : pyobj) : pyobj :=
  let tools := py_or (get config "tools") (VList []) in
  match find (fun t => py_eq (get t "name") tool_name) (dicts tools) with
  | Some t => py_or (get t "type") (VStr "input")
  | None => VStr "input"
  end.

(** utilities.py:78-110 *)
Definition normalize_input_schema (input_schema : pyobj) : list pyobj :=
  if negb (truthy input_schema) then []
  else match input_schema with
       | VList l => l
       | VDict d =>
           let properties := get_default d "properties" (VDict []) in
           let required := get_default d "required" (VList []) in
           if truthy properties then
             flat_map (fun kv : string * pyobj =>
                         let (field_name, field_spec) := kv in
                         match field_spec with
                         | VDict spec =>
                             [VDict [("name", VStr field_name);
                                     ("type", get_default spec "type" (VStr "string"));
                                     ("required", VBool (py_in (VStr field_name) required));
                                     ("format", get spec "format");
                                     ("description", get_default spec "description" (VStr ""))]]
                         | _ => []
                         end)
                      (as_dict properties)
           else []
       | _ => []
       end.

(** [x in c] as Python evaluates it: a string, a list or a dict is searched,
    anything else is not a container and raises. *)
Definition membership (x c : pyobj) : result bool :=
  match c with
  | VStr s =>
      match x with
      | VStr sub => Ok (PyStr.contains sub s)
      | _ => Raise (TypeError ("'in <string>' requires string as left operand, not "
                               ++ type_name x))
      end
  | VList l => Ok (existsb (py_eq x) l)
  | VDict d =>
      match x with
      | VStr k => Ok (has_key d k)
      | VList _ | VDict _ => Raise (TypeError ("unhashable type: '" ++ type_name x ++ "'"))
      | _ => Ok false
      end
  | _ => Raise (TypeError ("argument of type '" ++ type_name c ++ "' is not iterable"))
  end.

(** utilities.py:96-108, the loop over the properties *)
Fixpoint schema_fields (required : pyobj) (properties : dict) : result (list pyobj) :=
  match properties with
  | [] => Ok []
  | (field_name, field_spec) :: rest =>
      match field_spec with
      | VDict spec =>
          is_required <- membership (VStr field_name) required ;;
          fields <- schema_fields required rest ;;
          Ok (VDict [("name", VStr field_name);
                     ("type", get_default spec "type" (VStr "string"));
                     ("required", VBool is_required);
                     ("format", get spec "format");
                     ("description", get_default spec "description" (VStr ""))]
              :: fields)
      | _ => schema_fields required rest
      end
  end.

(** utilities.py:78-110 with its [Any] argument kept dynamic: [.items()] on
    properties that are not a dict and [in] on a [required] that is not a
    container raise as in Python.  Where it returns, what it returns is
    [normalize_input_schema]. *)
Definition normalize_input_schema_raising (input_schema : pyobj) : result (list pyobj) :=
  if negb (truthy input_schema) then Ok []
  else match input_schema with
       | VList l => Ok l
       | VDict d =>
           let properties := get_default d "properties" (VDict []) in
           let required := get_default d "required" (VList []) in
           if truthy properties then
             match properties with
             | VDict items => schema_fields required items
             | _ => Raise (no_attribute properties "items")
             end
           else Ok []
       | _ => Ok []
       end.

(** utilities.py:42-76, what the runtime configuration holds once the tool
    is selected *)
Definition legacy_required (fields : list pyobj) (with_validate : bool) : pyobj :=
  VList (map (fun f =>
                let f := as_dict f in
                VDict ([("name", get f "name");
                        ("required", VBool (truthy (get f "required")))]
                       ++ (if with_validate then
                             [("validate",
                                if py_eq (get f "format") (VStr "email") then VStr "email"
                                else VNone)]
                           else []))%list)
             fields).

Definition runtime_config_for (config : dict) (selected : pyobj * pyobj) : dict :=
  let (tool_name, tool_cfg) := selected in
  let tool_cfg := as_dict (py_or tool_cfg (VDict [])) in
  let runtime_cfg : dict :=
    if truthy (get config "credentials_path")
    then [("credentials_path", get config "credentials_path")] else [] in
  let per_tool_conf := py_or (get_default tool_cfg "config" (VDict [])) (VDict []) in
  if py_eq (get tool_cfg "impl") (VStr "sheets") then
    let runtime_cfg :=
      dset runtime_cfg "sheet"
        (VDict [("spreadsheet_title", get (as_dict per_tool_conf) "spreadsheet_title");
                ("worksheet_name", get (as_dict per_tool_conf) "worksheet_name")]) in
    dset runtime_cfg "required_fields"
      (legacy_required (normalize_input_schema (get tool_cfg "input_schema")) true)
  else if py_eq tool_name (VStr "web_search") then
    dset runtime_cfg "web_search" per_tool_conf
  else if py_eq (get tool_cfg "impl") (VStr "api_retrieval") then
    dset (dset runtime_cfg "api_retrieval" per_tool_conf) "tool_name" tool_name
  else
    dset (dset runtime_cfg (py_str tool_name) per_tool_conf) "required_fields"
      (legacy_required (normalize_input_schema (get tool_cfg "input_schema")) false).

(** utilities.py:32-76 *)
Definition build_runtime_tool_config (config state : dict) : dict :=
  runtime_config_for config (get_selected_tool_config config state).

(** The schema a node works against (nodes.py:365-368 and 472-474). *)
Definition selected_schema (config state : dict) : list pyobj :=
  normalize_input_schema
    (get (as_dict (py_or (snd (get_selected_tool_config config state)) (VDict []))) "input_schema").

(** utilities.py:112-127 (nodes.py:601-616 is the same function) *)
Fixpoint tool_requirements_in (tools : list dict) (tool_name : pyobj) : pyobj :=
  match tools with
  | [] => VList []
  | tool :: rest =>
      if py_eq (get tool "name") tool_name then
        let schema := get_default tool "input_schema" (VDict []) in
        match schema with
        | VDict s =>
            if truthy (get s "properties") then get_default s "required" (VList [])
            else tool_requirements_in rest tool_name
        | VList fs =>
            VList (map (fun f => get f "name")
                       (filter (fun f => truthy (get f "required")) (map as_dict fs)))
        | _ => tool_requirements_in rest tool_name
        end
      else tool_requirements_in rest tool_name
  end.

Definition get_tool_requirements (config : dict) (tool_name : pyobj) : pyobj :=
  if negb (truthy tool_name) then VList []
  else tool_requirements_in (dicts (get_default config "tools" (VList []))) tool_name.

(** utilities.py:129-141 *)
Definition get_alternative_actions (config extracted_data : dict) : pyobj :=
  let alternatives :=
    ([VStr "chat"; VStr "end"] ++
     map (fun tool => get_default tool "name" (VStr ""))
         (filter enabled (dicts (get_default config "tools" (VList [])))))%list in
  VList (filter truthy alternatives).

(** *** Action history *)

Definition summary_failed (node_name : string) : string :=
  "Node " ++ node_name ++ " completed (summary failed)".

(** [', '.join(l)] raises unless every element is a string. *)
Fixpoint all_strs (l : list pyobj) : option (list string) :=
  match l with
  | [] => Some []
  | VStr s :: r => option_map (cons s) (all_strs r)
  | _ :: _ => None
  end.

Definition last_of {A} (l : list A) : option A := List.last (map Some l) None.

(** utilities.py:160-196 *)
Definition summarize_outcome (old_state new_state : dict) (node_name : string) : string :=
  if String.eqb node_name "STRUCTURED_EXTRACTOR" then
    let old_data := get_default old_state "extracted_data" (VDict []) in
    let new_data := get_default new_state "extracted_data" (VDict []) in
    if truthy new_data && (py_len old_data <? py_len new_data)%nat then
      "Extracted " ++ PyStr.str_of_nat (py_len new_data) ++ " field(s): "
        ++ PyStr.join ", " (keys (as_dict new_data))
    else "No new data extracted"
  else if String.eqb node_name "VALIDATE_INPUTS" then
    let errors := get_default new_state "validation_errors" (VList []) in
    if truthy errors then
      match all_strs (as_list errors) with
      | Some l => "Validation failed: " ++ PyStr.join ", " l
      | None => summary_failed node_name
      end
    else "Validation passed"
  else if String.eqb node_name "TOOL_EXECUTION" then
    let result := as_dict (get_default new_state "tool_result" (VDict [])) in
    if truthy (get result "success") then
      "Tool executed successfully: "
        ++ py_str (get_default result "message" (VStr "Operation completed"))
    else
      "Tool execution failed: " ++ py_str (get_default result "error" (VStr "Unknown error"))
  else if String.eqb node_name "CHAT_NODE" then
    let messages := get_default new_state "messages" (VList []) in
    match last_of (dicts messages) with
    | Some last_msg =>
        if py_eq (get last_msg "role") (VStr "assistant") then
          match get_default last_msg "content" (VStr "") with
          | VStr content =>
              "Generated response: " ++ PyStr.take 50 content
                ++ (if (50 <? String.length content)%nat then "..." else "")
          | VList l =>
              "Generated response: " ++ py_str (VList (firstn 50 l))
                ++ (if (50 <? List.length l)%nat then "..." else "")
          | _ => summary_failed node_name
          end
        else "No response generated"
    | None => "No response generated"
    end
  else "Node " ++ node_name ++ " completed".

(** [seq[-n:]] *)
Definition last_n {A} (n : nat) (l : list A) : list A := skipn (List.length l - n) l.

(** The arrow of the transition label, U+2192.  It is the one character of
    the source above 255: the label holds the three bytes of its UTF-8
    encoding in its place.  No statement reads the label. *)
Definition arrow : string :=
  String (ascii_of_nat 226) (String (ascii_of_nat 134) (String (ascii_of_nat 146) EmptyString)).

(** utilities.py:198-218.  The source stores the history into [new_state];
    the model returns the state with the key set. *)
Definition track_action (node_name : string) (old_state new_state : dict) : dict :=
  let action_history := as_list (get_default old_state "action_history" (VList [])) in
  let action_record :=
    VDict [("step", VInt (Z.of_nat (List.length action_history + 1)));
           ("node", VStr node_name);
           ("transition",
             VStr ((match keys old_state with k :: _ => k | [] => "start" end)
                   ++ " " ++ arrow ++ " " ++ node_name));
           ("outcome", VStr (summarize_outcome old_state new_state node_name));
           ("timestamp", VInt (Z.of_nat (py_len (get_default new_state "messages" (VList [])))))] in
  let action_history := (action_history ++ [action_record])%list in
  let action_history :=
    if (5 <? List.length action_history)%nat then last_n 5 action_history else action_history in
  dset new_state "action_history" (VList action_history).

(** utilities.py:220-296.  Apart from printing, the function records the
    action. *)
Definition log_node_execution (node_name : string) (old_state new_state : dict) : dict :=
  track_action node_name old_state new_state.

End Utilities.
End Utilities.

(** ** utilities.py, exit conditions (lines 298-395) *)

Module ExitConditions.
Section ExitConditions.
Context {RT : Runtime}.

(** utilities.py:300-302 *)
Definition count_user_messages (msgs : list dict) : nat :=
  List.length (filter (fun m => py_eq (get m "role") (VStr "user")) msgs).

(** utilities.py:304-327 *)
Definition prompt_matches (expr : pyobj) (msgs : list dict) : result bool :=
  if negb (truthy expr) || match msgs with [] => true | _ => false end then Ok false
  else
    let user_messages :=
      map (fun m => get_default m "content" (VStr ""))
          (filter (fun m => py_eq (get m "role") (VStr "user")) msgs) in
    match Utilities.last_of user_messages with
    | None => Ok false
    | Some last =>
        last_user_message <- str_method "lower" PyStr.lower last ;;
        starts <- str_method "startswith" (PyStr.startswith "/") expr ;;
        ends <- (if starts then str_method "endswith" (PyStr.endswith "/") expr else Ok false) ;;
        if starts && ends then
          match re_search_ignorecase (PyStr.slice_1_m1 (as_str expr)) last_user_message with
          | Some b => Ok b
          | None => Ok false
          end
        else
          phrases <- str_method "split"
                       (fun e => map (fun p => PyStr.lower (PyStr.strip p)) (PyStr.split_on "|" e))
                       expr ;;
          Ok (existsb (fun phrase => PyStr.contains phrase last_user_message) phrases)
    end.

(** utilities.py:329-341 *)
Definition logical_matches (expr : pyobj) (st : dict) : result bool :=
  if negb (truthy expr) then Ok false
  else if py_eq expr (VStr "is_data_complete") then
    n <- len (get_default st "extracted_data" (VDict [])) ;;
    Ok (0 <? n)%nat
  else Ok false.

(** utilities.py:343-362 *)
Definition tool_event_matches (expr : pyobj) (st : dict) : result bool :=
  match expr with
  | VDict e =>
      if negb (truthy expr) then Ok false
      else
        let tool_result := get_default st "tool_result" (VDict []) in
        if negb (truthy tool_result) then Ok false
        else
          let expected_tool := get e "tool" in
          tool_mismatch <-
            (if truthy expected_tool then
               tr <- dict_of tool_result ;;
               Ok (negb (py_eq (get tr "type") expected_tool))
             else Ok false) ;;
          if tool_mismatch then Ok false
          else
            let expected_status := get e "status" in
            status_mismatch <-
              (if truthy expected_status then
                 tr <- dict_of tool_result ;;
                 Ok (negb (py_eq (get tr "success")
                                 (VBool (py_eq expected_status (VStr "success")))))
               else Ok false) ;;
            Ok (negb status_mismatch)
  | _ => Ok false
  end.

(** utilities.py:364-373 *)
Definition max_turns_matches (expr : pyobj) (msgs : list dict) : result bool :=
  match expr with
  | VInt _ | VBool _ | VStr _ =>
      try_except
        (max_turns <- py_int expr ;;
         Ok (max_turns <=? Z.of_nat (List.length msgs))%Z)
        (fun _ => Ok false)
  | _ => Ok false
  end.

(** utilities.py:375-395 *)
Definition evaluate (cond state : dict) (messages : list dict) : result bool :=
  if negb (truthy (VDict cond)) || negb (has_key cond "type") then Ok false
  else
    let cond_type := get cond "type" in
    let expr := get cond "expression" in
    if py_eq cond_type (VStr "prompt") then prompt_matches expr messages
    else if py_eq cond_type (VStr "logical") then logical_matches expr state
    else if py_eq cond_type (VStr "tool_event") then tool_event_matches expr state
    else if py_eq cond_type (VStr "max_turns") then max_turns_matches expr messages
    else Ok false.

End ExitConditions.
End ExitConditions.

(** ** validation.py *)

Module Validation.
Section Validation.
Context {RT : Runtime}.

(** validation.py:9-31 *)
Definition field_key (f : dict) : pyobj :=
  get_default f "key" (get_default f "name" (VStr "")).

Definition validate_field (config : dict) (key : pyobj) (value : string) : bool :=
  match find (fun f => py_eq (field_key f) key)
             (dicts (get_default config "required_fields" (VList []))) with
  | None => true
  | Some spec =>
      if negb (truthy (VDict spec)) then true
      else
        let validation_type := get spec "validate" in
        if py_eq validation_type (VStr "email") then Regex.email_matches (PyStr.strip value)
        else if py_eq validation_type (VStr "required") then negb (String.eqb (PyStr.strip value) "")
        else true
  end.

(** validation.py:91-116 *)
Fixpoint is_data_complete_in (config : dict) (fields : list dict) (data : dict) : result bool :=
  match fields with
  | [] => Ok true
  | field :: rest =>
      value <- get_obj_default data (field_key field) (VStr "") ;;
      stripped <- str_method "strip" PyStr.strip value ;;
      if String.eqb stripped "" then Ok false
      else if negb (validate_field config (field_key field) (as_str value)) then Ok false
      else is_data_complete_in config rest data
  end.

Definition is_data_complete (config data : dict) : result bool :=
  is_data_complete_in config (dicts (get_default config "required_fields" (VList []))) data.

(** validation.py:135, a value counts as missing *)
Definition blank (val : pyobj) : bool :=
  match val with
  | VNone => true
  | VStr s => String.eqb (PyStr.strip s) ""
  | _ => false
  end.

(** validation.py:141-149, the body of the [try] *)
Definition coerce (ftype val : pyobj) : result pyobj :=
  if py_eq ftype (VStr "string") then Ok (VStr (PyStr.strip (py_str val)))
  else if py_eq ftype (VStr "int") then z <- py_int val ;; Ok (VInt z)
  else if py_eq ftype (VStr "float") then f <- py_float val ;; Ok (VFloat f)
  else Ok val.

Definition required_error (name : pyobj) : string := py_str name ++ " is required".

Definition coerce_error (name ftype : pyobj) : string :=
  py_str name ++ " failed to coerce to " ++ py_str ftype.

Definition email_error (name : pyobj) : string := py_str name ++ " must be a valid email".

(** validation.py:128-160, one turn of the loop over the schema *)
Definition schema_step (data : dict) (acc : dict * list string) (field : dict)
  : result (dict * list string) :=
  let (validated, errors) := acc in
  let name := get field "name" in
  let required := truthy (get_default field "required" (VBool false)) in
  let ftype := get_default field "type" (VStr "string") in
  let fmt := get field "format" in
  val <- get_obj data name ;;
  if blank val then
    Ok (validated, if required then (errors ++ [required_error name])%list else errors)
  else
    match coerce ftype val with
    | Raise _ => Ok (validated, (errors ++ [coerce_error name ftype])%list)
    | Ok v =>
        if py_eq fmt (VStr "email") && negb (Regex.email_matches (py_str v)) then
          Ok (validated, (errors ++ [email_error name])%list)
        else Ok (dset validated (as_str name) v, errors)
    end.

(** The loop; [field.get] needs each element of the schema to be a dict. *)
Fixpoint schema_loop (data : dict) (acc : dict * list string) (schema : list pyobj)
  : result (dict * list string) :=
  match schema with
  | [] => Ok acc
  | field :: rest =>
      field <- dict_of field ;;
      acc' <- schema_step data acc field ;;
      schema_loop data acc' rest
  end.

(** validation.py:119-162 *)
Definition validate_against_schema (data : dict) (schema : list pyobj)
  : result (dict * list string) :=
  schema_loop data ([], []) schema.

(** validation.py:51-63, the errors of one field; [stripped] is
    [value.strip()] *)
Definition field_errors (config field : dict) (key : pyobj) (stripped value : string)
  : list string :=
  if String.eqb stripped "" then [py_str key ++ " is required"]
  else if negb (validate_field config key value) then
    if py_eq (get_default field "validate" (VStr "")) (VStr "email")
    then [py_str key ++ " must be a valid email address"]
    else [py_str key ++ " validation failed"]
  else [].

Fixpoint validate_all_fields_in (config : dict) (fields : list dict) (data errors : dict)
  : result dict :=
  match fields with
  | [] => Ok errors
  | field :: rest =>
      let key := field_key field in
      value <- get_obj_default data key (VStr "") ;;
      stripped <- str_method "strip" PyStr.strip value ;;
      match field_errors config field key stripped (as_str value) with
      | [] => validate_all_fields_in config rest data errors
      | errs => validate_all_fields_in config rest data (dset errors (py_str key) (vstrs errs))
      end
  end.

(** validation.py:33-68 *)
Definition validate_all_fields (config data : dict) : result dict :=
  validate_all_fields_in config (dicts (get_default config "required_fields" (VList []))) data [].

Fixpoint get_missing_fields_in (fields : list dict) (data : dict) : result (list pyobj) :=
  match fields with
  | [] => Ok []
  | field :: rest =>
      let key := field_key field in
      value <- get_obj_default data key (VStr "") ;;
      stripped <- str_method "strip" PyStr.strip value ;;
      missing <- get_missing_fields_in rest data ;;
      Ok (if String.eqb stripped "" then key :: missing else missing)
  end.

(** validation.py:70-89 *)
Definition get_missing_fields (config data : dict) : result (list pyobj) :=
  get_missing_fields_in (dicts (get_default config "required_fields" (VList []))) data.

End Validation.
End Validation.

(** ** tools.py *)

Module Tools.
Section Tools.
Context {RT : Runtime}.

(** The answer of an HTTP server as the tool reads it; [json] is [None]
    when [resp.json()] raises. *)
Record http_response : Type := {
  status_code : Z;
  text : string;
  json : option pyobj
}.

(** Everything the tools reach outside the process. *)
Record World : Type := {
  requests_available : bool;
  import_smtplib : result unit;
  tavily_available : bool;
  environ : string -> option string;
  (* method, url, params, json body, headers, timeout *)
  http_request : string -> pyobj -> dict -> pyobj -> dict -> Z -> result http_response;
  tavily_search : pyobj -> result pyobj;
  (* server, port, use_tls, username, password, recipient, subject, message *)
  smtp_send : pyobj -> pyobj -> pyobj -> pyobj -> pyobj -> pyobj -> pyobj -> pyobj -> result unit;
  load_gspread_client : pyobj -> result unit;
  open_spreadsheet : pyobj -> result unit;
  open_worksheet : pyobj -> pyobj -> result unit;
  append_to_sheet : dict -> dict -> result pyobj
}.

Variable w : World.

Definition env_get (k : pyobj) : result pyobj :=
  match k with
  | VStr s => Ok (match environ w s with Some t => VStr t | None => VNone end)
  | VList _ | VDict _ => Raise (TypeError ("unhashable type: '" ++ type_name k ++ "'"))
  | _ => Ok VNone
  end.

(** [d[k] = v] for a key read from the configuration *)
Definition set_obj (d : dict) (k v : pyobj) : result dict :=
  match k with
  | VList _ | VDict _ => Raise (TypeError ("unhashable type: '" ++ type_name k ++ "'"))
  | _ => Ok (dset d (py_str k) v)
  end.

(** tools.py:80-84 *)
Definition apply_param_map (param_map extracted_data params : dict) : dict :=
  fold_left
    (fun params kv =>
       let (in_key, api_key) := (kv : string * pyobj) in
       match dget extracted_data in_key with
       | Some x =>
           if py_eq x VNone || py_eq x (VStr "") then params
           else dset params (py_str api_key) x
       | None => params
       end)
    param_map params.

(** tools.py:87-99; any exception leaves headers and params as they are *)
Definition inject_auth (api_cfg headers params : dict) : dict * dict :=
  let attempt : result (dict * dict) :=
    auth <- dict_of (py_or (get api_cfg "auth") (VDict [])) ;;
    auth_type <- str_method "lower" PyStr.lower (py_or (get auth "type") (VStr "")) ;;
    let env_key := get auth "env_key" in
    let name := get auth "name" in
    token <- (if truthy env_key then env_get env_key else Ok VNone) ;;
    if truthy token && truthy name then
      if String.eqb auth_type "header" then
        h <- set_obj headers name token ;; Ok (h, params)
      else if String.eqb auth_type "query" then
        p <- set_obj params name token ;; Ok (headers, p)
      else Ok (headers, params)
    else Ok (headers, params) in
  match attempt with
  | Ok hp => hp
  | Raise _ => (headers, params)
  end.

Definition mask_headers (headers : dict) : dict :=
  map (fun kv : string * pyobj =>
         let (k, v) := kv in
         (k, if PyStr.startswith "authorization" (PyStr.lower k) then VStr "***" else v))
      headers.

Definition opt_obj (o : option pyobj) : pyobj :=
  match o with Some v => v | None => VNone end.

(** tools.py:26-159 *)
Definition api_retrieval_tool (extracted_data config : dict) : result dict :=
  if negb (requests_available w) then
    Ok [("success", VBool false);
        ("data", VDict extracted_data);
        ("type", VStr "api_retrieval");
        ("message", VStr "Requests library not available. Install: pip install requests");
        ("error", VStr "Missing dependency: requests")]
  else
    let api_cfg := as_dict (py_or (get_default config "api_retrieval" (VDict [])) (VDict [])) in
    let base_url := get api_cfg "base_url" in
    if negb (truthy base_url) then
      Ok [("success", VBool false);
          ("data", VDict extracted_data);
          ("type", VStr "api_retrieval");
          ("message", VStr "Missing required config: base_url");
          ("error", VStr "Invalid configuration")]
    else
      let method := PyStr.upper (py_str (get_default api_cfg "method" (VStr "GET"))) in
      timeout <- py_int (get_default api_cfg "timeout" (VInt 15)) ;;
      let headers := as_dict (py_or (get_default api_cfg "headers" (VDict [])) (VDict [])) in
      let qkey := get api_cfg "query_param_key" in
      let query_value := py_or (get extracted_data "query") (get extracted_data "search_query") in
      params <- (if truthy qkey && truthy query_value then set_obj [] qkey query_value
                 else Ok []) ;;
      let param_map := py_or (get api_cfg "param_map") (VDict []) in
      let params := apply_param_map (as_dict param_map) extracted_data params in
      let (headers, params) := inject_auth api_cfg headers params in
      let url := base_url in
      let is_get := String.eqb method "GET" in
      let body_r : result pyobj :=
        if is_get then Ok VNone
        else if negb (truthy qkey) then Ok (VDict params)
        else b <- set_obj [] qkey query_value ;;
             Ok (VDict (update b (filter (fun kv => negb (py_eq (VStr (fst kv)) qkey)) params))) in
      let failure (e : exn) (params : dict) (body : pyobj) : result dict :=
        Ok [("success", VBool false);
            ("type", VStr "api_retrieval");
            ("message", VStr ("API request failed: " ++ exn_str e));
            ("error", VStr (exn_str e));
            ("request", VDict [("url", url); ("method", VStr method);
                               ("params", VDict params); ("body", body);
                               ("headers", VDict headers)]);
            ("data", VDict [("query", query_value)])] in
      match body_r with
      | Raise e => failure e params VNone
      | Ok body =>
          let params := if is_get then params else [] in
          match http_request w method url params body headers timeout with
          | Raise e => failure e params body
          | Ok resp =>
              let status := status_code resp in
              let ok := (200 <=? status)%Z && (status <? 300)%Z in
              let summary :=
                "API " ++ method ++ " " ++ PyStr.str_of_Z status ++ " for " ++ py_str url
                  ++ (if truthy query_value then
                        " | query='" ++ PyStr.take 50 (py_str query_value) ++ "'"
                      else "") in
              Ok [("success", VBool ok);
                  ("type", VStr "api_retrieval");
                  ("message", VStr summary);
                  ("summary", VStr summary);
                  ("request", VDict [("url", url); ("method", VStr method);
                                     ("params", VDict params); ("body", body);
                                     ("headers", VDict (mask_headers headers))]);
                  ("status_code", VInt status);
                  ("json", opt_obj (json resp));
                  ("text", VStr (text resp));
                  ("data", VDict [("query", query_value)])]
          end
      end.

(** The failure envelope [sheets_tool] returns on every error path. *)
Definition sheets_failure (extracted_data : dict) (message error summary : string) : dict :=
  [("success", VBool false);
   ("data", VDict extracted_data);
   ("type", VStr "sheets");
   ("message", VStr message);
   ("error", VStr error);
   ("summary", VStr summary)].

Definition is_empty_value (v : pyobj) : bool :=
  py_eq v VNone || py_eq v (VStr "") || py_eq v (VList []) || py_eq v (VDict []).

(** tools.py:161-439 *)
Definition sheets_tool (extracted_data config : dict) : result dict :=
  try_except
    (complete <- Validation.is_data_complete config extracted_data ;;
     if negb complete then
       Ok (sheets_failure extracted_data "Cannot execute tool: missing required data"
             "Incomplete data" "Failed: missing required data for Google Sheets write.")
     else if negb (has_key config "sheet") then
       let error_msg := "Google Sheets configuration missing in agent config" in
       Ok (sheets_failure extracted_data error_msg "Missing sheet configuration" error_msg)
     else
       sheet_config <- dict_of (get_default config "sheet" (VDict [])) ;;
       let spreadsheet_title := get sheet_config "spreadsheet_title" in
       let worksheet_name := get sheet_config "worksheet_name" in
       if negb (truthy spreadsheet_title) then
         let error_msg := "Missing spreadsheet_title in sheet configuration" in
         Ok (sheets_failure extracted_data error_msg "Missing spreadsheet_title" error_msg)
       else if negb (truthy worksheet_name) then
         let error_msg := "Missing worksheet_name in sheet configuration" in
         Ok (sheets_failure extracted_data error_msg "Missing worksheet_name" error_msg)
       else
         let credentials_path := get config "credentials_path" in
         if negb (truthy credentials_path) then
           let error_msg := "Missing credentials_path in agent configuration" in
           Ok (sheets_failure extracted_data error_msg "Missing credentials_path" error_msg)
         else
           match load_gspread_client w credentials_path with
           | Raise (FileNotFoundError _) =>
               let error_msg := "Credentials file not found: " ++ py_str credentials_path in
               Ok (sheets_failure extracted_data error_msg "Credentials file not found" error_msg)
           | Raise (ImportError m) =>
               let error_msg := "Missing Google Sheets dependencies: " ++ m in
               Ok (sheets_failure extracted_data error_msg "Missing dependencies" error_msg)
           | Raise client_error =>
               let error_msg :=
                 "Failed to authenticate with Google Sheets: " ++ exn_str client_error in
               Ok (sheets_failure extracted_data error_msg (exn_str client_error) error_msg)
           | Ok _ =>
               match open_spreadsheet w spreadsheet_title with
               | Raise e =>
                   let error_msg :=
                     "Spreadsheet '" ++ py_str spreadsheet_title ++ "' not found or not accessible" in
                   Ok (sheets_failure extracted_data error_msg (exn_str e) error_msg)
               | Ok _ =>
                   match open_worksheet w spreadsheet_title worksheet_name with
                   | Raise e =>
                       let error_msg :=
                         "Worksheet '" ++ py_str worksheet_name ++ "' not found in spreadsheet '"
                           ++ py_str spreadsheet_title ++ "'" in
                       Ok (sheets_failure extracted_data error_msg (exn_str e) error_msg)
                   | Ok _ =>
                       match append_to_sheet w config extracted_data with
                       | Raise sheet_error =>
                           Ok (sheets_failure extracted_data
                                 ("Failed to write to Google Sheets: " ++ exn_str sheet_error)
                                 (exn_str sheet_error)
                                 ("Failed to write to spreadsheet '"
                                    ++ py_str spreadsheet_title ++ "': " ++ exn_str sheet_error))
                       | Ok sheet_resp =>
                           let non_empty_fields :=
                             keys (filter (fun kv => negb (is_empty_value (snd kv))) extracted_data) in
                           let num_fields := List.length non_empty_fields in
                           let sample_fields :=
                             (match non_empty_fields with
                              | [] => "(no fields)"
                              | _ => PyStr.join ", " (firstn 5 non_empty_fields)
                              end)
                             ++ (if (5 <? num_fields)%nat then ", ..." else "") in
                           let summary :=
                             "Saved " ++ PyStr.str_of_nat num_fields ++ " field(s) ("
                               ++ sample_fields ++ ") to spreadsheet '"
                               ++ py_str spreadsheet_title ++ "' (worksheet: '"
                               ++ py_str worksheet_name ++ "')." in
                           Ok [("success", VBool true);
                               ("data", VDict extracted_data);
                               ("type", VStr "sheets");
                               ("message", VStr "Successfully saved your information to Google Sheets");
                               ("sheet_info", VDict [("spreadsheet", spreadsheet_title);
                                                     ("worksheet", worksheet_name)]);
                               ("summary", VStr summary);
                               ("append_response", sheet_resp)]
                       end
                   end
               end
           end)
    (fun e =>
       Ok (sheets_failure extracted_data ("Sheets tool error: " ++ exn_str e) (exn_str e)
             ("Sheets tool error: " ++ exn_str e))).

Fixpoint collect {A B} (f : A -> result B) (l : list A) : result (list B) :=
  match l with
  | [] => Ok []
  | x :: r => y <- f x ;; ys <- collect f r ;; Ok (y :: ys)
  end.

(** tools.py:441-525 *)
Definition web_search_tool (extracted_data config : dict) : result dict :=
  let query :=
    py_or (py_or (py_or (get extracted_data "search_query") (get extracted_data "query"))
                 (get extracted_data "question"))
          (VStr "general search") in
  let tavily_key := match environ w "tavily_api_key" with Some t => VStr t | None => VNone end in
  if tavily_available w && truthy tavily_key then
    try_except
      (resp <- tavily_search w query ;;
       resp <- dict_of resp ;;
       results <- collect
                    (fun r =>
                       r <- dict_of r ;;
                       Ok (VDict [("title", get r "title");
                                  ("url", get r "url");
                                  ("snippet", py_or (get r "content") (VStr ""));
                                  ("score", get r "score")]))
                    (as_list (get_default resp "results" (VList []))) ;;
       let summary :=
         "Found " ++ PyStr.str_of_nat (List.length results) ++ " results for: " ++ py_str query in
       Ok [("success", VBool true);
           ("data", VDict [("query", query);
                           ("engine", VStr "tavily");
                           ("results", VList results);
                           ("result_count", VInt (Z.of_nat (List.length results)))]);
           ("type", VStr "tavily");
           ("message", VStr summary);
           ("summary", VStr summary)])
      (fun e =>
         let summary := "Tavily search failed: " ++ exn_str e in
         Ok [("success", VBool false);
             ("data", VDict [("query", query)]);
             ("type", VStr "web_search");
             ("message", VStr summary);
             ("error", VStr (exn_str e));
             ("summary", VStr summary)])
  else
    Ok [("success", VBool false);
        ("data", VDict [("query", query)]);
        ("type", VStr "web_search");
        ("message", VStr "Web search unavailable: Tavily API key not configured");
        ("error", VStr "Missing Tavily API key");
        ("summary", VStr "Web search unavailable: Tavily API key not configured")].

Definition email_failure (extracted_data : dict) (message error : string) : dict :=
  [("success", VBool false);
   ("data", VDict extracted_data);
   ("type", VStr "email");
   ("message", VStr message);
   ("error", VStr error)].

(** tools.py:528-645 *)
Definition email_tool (extracted_data config : dict) : result dict :=
  match import_smtplib w with
  | Raise (ImportError m) =>
      Ok (email_failure extracted_data ("Email dependencies not available: " ++ m)
            "Missing dependencies")
  | Raise e => Raise e
  | Ok _ =>
    let recipient := py_or (get extracted_data "email") (get extracted_data "recipient") in
    subject <-
      (if truthy (get extracted_data "subject") then Ok (get extracted_data "subject")
       else
         email_cfg <- dict_of (get_default config "email" (VDict [])) ;;
         Ok (get_default email_cfg "default_subject" (VStr "Message from Assistant"))) ;;
    let message :=
      py_or (py_or (get extracted_data "message") (get extracted_data "body"))
            (VStr "No message content provided") in
    if negb (truthy recipient) then
      Ok (email_failure extracted_data "No recipient email address provided" "Missing recipient")
    else
      email_config <- dict_of (get_default config "email" (VDict [])) ;;
      let smtp_server := get email_config "smtp_server" in
      let smtp_port := get_default email_config "smtp_port" (VInt 587) in
      let username := get email_config "username" in
      let password := get email_config "password" in
      let use_tls := get_default email_config "use_tls" (VBool true) in
      if negb (truthy smtp_server && truthy username && truthy password) then
        Ok (email_failure extracted_data
              "Email configuration incomplete (missing smtp_server, username, or password)"
              "Incomplete configuration")
      else
        match smtp_send w smtp_server smtp_port use_tls username password
                recipient subject message with
        | Ok _ =>
            Ok [("success", VBool true);
                ("data", VDict [("recipient", recipient);
                                ("subject", subject);
                                ("message", message);
                                ("smtp_server", smtp_server)]);
                ("type", VStr "email");
                ("message", VStr ("Email sent successfully to " ++ py_str recipient))]
        | Raise e =>
            Ok (email_failure extracted_data ("Email sending failed: " ++ exn_str e) (exn_str e))
        end
  end.

(** *** Registry and executor *)

Definition tool_fn : Type := dict -> dict -> result dict.

(** tools.py:648-653 *)
Definition AVAILABLE_TOOLS : list (string * tool_fn) :=
  [("sheets", sheets_tool);
   ("web_search", web_search_tool);
   ("tavily", web_search_tool);
   ("api_retrieval", api_retrieval_tool)].

Fixpoint registry_find (reg : list (string * tool_fn)) (k : string) : option tool_fn :=
  match reg with
  | [] => None
  | (k', f) :: r => if String.eqb k' k then Some f else registry_find r k
  end.

(** [reg[k]] *)
Definition subscript (reg : list (string * tool_fn)) (k : string) : result tool_fn :=
  of_option (registry_find reg k) (KeyError k).

(** [reg.get(k, dflt)] *)
Definition registry_get (reg : list (string * tool_fn)) (k : pyobj) (dflt : tool_fn)
  : result tool_fn :=
  match k with
  | VStr s => Ok (match registry_find reg s with Some f => f | None => dflt end)
  | VList _ | VDict _ => Raise (TypeError ("unhashable type: '" ++ type_name k ++ "'"))
  | _ => Ok dflt
  end.

(** tools.py:655-681.  The arguments of [.get] are evaluated before the
    call, the default [AVAILABLE_TOOLS["generic"]] among them. *)
Definition execute_tool (tool_type : pyobj) (extracted_data config : dict) : result dict :=
  try_except
    (generic <- subscript AVAILABLE_TOOLS "generic" ;;
     tool_func <- registry_get AVAILABLE_TOOLS tool_type generic ;;
     tool_func extracted_data config)
    (fun e =>
       Ok [("success", VBool false);
           ("data", VDict extracted_data);
           ("type", tool_type);
           ("message", VStr ("Tool execution failed: " ++ exn_str e));
           ("error", VStr (exn_str e))]).

End Tools.
End Tools.

(** ** nodes.py

    The language model is outside the program: a node takes the text (or
    the exception) its call to the model produced as an argument.  The
    prompt handed to the model and what a node prints are not modelled. *)

Module Nodes.
Section Nodes.
Context {RT : Runtime}.

Definition message (role content : string) : pyobj :=
  VDict [("role", VStr role); ("content", VStr content)].

(** nodes.py:29-39; this definition shadows the one imported from
    utilities.py *)
Fixpoint are_required_fields_complete (data : dict) (fields : list pyobj) : result bool :=
  match fields with
  | [] => Ok true
  | f :: rest =>
      f <- dict_of f ;;
      if truthy (get f "required") then
        let name := get f "name" in
        if negb (truthy name) then are_required_fields_complete data rest
        else
          val <- get_obj data name ;;
          if Validation.blank val then Ok false
          else are_required_fields_complete data rest
      else are_required_fields_complete data rest
  end.

(** nodes.py:684-691 *)
Definition parse_decision (llm_response : string) : string * string :=
  match Regex.search Regex.DECISION_REGEX llm_response with
  | Some groups => (PyStr.strip (nth 0 groups ""), PyStr.strip (nth 1 groups ""))
  | None => ("chat", PyStr.strip llm_response)
  end.

(** nodes.py:694-701, the first configured tool whose name is the decision
    up to case; the pair is (chosen_tool, tool_category). *)
Definition names_decision (next_action : string) (t : dict) : bool :=
  match get t "name" with
  | VStr name => negb (String.eqb name "") && String.eqb (PyStr.lower name) (PyStr.lower next_action)
  | _ => false
  end.

Definition resolve_tool (config : dict) (next_action : string) : pyobj * pyobj :=
  match find (names_decision next_action) (dicts (py_or (get config "tools") (VList []))) with
  | Some t => (get t "name", get t "type")
  | None => (VNone, VNone)
  end.

(** nodes.py:704-705 *)
Definition recent_actions (state : dict) : list dict :=
  let action_history := dicts (py_or (get_default state "action_history" (VList [])) (VList [])) in
  if (3 <=? List.length action_history)%nat then Utilities.last_n 3 action_history
  else action_history.

(** nodes.py:708 *)
Definition router_decisions (recent : list dict) : list pyobj :=
  map (fun a => get_default a "outcome" (VStr ""))
      (filter (fun a => py_eq (get a "node") (VStr "DECISION_ROUTER")) recent).

(** nodes.py:706-711 *)
Definition repeated_tool (state : dict) (chosen_tool : pyobj) : bool :=
  let recent := recent_actions state in
  if truthy chosen_tool && match recent with [] => false | _ => true end then
    let decisions := router_decisions recent in
    (2 <=? List.length decisions)%nat
    && forallb (fun d => py_in chosen_tool (py_or d (VStr ""))) decisions
  else false.

(** nodes.py:620-736 *)
Definition decision_router_node (state config : dict) (llm_response : string) : dict :=
  let old_state := state in
  let extracted_data := get_default state "extracted_data" (VDict []) in
  let user_input := get_default state "user_input" (VStr "") in
  let (next_action, justification) := parse_decision llm_response in
  let (chosen_tool, tool_category) := resolve_tool config next_action in
  let repeated := repeated_tool state chosen_tool in
  let chosen_tool := if repeated then VNone else chosen_tool in
  let tool_category := if repeated then VNone else tool_category in
  let next_action := if repeated then "chat" else next_action in
  let decision_context :=
    VDict [("user_intent", user_input);
           ("available_data", extracted_data);
           ("tool_requirements",
             if truthy chosen_tool then Utilities.get_tool_requirements config chosen_tool
             else VList []);
           ("reasoning", VStr justification);
           ("alternatives_considered",
             Utilities.get_alternative_actions config (as_dict extracted_data))] in
  let new_state :=
    update state
      [("next_action", py_or chosen_tool (VStr next_action));
       ("decision_justification", VStr justification);
       ("chosen_tool", py_or chosen_tool (get state "chosen_tool"));
       ("tool_category", py_or tool_category (get state "tool_category"));
       ("decision_context", decision_context)] in
  Utilities.log_node_execution "DECISION_ROUTER" old_state new_state.

(** nodes.py:103-144 *)
Definition chat_node (state config : dict) (agent_message : string) : dict :=
  let old_state := state in
  let messages := as_list (get_default state "messages" (VList [])) in
  let messages := (messages ++ [message "assistant" agent_message])%list in
  let new_state :=
    update state
      [("messages", VList messages);
       ("user_input", VStr "");
       ("conversation_active", VBool true)] in
  Utilities.log_node_execution "CHAT_NODE" old_state new_state.

(** nodes.py:147-177.  [resume] is what [interrupt] returns when the run
    is resumed. *)
Definition wait_user_input_node (state : dict) (resume : pyobj) : result dict :=
  let old_state := state in
  let existing_input := get_default state "user_input" (VStr "") in
  let messages := as_list (get_default state "messages" (VList [])) in
  um <-
    (match existing_input with
     | VStr s =>
         if truthy existing_input && negb (String.eqb (PyStr.strip s) "") then
           let unchanged :=
             match Utilities.last_of (map as_dict messages) with
             | None => false
             | Some m => py_eq (get m "role") (VStr "user") && py_eq (get m "content") existing_input
             end in
           Ok (Some (existing_input,
                     if unchanged then messages
                     else (messages ++ [message "user" s])%list))
         else Ok None
     | _ => Ok None
     end) ;;
  um <-
    (match um with
     | Some p => Ok p
     | None =>
         if truthy resume then
           stripped <- str_method "strip" PyStr.strip resume ;;
           Ok (resume,
               if negb (String.eqb stripped "")
               then (messages ++ [VDict [("role", VStr "user"); ("content", resume)]])%list
               else messages)
         else Ok (resume, messages)
     end) ;;
  let (user_input, messages) := (um : pyobj * list pyobj) in
  let new_state := update state [("messages", VList messages); ("user_input", user_input)] in
  Ok (Utilities.log_node_execution "WAIT_USER_INPUT" old_state new_state).

(** nodes.py:883-894 *)
Definition end_node (state config : dict) : dict :=
  let old_state := state in
  let new_state :=
    update state [("conversation_active", VBool false); ("next_action", VStr "end")] in
  Utilities.log_node_execution "END" old_state new_state.

(** nodes.py:497-522 *)
Definition exit_evaluator_node (state config : dict) : result dict :=
  let old_state := state in
  let conditions := dicts (py_or (get_default config "exit_conditions" (VList [])) (VList [])) in
  mode <- str_method "lower" PyStr.lower (py_or (get config "exit_condition_mode") (VStr "or")) ;;
  results <- Tools.collect
               (fun c => ExitConditions.evaluate c state
                           (dicts (get_default state "messages" (VList []))))
               conditions ;;
  let met :=
    if String.eqb mode "or" then existsb (fun b => b) results
    else match results with
         | [] => false
         | _ => forallb (fun b => b) results
         end in
  let new_state :=
    if met then update state [("conversation_active", VBool false); ("next_action", VStr "end")]
    else update state [("conversation_active", VBool true)] in
  Ok (Utilities.log_node_execution "EXIT_EVALUATOR" old_state new_state).

(** nodes.py:381-386, the fields the prompt asks for *)
Definition tool_input_spec (fields : list pyobj) (tool_category : pyobj) : result (list dict) :=
  match fields with
  | _ :: _ =>
      fs <- Tools.collect dict_of fields ;;
      Ok (map (fun f => [("name", get f "name");
                         ("description", py_or (get f "description") (VStr ""))])
              (filter (fun f => truthy (get f "name")) fs))
  | [] =>
      if py_eq tool_category (VStr "retrieval") then
        Ok [[("name", VStr "query"); ("prompt", VStr "What should I search for?")]]
      else
        Ok [[("name", VStr "tool_input");
             ("prompt", VStr "Please provide the input for this operation.")]]
  end.

(** nodes.py:435, [{k: v.strip() if isinstance(v, str) else v ...}] *)
Definition strip_values (d : dict) : dict :=
  fold_left
    (fun acc kv =>
       dset acc (fst kv)
            (match snd kv with
             | VStr s => VStr (PyStr.strip s)
             | v => v
             end))
    d [].

(** nodes.py:431-438.  [reply] is the outcome of creating the JSON-mode
    model and invoking it, the content of its answer or an exception.  The
    second component lists the models the code turned to, in order. *)
Inductive llm_call : Type :=
| JsonMode
| Conversation.

Definition extract_with_llm (reply : result string) : dict * list llm_call :=
  let attempt : result dict :=
    content <- reply ;;
    parsed <- of_option (json_loads content) (ValueError "Expecting value") ;;
    match parsed with
    | VDict d => Ok (strip_values d)
    | _ => Raise (no_attribute parsed "items")
    end in
  match attempt with
  | Ok extracted => (extracted, [JsonMode])
  | Raise _ => ([], [JsonMode])
  end.

(** nodes.py:441-444 *)
Definition merge_extracted (extracted_data extracted : dict) : dict :=
  fold_left
    (fun merged kv =>
       let (k, v) := (kv : string * pyobj) in
       if negb (has_key merged k) || negb (truthy (get merged k)) then dset merged k v
       else merged)
    extracted extracted_data.

(** nodes.py:351-459 *)
Definition structured_extractor_node (state config : dict) (reply : result string)
  : result dict :=
  let old_state := state in
  let extracted_data := as_dict (get_default state "extracted_data" (VDict [])) in
  let messages := get_default state "messages" (VList []) in
  let (selected_tool, tool_cfg) := Utilities.get_selected_tool_config config state in
  let tool_type := py_or selected_tool (get_default config "tool_type" (VStr "unknown")) in
  let tool_category := Utilities.get_tool_category config tool_type in
  let normalized_schema_fields := Utilities.selected_schema config state in
  let complete :=
    match normalized_schema_fields with
    | [] => false
    | _ => match are_required_fields_complete extracted_data normalized_schema_fields with
           | Ok b => b
           | Raise _ => false
           end
    end in
  if complete then
    Ok (Utilities.log_node_execution "STRUCTURED_EXTRACTOR" old_state
          (update state [("next_action", VStr "validate_inputs");
                         ("chosen_tool", tool_type);
                         ("tool_category", tool_category)]))
  else
    spec <- tool_input_spec normalized_schema_fields tool_category ;;
    let extracted := fst (extract_with_llm reply) in
    let merged := merge_extracted extracted_data extracted in
    if negb (truthy (VDict extracted)) && negb (truthy messages) then
      question <-
        (if py_eq tool_category (VStr "retrieval") then
           Ok (VStr "What would you like me to search for?")
         else
           match spec with
           | first :: _ =>
               Ok (get_default first "prompt" (VStr "Could you share the necessary details?"))
           | [] => Raise (IndexError "list index out of range")
           end) ;;
      let messages2 :=
        (as_list messages ++ [VDict [("role", VStr "assistant"); ("content", question)]])%list in
      Ok (Utilities.log_node_execution "STRUCTURED_EXTRACTOR" old_state
            (update state [("messages", VList messages2); ("next_action", VStr "chat")]))
    else
      Ok (Utilities.log_node_execution "STRUCTURED_EXTRACTOR" old_state
            (update state [("extracted_data", VDict merged);
                           ("next_action", VStr "validate_inputs");
                           ("chosen_tool", tool_type);
                           ("tool_category", tool_category)])).

(** nodes.py:462-494 *)
Definition validate_inputs_node (state config : dict) : result dict :=
  let old_state := state in
  let extracted_data := as_dict (get_default state "extracted_data" (VDict [])) in
  let messages := as_list (get_default state "messages" (VList [])) in
  let (selected_tool, tool_cfg) := Utilities.get_selected_tool_config config state in
  let tool_type := py_or selected_tool (get_default config "tool_type" (VStr "unknown")) in
  let schema_fields := Utilities.selected_schema config state in
  ve <- Validation.validate_against_schema extracted_data schema_fields ;;
  let (validated, val_errors) := (ve : dict * list string) in
  match val_errors with
  | _ :: _ =>
      let msg := PyStr.join "; " val_errors in
      let messages2 :=
        (messages ++
         [message "assistant" ("I need a bit more information or corrections: " ++ msg)])%list in
      Ok (Utilities.log_node_execution "VALIDATE_INPUTS" old_state
            (update state [("messages", VList messages2);
                           ("validation_errors", vstrs val_errors);
                           ("next_action", VStr "chat")]))
  | [] =>
      let merged := update extracted_data validated in
      Ok (Utilities.log_node_execution "VALIDATE_INPUTS" old_state
            (update state [("extracted_data", VDict merged);
                           ("validation_errors", VList []);
                           ("next_action", VStr "tool_execution");
                           ("chosen_tool", tool_type)]))
  end.

End Nodes.

(** *** Tool execution, tool answer and translation *)

Section ToolNodes.
Context {RT : Runtime}.
Variable w : Tools.World.

(** [x is True] *)
Definition is_True (v : pyobj) : bool :=
  match v with VBool true => true | _ => false end.

(** nodes.py:744, [{k: str(v) if not isinstance(v, str) else v ...}] *)
Definition stringify_values (d : dict) : dict :=
  fold_left
    (fun acc kv =>
       dset acc (fst kv)
            (match snd kv with
             | VStr s => VStr s
             | v => VStr (py_str v)
             end))
    d [].

(** nodes.py:759-763 and 771-777, the name of the first retrieval tool when
    the state carries a query specification *)
Definition first_retrieval_tool (config : dict) : option pyobj :=
  option_map (fun t => get t "name")
    (find (fun t => py_eq (get t "type") (VStr "retrieval"))
          (dicts (py_or (get_default config "tools" (VList [])) (VList [])))).

Definition from_query_spec (state config : dict) (tool_type : pyobj) : pyobj :=
  if truthy (py_or (get state "query_spec") (VDict [])) then
    match first_retrieval_tool config with
    | Some name => name
    | None => tool_type
    end
  else tool_type.

(** nodes.py:749-777 *)
Definition resolve_tool_type (state config : dict) : pyobj :=
  let chosen := get state "chosen_tool" in
  let next_action := get state "next_action" in
  let tool_type := if truthy chosen then chosen else VNone in
  let tool_type :=
    if negb (truthy tool_type) && truthy next_action
       && negb (py_eq next_action (VStr "tool_execution"))
    then next_action else tool_type in
  let tool_type :=
    if negb (truthy tool_type) then from_query_spec state config tool_type else tool_type in
  let tool_type :=
    if negb (truthy tool_type) then py_or (get config "tool_type") (VStr "generic")
    else tool_type in
  if negb (truthy chosen) then from_query_spec state config tool_type else tool_type.

Definition registered (k : string) : bool :=
  match Tools.registry_find (Tools.AVAILABLE_TOOLS w) k with
  | Some _ => true
  | None => false
  end.

(** [k in AVAILABLE_TOOLS] *)
Definition in_registry (k : pyobj) : result bool :=
  match k with
  | VStr s => Ok (registered s)
  | VList _ | VDict _ => Raise (TypeError ("unhashable type: '" ++ type_name k ++ "'"))
  | _ => Ok false
  end.

(** nodes.py:805-818, the loop over the configured tools *)
Fixpoint infer_from_tools (tools : list dict) : result pyobj :=
  match tools with
  | [] => Ok VNone
  | t :: rest =>
      if py_eq (get t "type") (VStr "retrieval") || py_eq (get t "type") (VStr "input") then
        let name := get t "name" in
        let impl := get t "impl" in
        impl_known <- (if truthy impl then in_registry impl else Ok false) ;;
        if impl_known then Ok impl
        else
          name_known <- in_registry name ;;
          if name_known then Ok name else infer_from_tools rest
      else infer_from_tools rest
  end.

(** nodes.py:787-820, the implementation to run for a tool type that is
    not registered *)
Definition infer_tool_type (state config runtime_cfg : dict) (tool_type : pyobj)
  : result pyobj :=
  let tool_cfg := snd (Utilities.get_selected_tool_config config state) in
  impl_known <-
    (if truthy tool_cfg then in_registry (get (as_dict tool_cfg) "impl") else Ok false) ;;
  if impl_known then Ok (get (as_dict tool_cfg) "impl")
  else
    let inferred :=
      match find registered (keys runtime_cfg) with
      | Some k => VStr k
      | None => VNone
      end in
    let inferred :=
      if negb (truthy inferred) then
        match infer_from_tools
                (dicts (py_or (get_default config "tools" (VList [])) (VList []))) with
        | Ok x => x
        | Raise _ => VNone
        end
      else inferred in
    Ok (if truthy inferred then inferred else tool_type).

(** nodes.py:741-844, the body of the [try] *)
Definition tool_execution_attempt (state config : dict) : result dict :=
  extracted_data <-
    (match get_default state "extracted_data" (VDict []) with
     | VDict d => Ok (stringify_values d)
     | v => Raise (no_attribute v "items")
     end) ;;
  let tool_type := resolve_tool_type state config in
  let runtime_cfg := Utilities.build_runtime_tool_config config state in
  known <- in_registry tool_type ;;
  tool_type <-
    (if known then Ok tool_type else infer_tool_type state config runtime_cfg tool_type) ;;
  tool_result <- Tools.execute_tool w tool_type extracted_data runtime_cfg ;;
  let messages := as_list (get_default state "messages" (VList [])) in
  Ok (update state [("tool_result", VDict tool_result); ("messages", VList messages)]).

(** nodes.py:738-855 *)
Definition tool_execution_node (state config : dict) : dict :=
  let old_state := state in
  let new_state :=
    match tool_execution_attempt state config with
    | Ok new_state => new_state
    | Raise e =>
        let messages := as_list (get_default state "messages" (VList [])) in
        let messages := (messages ++ [message "assistant" ("Tool error: " ++ exn_str e)])%list in
        update state [("tool_result", VDict [("error", VStr (exn_str e))]);
                      ("messages", VList messages)]
    end in
  Utilities.log_node_execution "TOOL_EXECUTION" old_state new_state.

(** nodes.py:548-556 *)
Definition last_tool_summary_of (tool_result tool_category : pyobj) : string :=
  match tool_result with
  | VDict tr =>
      if is_True (get tr "success") then
        if py_eq tool_category (VStr "retrieval") then
          "Search completed successfully: "
            ++ py_str (get_default tr "message" (VStr "Information found"))
        else
          "Data saved successfully: "
            ++ py_str (get_default tr "message" (VStr "Operation completed"))
      else
        "Tool execution failed: " ++ py_str (get_default tr "error" (VStr "Unknown error"))
  | _ => ""
  end.

(** nodes.py:528-598.  [reply] is the outcome of building the prompt and
    invoking the model on it: the content of the answer, or an exception. *)
Definition tool_answer_node (state config : dict) (reply : result pyobj) : result dict :=
  let old_state := state in
  let messages := as_list (get_default state "messages" (VList [])) in
  let tool_result := py_or (get_default state "tool_result" (VDict [])) (VDict []) in
  let extracted_data := py_or (get_default state "extracted_data" (VDict [])) (VDict []) in
  let tool_category := get_default state "tool_category" (VStr "input") in
  let chosen_tool := get_default state "chosen_tool" (VStr "unknown") in
  let last_tool_summary := last_tool_summary_of tool_result tool_category in
  let llm_answer :=
    match (_ <- dict_of tool_result ;;
           content <- reply ;;
           str_method "strip" PyStr.strip (py_or content (VStr ""))) with
    | Ok answer => answer
    | Raise _ => last_tool_summary
    end in
  tr <- dict_of tool_result ;;
  let tool_ctx :=
    VDict [("tool", chosen_tool);
           ("category", tool_category);
           ("status", VStr (if truthy (get tr "success") then "success" else "failure"));
           ("summary", VStr last_tool_summary);
           ("data", extracted_data)] in
  let messages := (messages ++ [message "assistant" llm_answer])%list in
  let new_state :=
    update state
      [("messages", VList messages);
       ("user_input", VStr "");
       ("last_tool_summary", VStr last_tool_summary);
       ("last_tool_context", tool_ctx);
       ("next_action", VStr "wait_user_input")] in
  Ok (Utilities.log_node_execution "TOOL_ANSWER" old_state new_state).

(** nodes.py:905-906 and 984-985 *)
Definition translation_config (config : dict) : dict :=
  as_dict (get_default config "translation" (VDict [])).

(** nodes.py:897-973.  [reply] is the outcome of invoking the model on the
    translation prompt. *)
Definition input_translation_node (state config : dict) (reply : result pyobj) : dict :=
  let old_state := state in
  let tc := translation_config config in
  if negb (truthy (get_default tc "enabled" (VBool false))) then
    Utilities.log_node_execution "INPUT_TRANSLATION" old_state
      (update old_state
         [("translation_enabled", VBool false);
          ("original_language", VStr "English");
          ("translated_input", get_default old_state "user_input" (VStr ""));
          ("target_language", VStr "English")])
  else
    let source_language := get_default tc "source_language" (VStr "Hungarian") in
    let target_language := get_default tc "target_language" (VStr "English") in
    let user_input := get_default old_state "user_input" (VStr "") in
    match (content <- reply ;; str_method "strip" PyStr.strip content) with
    | Ok translation_result =>
        Utilities.log_node_execution "INPUT_TRANSLATION" old_state
          (update old_state
             [("translation_enabled", VBool true);
              ("original_language", source_language);
              ("translated_input", VStr translation_result);
              ("target_language", target_language);
              ("user_input", VStr translation_result)])
    | Raise e =>
        Utilities.log_node_execution "INPUT_TRANSLATION" old_state
          (update old_state
             [("translation_enabled", VBool false);
              ("original_language", source_language);
              ("translated_input", user_input);
              ("target_language", target_language);
              ("error_message", VStr ("Translation failed: " ++ exn_str e))])
    end.

(** [l[-1] = x] on a list that is not empty *)
Definition set_last {A} (l : list A) (x : A) : list A := (removelast l ++ [x])%list.

(** nodes.py:976-1059.  [reply] as above. *)
Definition output_translation_node (state config : dict) (reply : result pyobj) : dict :=
  let old_state := state in
  let tc := translation_config config in
  if negb (truthy (get_default tc "enabled" (VBool false))) then
    Utilities.log_node_execution "OUTPUT_TRANSLATION" old_state old_state
  else
    let messages := as_list (get_default old_state "messages" (VList [])) in
    match Utilities.last_of messages with
    | None => Utilities.log_node_execution "OUTPUT_TRANSLATION" old_state old_state
    | Some last_message =>
        let last_message := as_dict last_message in
        if negb (py_eq (get last_message "role") (VStr "assistant")) then
          Utilities.log_node_execution "OUTPUT_TRANSLATION" old_state old_state
        else
          match (content <- reply ;; str_method "strip" PyStr.strip content) with
          | Ok translation_result =>
              let updated_messages :=
                set_last messages
                  (VDict (update last_message [("content", VStr translation_result)])) in
              Utilities.log_node_execution "OUTPUT_TRANSLATION" old_state
                (update old_state [("messages", VList updated_messages)])
          | Raise e =>
              Utilities.log_node_execution "OUTPUT_TRANSLATION" old_state
                (update old_state
                   [("error_message", VStr ("Response translation failed: " ++ exn_str e))])
          end
    end.

End ToolNodes.
End Nodes.

(** ** graph_builder.py *)

Module GraphBuilder.
Section GraphBuilder.
Context {RT : Runtime}.

Inductive node : Type :=
| wait_user_input
| input_translation
| decision_router
| chat
| structured_extractor
| validate_inputs
| tool_execution
| tool_answer
| output_translation
| exit_evaluator
| end_
| graph_end.        (* the [__end__] of the graph *)

(** graph_builder.py:67-72 *)
Definition tool_names (config : dict) : list pyobj :=
  map (fun t => get t "name")
      (filter (fun t => truthy (get t "name") && Utilities.enabled t)
              (dicts (py_or (get_default config "tools" (VList [])) (VList [])))).

(** graph_builder.py:75 *)
Definition translation_enabled (config : dict) : bool :=
  truthy (get_default (as_dict (get_default config "translation" (VDict []))) "enabled"
            (VBool false)).

(** graph_builder.py:82-93 *)
Definition decision_router_fn (config state : dict) : node :=
  let next_action := get_default state "next_action" (VStr "chat") in
  if existsb (py_eq next_action) (tool_names config) then structured_extractor
  else if py_eq next_action (VStr "end") then end_
  else chat.

(** graph_builder.py:127-129 *)
Definition validate_router (state : dict) : node :=
  if truthy (get_default state "validation_errors" (VList [])) then chat else tool_execution.

(** [x is False] *)
Definition is_False (v : pyobj) : bool :=
  match v with VBool false => true | _ => false end.

(** graph_builder.py:153-154 *)
Definition exit_router (state : dict) : node :=
  if py_eq (get state "next_action") (VStr "end") || is_False (get state "conversation_active")
  then end_ else decision_router.

(** The edges of the compiled graph: the node that runs after [n] has
    produced [state]. *)
Definition successor (config : dict) (n : node) (state : dict) : option node :=
  match n with
  | wait_user_input =>
      Some (if translation_enabled config then input_translation else decision_router)
  | input_translation => Some decision_router
  | decision_router => Some (decision_router_fn config state)
  | chat => Some (if translation_enabled config then output_translation else wait_user_input)
  | structured_extractor => Some validate_inputs
  | validate_inputs => Some (validate_router state)
  | tool_execution => Some tool_answer
  | tool_answer =>
      Some (if translation_enabled config then output_translation else wait_user_input)
  | output_translation => if translation_enabled config then Some wait_user_input else None
  | exit_evaluator => Some (exit_router state)
  | end_ => Some graph_end
  | graph_end => None
  end.

(** What running a node does to the state, for the nodes modelled above;
    the text a language model returns and the user input are free. *)
Inductive runs_to (config : dict) : node -> dict -> dict -> Prop :=
| run_wait : forall state resume state',
    Nodes.wait_user_input_node state resume = Ok state' ->
    runs_to config wait_user_input state state'
| run_router : forall state llm_response,
    runs_to config decision_router state (Nodes.decision_router_node state config llm_response)
| run_chat : forall state agent_message,
    runs_to config chat state (Nodes.chat_node state config agent_message)
| run_extractor : forall state reply state',
    Nodes.structured_extractor_node state config reply = Ok state' ->
    runs_to config structured_extractor state state'
| run_validate : forall state state',
    Nodes.validate_inputs_node state config = Ok state' ->
    runs_to config validate_inputs state state'
| run_exit : forall state state',
    Nodes.exit_evaluator_node state config = Ok state' ->
    runs_to config exit_evaluator state state'
| run_end : forall state,
    runs_to config end_ state (Nodes.end_node state config).



(** graph_builder.py:64 *)
Definition entry_point : node := wait_user_input.

End GraphBuilder.

(** *** The whole graph

    The nodes of [runs_to] together with tool execution, tool answer and the
    two translation nodes. *)

Section WholeGraph.
Context {RT : Runtime}.
Variable w : Tools.World.
Variable config : dict.

Inductive node_runs : node -> dict -> dict -> Prop :=
| runs_modelled : forall n state state',
    runs_to config n state state' ->
    node_runs n state state'
| runs_tool_execution : forall state,
    node_runs tool_execution state (Nodes.tool_execution_node w state config)
| runs_tool_answer : forall state reply state',
    Nodes.tool_answer_node state config reply = Ok state' ->
    node_runs tool_answer state state'
| runs_input_translation : forall state reply,
    node_runs input_translation state (Nodes.input_translation_node state config reply)
| runs_output_translation : forall state reply,
    node_runs output_translation state (Nodes.output_translation_node state config reply).

Inductive graph_step : node * dict -> node * dict -> Prop :=
| graph_step_node : forall n state state' n',
    node_runs n state state' ->
    successor config n state' = Some n' ->
    graph_step (n, state) (n', state').

Inductive graph_steps : node * dict -> node * dict -> Prop :=
| graph_steps_refl : forall c, graph_steps c c
| graph_steps_cons : forall c1 c2 c3,
    graph_step c1 c2 -> graph_steps c2 c3 -> graph_steps c1 c3.

End WholeGraph.
End GraphBuilder.

(** ** llamaindex_agent.py *)

Module LlamaindexAgent.
Section LlamaindexAgent.
Context {RT : Runtime}.

(** llamaindex_agent.py:65-69 *)
Record QuestionsGeneratedEvent : Type := {
  success : bool;
  questions : list pyobj;
  language : string;
  fallback : bool
}.

(** The prompt of lines 228-252 is a fixed text around these two values. *)
Record prompt : Type := {
  prompt_language : string;
  prompt_sample_text : string
}.

(** The two models of the workflow (lines 105-106): the content of the
    answer to a prompt, or an exception. *)
Record Models : Type := {
  json_llm : prompt -> result string;
  conversation_llm : prompt -> result string
}.

Variable llms : Models.

(** [json.loads(response)["questions"]] *)
Definition questions_of (response : string) : result pyobj :=
  questions_data <- of_option (json_loads response) (ValueError "Expecting value") ;;
  match questions_data with
  | VDict d => of_option (dget d "questions") (KeyError "questions")
  | VList _ => Raise (TypeError "list indices must be integers or slices, not str")
  | VStr _ => Raise (TypeError "string indices must be integers, not 'str'")
  | _ => Raise (TypeError ("'" ++ type_name questions_data ++ "' object is not subscriptable"))
  end.

(** The event constructor checks [questions: List[Dict[str, Any]]]. *)
Definition make_event (questions : pyobj) (language : string) : result QuestionsGeneratedEvent :=
  match questions with
  | VList l =>
      if forallb Utilities.is_dict l then
        Ok {| success := true; questions := l; language := language; fallback := false |}
      else Raise (ValueError "validation error for QuestionsGeneratedEvent")
  | _ => Raise (ValueError "validation error for QuestionsGeneratedEvent")
  end.

(** llamaindex_agent.py:292-303 *)
Definition fallback_questions (language : string) : list pyobj :=
  [VDict [("question", VStr ("What is the main topic of this article? (in " ++ language ++ ")"));
          ("correct_answer", VStr "Main topic based on article content");
          ("question_type", VStr "main_idea")];
   VDict [("question",
            VStr ("What are the key details mentioned in this article? (in " ++ language ++ ")"));
          ("correct_answer", VStr "Key details from the article");
          ("question_type", VStr "detail")]].

(** llamaindex_agent.py:254-269, the body of the outer [try] *)
Definition json_mode_attempt (p : prompt) (language : string) : result QuestionsGeneratedEvent :=
  response <- json_llm llms p ;;
  questions <- questions_of (PyStr.strip response) ;;
  _ <- len questions ;;
  make_event questions language.

(** llamaindex_agent.py:274-286, the body of the inner [try] *)
Definition conversation_attempt (p : prompt) (language : string)
  : result QuestionsGeneratedEvent :=
  response <- conversation_llm llms p ;;
  questions <- questions_of (PyStr.strip response) ;;
  make_event questions language.

(** llamaindex_agent.py:226-252 *)
Definition questions_prompt (document_text language : string) : prompt :=
  {| prompt_language := language; prompt_sample_text := PyStr.take 4000 document_text |}.

(** llamaindex_agent.py:220-312.  The result is the event together with the
    calls made, each with the prompt it received. *)
Definition generate_questions (document_text language : string)
  : QuestionsGeneratedEvent * list (Nodes.llm_call * prompt) :=
  let p := questions_prompt document_text language in
  match json_mode_attempt p language with
  | Ok ev => (ev, [(Nodes.JsonMode, p)])
  | Raise _ =>
      match conversation_attempt p language with
      | Ok ev => (ev, [(Nodes.JsonMode, p); (Nodes.Conversation, p)])
      | Raise _ =>
          ({| success := true;
              questions := fallback_questions language;
              language := language;
              fallback := true |},
           [(Nodes.JsonMode, p); (Nodes.Conversation, p)])
      end
  end.

End LlamaindexAgent.
End LlamaindexAgent.

(** ** A runtime to run the definitions on concrete inputs

    Floats are the integral ones, [json.loads] knows the empty object, and a
    run-time pattern is accepted when it is made of letters, digits and
    spaces (it then matches as a substring, case ignored).  On the inputs
    evaluated in this file these agree with CPython; the theorems do not
    depend on them. *)

Module SmallRuntime.

Definition plain_pattern (p : string) : bool :=
  String.eqb (PyStr.lstrip_by (fun c => PyStr.between 48 57 c || PyStr.between 65 90 c
                                        || PyStr.between 97 122 c
                                        || Nat.eqb (PyStr.code c) 32) p) "".

#[export] Instance small : Runtime := {|
  float := Z;
  float_nonzero := fun f => negb (f =? 0)%Z;
  float_eqb := Z.eqb;
  float_eq_int := Z.eqb;
  float_repr := fun f => PyStr.str_of_Z f ++ ".0";
  float_trunc := fun f => Some f;
  float_of_int := fun z => Some z;
  float_of_str := PyStr.int_of_str;
  json_loads := fun s => if String.eqb (PyStr.strip s) "{}" then Some (VDict []) else None;
  re_search_ignorecase := fun p s =>
    if plain_pattern p then Some (PyStr.contains (PyStr.lower p) (PyStr.lower s)) else None
|}.

End SmallRuntime.

(** ** Definitions used in the statements *)

Section StatementDefs.
Context {RT : Runtime}.

(** The binding [u] gives to [k], the last one if there are several. *)
Fixpoint dget_last (u : dict) (k : string) : option pyobj :=
  match u with
  | [] => None
  | (k', v) :: r =>
      match dget_last r k with
      | Some x => Some x
      | None => if String.eqb k' k then Some v else None
      end
  end.

(** A server that answers every request with [status] and [body]. *)
Definition answering (status : Z) (body : string) : Tools.World :=
  {| Tools.requests_available := true;
     Tools.import_smtplib := Ok tt;
     Tools.tavily_available := false;
     Tools.environ := fun _ => None;
     Tools.http_request := fun _ _ _ _ _ _ =>
       Ok {| Tools.status_code := status; Tools.text := body; Tools.json := None |};
     Tools.tavily_search := fun _ => Raise (OtherError "unreachable");
     Tools.smtp_send := fun _ _ _ _ _ _ _ _ => Raise (OtherError "unreachable");
     Tools.load_gspread_client := fun _ => Raise (OtherError "unreachable");
     Tools.open_spreadsheet := fun _ => Raise (OtherError "unreachable");
     Tools.open_worksheet := fun _ _ => Raise (OtherError "unreachable");
     Tools.append_to_sheet := fun _ _ => Raise (OtherError "unreachable") |}.

Definition api_config : dict :=
  [("api_retrieval", VDict [("base_url", VStr "https://api.example.org/items")])].

Definition user_says (content : string) : dict :=
  [("role", VStr "user"); ("content", VStr content)].

(** A value names an enabled tool of the configuration. *)
Definition names_enabled_tool (config : dict) (v : pyobj) : bool :=
  existsb (fun tool => py_eq (get tool "name") v && Utilities.enabled tool)
          (dicts (py_or (get config "tools") (VList []))).

(** The first enabled tool of the configuration, if there is one. *)
Definition first_enabled_tool (config : dict) : option dict :=
  find Utilities.enabled (dicts (py_or (get config "tools") (VList []))).

(** The extracted data a state holds. *)
Definition extracted_of (state : dict) : dict :=
  as_dict (get_default state "extracted_data" (VDict [])).









(** *** The validator, field by field *)







(** The retry of the specification, read on the extraction step of
    [structured_extractor_node]: a completion that does not parse is followed
    by one call to the other model. *)
Definition retries_once_when_unparsable (reply : result string) : Prop :=
  forall content,
    reply = Ok content ->
    json_loads content = None ->
    snd (Nodes.extract_with_llm reply) = [Nodes.JsonMode; Nodes.Conversation].

(** *** Vocabulary for the decision line *)

(** Every character of [s] is in the class [p]. *)
Fixpoint all_chars (p : ascii -> bool) (s : string) : bool :=
  match s with
  | EmptyString => true
  | String c r => p c && all_chars p r
  end.

(** [s] is empty or starts outside the class [p]: a greedy repetition of
    [p] stops there. *)
Definition stops (p : ascii -> bool) (s : string) : bool :=
  match s with
  | EmptyString => true
  | String c _ => negb (p c)
  end.

Definition nonempty (s : string) : bool := negb (String.eqb s "").

(** *** The decision line, in the words of the specification *)








(** *** Inputs for the concrete runs *)

(** Two models whose completions are not JSON. *)
Definition unparsable_models : LlamaindexAgent.Models :=
  {| LlamaindexAgent.json_llm := fun _ => Ok "not json";
     LlamaindexAgent.conversation_llm := fun _ => Ok "still not json" |}.



(** A configuration whose first tool is disabled. *)
Definition two_tool_config : dict :=
  [("tools",
     VList [VDict [("name", VStr "sheets"); ("type", VStr "input"); ("enabled", VBool false)];
            VDict [("name", VStr "web_search"); ("type", VStr "retrieval");
                   ("input_schema",
                     VList [VDict [("name", VStr "query"); ("required", VBool true)]])]])].

Definition state_naming_unknown_tool : dict :=
  [("messages", VList [Nodes.message "user" "find me a flat"]);
   ("chosen_tool", VStr "calendar");
   ("extracted_data", VDict [("query", VStr "flat in Lisbon")])].

(** *** Further vocabulary *)

(** The strings the e-mail pattern describes: a local part, an at sign, a
    domain, a dot and a last part, each part non-empty and free of at signs
    and whitespace, optionally followed by one final newline. *)
Definition email_shape (s : string) : Prop :=
  exists local domain tld tail,
    s = local ++ "@" ++ domain ++ "." ++ tld ++ tail /\
    nonempty local = true /\ all_chars Regex.not_at_space local = true /\
    nonempty domain = true /\ all_chars Regex.not_at_space domain = true /\
    nonempty tld = true /\ all_chars Regex.not_at_space tld = true /\
    (tail = "" \/ tail = String Regex.newline "").

(** A field the validator can read: a dict whose name is a string. *)
Definition readable (f : pyobj) : Prop :=
  exists d s, f = VDict d /\ get d "name" = VStr s.

(** A value [in] can search: a string, a list or a dict. *)
Definition is_container (v : pyobj) : bool :=
  match v with
  | VStr _ | VList _ | VDict _ => true
  | _ => false
  end.

(** *** The validator contract, in the words of the specification *)





Definition is_required (field : dict) : bool :=
  truthy (get_default field "required" (VBool false)).



(** The validator as the specification words it: a pair for every schema
    and every data, never an exception. *)
Definition validator_never_raises : Prop :=
  forall (data : dict) (schema : list dict),
  exists validated errors,
    Validation.validate_against_schema data (map VDict schema) = Ok (validated, errors).


(** The last message of the user has a string content, as
    [List[Dict[str, Any]]] messages built by the nodes do. *)
Definition user_contents_are_strings (msgs : list dict) : bool :=
  forallb (fun m => negb (py_eq (get m "role") (VStr "user"))
                    || is_str (get_default m "content" (VStr "")))
          msgs.

(** The expression of a prompt condition is a string, or is missing. *)
Definition prompt_expression_is_text (cond : dict) : bool :=
  negb (py_eq (get cond "type") (VStr "prompt"))
  || is_str (get cond "expression") || negb (truthy (get cond "expression")).

(** A message of the user. *)
Definition is_user (m : dict) : bool := py_eq (get m "role") (VStr "user").


(** The messages a state holds. *)
Definition messages_of (state : dict) : list pyobj :=
  as_list (get_default state "messages" (VList [])).

(** The name under which each node logs itself (the first argument of its
    calls to [log_node_execution]). *)
Definition label (n : GraphBuilder.node) : string :=
  match n with
  | GraphBuilder.wait_user_input => "WAIT_USER_INPUT"
  | GraphBuilder.input_translation => "INPUT_TRANSLATION"
  | GraphBuilder.decision_router => "DECISION_ROUTER"
  | GraphBuilder.chat => "CHAT_NODE"
  | GraphBuilder.structured_extractor => "STRUCTURED_EXTRACTOR"
  | GraphBuilder.validate_inputs => "VALIDATE_INPUTS"
  | GraphBuilder.tool_execution => "TOOL_EXECUTION"
  | GraphBuilder.tool_answer => "TOOL_ANSWER"
  | GraphBuilder.output_translation => "OUTPUT_TRANSLATION"
  | GraphBuilder.exit_evaluator => "EXIT_EVALUATOR"
  | GraphBuilder.end_ => "END"
  | GraphBuilder.graph_end => ""
  end.

(** The keys each node assigns in the state it returns, the action history
    apart. *)
Definition may_write (n : GraphBuilder.node) : list string :=
  match n with
  | GraphBuilder.wait_user_input => ["messages"; "user_input"]
  | GraphBuilder.input_translation =>
      ["translation_enabled"; "original_language"; "translated_input"; "target_language";
       "user_input"; "error_message"]
  | GraphBuilder.decision_router =>
      ["next_action"; "decision_justification"; "chosen_tool"; "tool_category";
       "decision_context"]
  | GraphBuilder.chat => ["messages"; "user_input"; "conversation_active"]
  | GraphBuilder.structured_extractor =>
      ["messages"; "extracted_data"; "next_action"; "chosen_tool"; "tool_category"]
  | GraphBuilder.validate_inputs =>
      ["messages"; "extracted_data"; "validation_errors"; "next_action"; "chosen_tool"]
  | GraphBuilder.tool_execution => ["tool_result"; "messages"]
  | GraphBuilder.tool_answer =>
      ["messages"; "user_input"; "last_tool_summary"; "last_tool_context"; "next_action"]
  | GraphBuilder.output_translation => ["messages"; "error_message"]
  | GraphBuilder.exit_evaluator => ["conversation_active"; "next_action"]
  | GraphBuilder.end_ => ["conversation_active"; "next_action"]
  | GraphBuilder.graph_end => []
  end.

(** The tool result a state holds reports no success. *)
Definition no_tool_success (state : dict) : Prop :=
  truthy (get (as_dict (get state "tool_result")) "success") = false.

(** The messages an update assigns, if it assigns any, extend those of the
    state; the output translation keeps their number. *)
Definition grows (n : GraphBuilder.node) (state u : dict) : Prop :=
  forall v, dget_last u "messages" = Some v ->
    exists l, v = VList l /\
              List.length (messages_of state) <= List.length l /\
              (n <> GraphBuilder.output_translation ->
               exists suffix, l = (messages_of state ++ suffix)%list).


Definition at_exit_evaluator (n : GraphBuilder.node) : bool :=
  match n with
  | GraphBuilder.exit_evaluator => true
  | _ => false
  end.

(** The state a node returned, when it did return. *)
Definition returned (r : result dict) : dict :=
  match r with
  | Ok state => state
  | Raise _ => []
  end.

(** *** Inputs for the further concrete runs *)

Definition farewell_messages : list dict :=
  [user_says "hello"; user_says "ok bye";
   [("role", VStr "assistant"); ("content", VStr "see you")]].

Definition farewell_condition : dict :=
  [("type", VStr "prompt"); ("expression", VStr "bye|quit")].

Definition signup_config : dict :=
  [("required_fields",
     VList [VDict [("name", VStr "name")];
            VDict [("name", VStr "email"); ("validate", VStr "email")]]);
   ("sheet", VDict [("spreadsheet_title", VStr "Leads"); ("worksheet_name", VStr "2024")]);
   ("credentials_path", VStr "credentials.json")].

Definition signup_data : dict :=
  [("name", VStr "Ann"); ("email", VStr "ann@example.org")].

Definition signup_data_bad_email : dict :=
  [("name", VStr "Ann"); ("email", VStr "ann at example")].

(** A world in which the spreadsheet is reachable and accepts rows. *)
Definition sheets_world : Tools.World :=
  {| Tools.requests_available := false;
     Tools.import_smtplib := Ok tt;
     Tools.tavily_available := false;
     Tools.environ := fun _ => None;
     Tools.http_request := fun _ _ _ _ _ _ => Raise (OtherError "unreachable");
     Tools.tavily_search := fun _ => Raise (OtherError "unreachable");
     Tools.smtp_send := fun _ _ _ _ _ _ _ _ => Raise (OtherError "unreachable");
     Tools.load_gspread_client := fun _ => Ok tt;
     Tools.open_spreadsheet := fun _ => Ok tt;
     Tools.open_worksheet := fun _ _ => Ok tt;
     Tools.append_to_sheet := fun _ _ => Ok (VDict [("updatedRows", VInt 1)]) |}.

Definition failed_tool_state : dict :=
  [("messages", VList []);
   ("tool_result", VDict [("success", VBool false); ("error", VStr "timeout")])].

Definition pending_input_state : dict :=
  [("messages", VList []); ("user_input", VStr "hi")].

End StatementDefs.

(** * Properties *)

(** ** Dictionaries *)

Section DictFacts.
Context {RT : Runtime}.

Lemma dget_dset (d : dict) (k k' : string) (v : pyobj) :
  dget (dset d k v) k' = if String.eqb k k' then Some v else dget d k'.
Proof.
  induction d as [|[k0 v0] r IH]; simpl.
  - destruct (String.eqb k k'); reflexivity.
  - destruct (String.eqb k0 k) eqn:E0; simpl.
    + apply String.eqb_eq in E0. subst k0.
      destruct (String.eqb k k'); reflexivity.
    + destruct (String.eqb k0 k') eqn:E1.
      * apply String.eqb_eq in E1. subst k0.
        rewrite String.eqb_sym, E0. reflexivity.
      * exact IH.
Qed.

Lemma get_dset_same (d : dict) (k : string) (v : pyobj) : get (dset d k v) k = v.
Proof.
  unfold get, get_default. rewrite dget_dset, String.eqb_refl. reflexivity.
Qed.

Lemma get_dset_other (d : dict) (k k' : string) (v : pyobj) :
  String.eqb k k' = false -> get (dset d k v) k' = get d k'.
Proof.
  intros H. unfold get, get_default. rewrite dget_dset, H. reflexivity.
Qed.

Lemma get_default_dset_other (d : dict) (k k' : string) (v dflt : pyobj) :
  String.eqb k k' = false -> get_default (dset d k v) k' dflt = get_default d k' dflt.
Proof.
  intros H. unfold get_default. rewrite dget_dset, H. reflexivity.
Qed.

Lemma dget_update (d u : dict) (k : string) :
  dget (update d u) k =
  match dget_last u k with
  | Some v => Some v
  | None => dget d k
  end.
Proof.
  unfold update. revert d.
  induction u as [|[k0 v0] r IH]; intros d; simpl.
  - reflexivity.
  - rewrite IH. destruct (dget_last r k); [reflexivity|].
    rewrite dget_dset. destruct (String.eqb k0 k); reflexivity.
Qed.

Lemma get_update (d u : dict) (k : string) :
  get (update d u) k =
  match dget_last u k with
  | Some v => v
  | None => get d k
  end.
Proof.
  unfold get, get_default. rewrite dget_update.
  destruct (dget_last u k); reflexivity.
Qed.

(** Logging only writes the action history. *)
Lemma get_log_node_execution (node_name : string) (old new : dict) (k : string) :
  String.eqb "action_history" k = false ->
  get (Utilities.log_node_execution node_name old new) k = get new k.
Proof.
  intros H. unfold Utilities.log_node_execution, Utilities.track_action.
  apply get_dset_other. exact H.
Qed.

Lemma get_default_dset_same (d : dict) (k : string) (v dflt : pyobj) :
  get_default (dset d k v) k dflt = v.
Proof.
  unfold get_default. rewrite dget_dset, String.eqb_refl. reflexivity.
Qed.

End DictFacts.

(** Reading a key through a stack of updates. *)
Ltac read_dict :=
  repeat (rewrite get_default_dset_same
          || (rewrite get_default_dset_other by reflexivity)
          || rewrite get_dset_same
          || (rewrite get_dset_other by reflexivity)).


(** ** Tool executor (tools.py) *)

Section ToolFacts.
Context {RT : Runtime}.

(** The registry has no entry named generic. *)
Lemma no_generic_tool (w : Tools.World) :
  Tools.registry_find (Tools.AVAILABLE_TOOLS w) "generic" = None.
Proof. reflexivity. Qed.

(** C2.  Whatever the tool type, registered or not, and whatever the data
    and the configuration, [execute_tool] does not raise, and what it
    returns is the failure envelope of its own exception handler: the
    default [AVAILABLE_TOOLS["generic"]] of the lookup raises [KeyError],
    since the registry holds no such entry, and no tool function is called.
    The turn gets a failed result with error ['generic'], not the result of
    a generic tool. *)
Theorem execute_tool_reports_missing_generic
    (w : Tools.World) (tool_type : pyobj) (extracted_data config : dict) :
  Tools.execute_tool w tool_type extracted_data config =
  Ok [("success", VBool false);
      ("data", VDict extracted_data);
      ("type", tool_type);
      ("message", VStr "Tool execution failed: 'generic'");
      ("error", VStr "'generic'")].
Proof. reflexivity. Qed.

(** C3.  [api_retrieval_tool], with a base URL configured and the server
    answering 404, returns an envelope whose [success] is false and which
    has no [error] key at all; its [summary] is set. *)
Theorem api_retrieval_failure_without_error (body : string) (extracted_data : dict) :
  exists envelope,
    Tools.api_retrieval_tool (answering 404 body) extracted_data api_config = Ok envelope /\
    get envelope "success" = VBool false /\
    has_key envelope "error" = false /\
    has_key envelope "summary" = true.
Proof.
  eexists. split; [reflexivity|].
  repeat split.
Qed.

(** The same for every status the server may answer: [success] is whether
    the status is a 2xx one, and no [error] key is written. *)
Lemma api_retrieval_response_has_no_error (status : Z) (body : string) (extracted_data : dict) :
  exists envelope,
    Tools.api_retrieval_tool (answering status body) extracted_data api_config = Ok envelope /\
    get envelope "success" = VBool ((200 <=? status)%Z && (status <? 300)%Z) /\
    has_key envelope "error" = false.
Proof.
  eexists. split; [reflexivity|]. split; reflexivity.
Qed.

(** The sibling path of the same function, the request raising, does set
    the key. *)
Lemma api_retrieval_exception_sets_error (w : Tools.World) (e : exn) (extracted_data : dict) :
  Tools.requests_available w = true ->
  (forall m u p b h t, Tools.http_request w m u p b h t = Raise e) ->
  exists envelope,
    Tools.api_retrieval_tool w extracted_data api_config = Ok envelope /\
    get envelope "success" = VBool false /\
    get envelope "error" = VStr (exn_str e).
Proof.
  intros Hreq Hhttp.
  unfold Tools.api_retrieval_tool. rewrite Hreq. vm_compute.
  rewrite Hhttp. eexists. split; [reflexivity|]. split; reflexivity.
Qed.

End ToolFacts.

(** ** Exit conditions (utilities.py) *)

Section ExitFacts.
Context {RT : Runtime}.

(** C7.  A prompt condition whose expression is a list of phrases (the
    shape the docstring of [exit_evaluator_node] announces) makes [evaluate]
    raise [AttributeError] as soon as there is a user message: the
    expression is asked for [startswith] outside any [try]. *)
Theorem evaluate_raises_on_phrase_list (state : dict) (content : string) :
  ExitConditions.evaluate
    [("type", VStr "prompt"); ("expression", VList [VStr "bye"])]
    state [user_says content]
  = Raise (AttributeError "'list' object has no attribute 'startswith'").
Proof. reflexivity. Qed.

(** More generally: a truthy expression that is not a string, and a last
    user message that is one. *)
Lemma prompt_matches_raises_on_non_string (expr : pyobj) (msgs : list dict) (content : string) :
  truthy expr = true ->
  is_str expr = false ->
  Utilities.last_of
    (map (fun m => get_default m "content" (VStr ""))
         (filter (fun m => py_eq (get m "role") (VStr "user")) msgs))
  = Some (VStr content) ->
  ExitConditions.prompt_matches expr msgs = Raise (no_attribute expr "startswith").
Proof.
  intros Ht Hs Hlast. unfold ExitConditions.prompt_matches.
  rewrite Ht. cbn [negb orb].
  destruct msgs as [|m msgs]; [discriminate Hlast|].
  rewrite Hlast. cbn [str_method bind].
  destruct expr; try discriminate Hs; reflexivity.
Qed.

(** The other condition types do return false on an ill-typed expression. *)
Lemma max_turns_tolerates_ill_typed (state : dict) (msgs : list dict) (l : list pyobj) :
  ExitConditions.evaluate [("type", VStr "max_turns"); ("expression", VList l)] state msgs
  = Ok false.
Proof. reflexivity. Qed.

Lemma tool_event_tolerates_ill_typed (state : dict) (msgs : list dict) (s : string) :
  ExitConditions.evaluate [("type", VStr "tool_event"); ("expression", VStr s)] state msgs
  = Ok false.
Proof. reflexivity. Qed.

Lemma unknown_type_is_false (state : dict) (msgs : list dict) (e : pyobj) :
  ExitConditions.evaluate [("type", VStr "sometimes"); ("expression", e)] state msgs
  = Ok false.
Proof. reflexivity. Qed.

Lemma missing_type_is_false (state : dict) (msgs : list dict) (e : pyobj) :
  ExitConditions.evaluate [("expression", e)] state msgs = Ok false.
Proof. reflexivity. Qed.

End ExitFacts.

(** ** Tool selection (utilities.py) *)

Section SelectionFacts.
Context {RT : Runtime}.

Lemma find_none_of_existsb {A} (f : A -> bool) (l : list A) :
  existsb f l = false -> find f l = None.
Proof.
  induction l as [|x r IH]; simpl; [reflexivity|].
  destruct (f x); simpl; [discriminate|exact IH].
Qed.

Lemma as_dict_or_empty (d : dict) : as_dict (py_or (VDict d) (VDict [])) = d.
Proof. destruct d; reflexivity. Qed.

(** C10.  When neither [chosen_tool], nor [next_action], nor the legacy
    [tool_type] names an enabled tool, [get_selected_tool_config] returns
    the first enabled tool with its entry; the schema the extractor and the
    validator use and the runtime configuration are then those of that
    tool. *)
Theorem first_enabled_tool_fallback (config state first : dict) :
  names_enabled_tool config (get state "chosen_tool") = false ->
  names_enabled_tool config (get state "next_action") = false ->
  names_enabled_tool config (get config "tool_type") = false ->
  first_enabled_tool config = Some first ->
  Utilities.get_selected_tool_config config state = (get first "name", VDict first) /\
  Utilities.selected_schema config state =
    Utilities.normalize_input_schema (get first "input_schema") /\
  Utilities.build_runtime_tool_config config state =
    Utilities.runtime_config_for config (get first "name", VDict first).
Proof.
  intros Hc Hn Ht Hfirst.
  assert (Hsel : Utilities.get_selected_tool_config config state
                 = (get first "name", VDict first)).
  { unfold Utilities.get_selected_tool_config.
    assert (Hp : names_enabled_tool config (Utilities.preferred_tool config state) = false).
    { unfold Utilities.preferred_tool, py_or.
      destruct (truthy (get state "chosen_tool")) eqn:Ea.
      - rewrite Ea. exact Hc.
      - destruct (truthy (get state "next_action")); assumption. }
    unfold names_enabled_tool in Hp. apply find_none_of_existsb in Hp.
    rewrite Hp.
    destruct (truthy (Utilities.preferred_tool config state)
              && Utilities.is_list (py_or (get config "tools") (VList [])));
      unfold first_enabled_tool in Hfirst; rewrite Hfirst; reflexivity. }
  split; [exact Hsel|]. split.
  - unfold Utilities.selected_schema. rewrite Hsel. simpl snd.
    rewrite as_dict_or_empty. reflexivity.
  - unfold Utilities.build_runtime_tool_config. rewrite Hsel. reflexivity.
Qed.

End SelectionFacts.

(** ** Merging extracted data (nodes.py) *)

Section MergeFacts.
Context {RT : Runtime}.













End MergeFacts.

Section MergeInvariant.
Context {RT : Runtime}.

Lemma get_default_update (d u : dict) (k : string) (dflt : pyobj) :
  get_default (update d u) k dflt =
  match dget_last u k with
  | Some v => v
  | None => get_default d k dflt
  end.
Proof.
  unfold get_default. rewrite dget_update. destruct (dget_last u k); reflexivity.
Qed.

Lemma extracted_of_log (node_name : string) (old new : dict) :
  extracted_of (Utilities.log_node_execution node_name old new) = extracted_of new.
Proof.
  unfold extracted_of, Utilities.log_node_execution, Utilities.track_action.
  rewrite get_default_dset_other by reflexivity. reflexivity.
Qed.




End MergeInvariant.

(** ** Decision router (nodes.py) *)

Section RouterFacts.
Context {RT : Runtime}.


(** The resolved tool is a configured one whose name is the decision up to
    case. *)
Lemma resolve_tool_matches (config : dict) (next_action name : string) (category : pyobj) :
  Nodes.resolve_tool config next_action = (VStr name, category) ->
  exists t,
    In t (dicts (py_or (get config "tools") (VList []))) /\
    get t "name" = VStr name /\
    PyStr.lower name = PyStr.lower next_action /\
    category = get t "type".
Proof.
  unfold Nodes.resolve_tool.
  destruct (find _ _) as [t|] eqn:Hfind; [|discriminate].
  apply find_some in Hfind. destruct Hfind as [Hin Hn].
  intros H. injection H as Hname Hcat.
  exists t. split; [exact Hin|]. split; [exact Hname|]. split; [|symmetry; exact Hcat].
  unfold Nodes.names_decision in Hn. rewrite Hname in Hn.
  apply andb_prop in Hn. destruct Hn as [_ Hn].
  apply String.eqb_eq in Hn. exact Hn.
Qed.

(** What the router writes, in terms of the parsed decision, the resolved
    tool and the loop guard. *)
Lemma router_fields (state config : dict) (llm_response : string) :
  let parsed := Nodes.parse_decision llm_response in
  let resolved := Nodes.resolve_tool config (fst parsed) in
  let repeated := Nodes.repeated_tool state (fst resolved) in
  let new_state := Nodes.decision_router_node state config llm_response in
  get new_state "next_action" =
    py_or (if repeated then VNone else fst resolved)
          (VStr (if repeated then "chat" else fst parsed)) /\
  get new_state "decision_justification" = VStr (snd parsed) /\
  get new_state "chosen_tool" =
    py_or (if repeated then VNone else fst resolved) (get state "chosen_tool") /\
  get new_state "tool_category" =
    py_or (if repeated then VNone else snd resolved) (get state "tool_category").
Proof.
  unfold Nodes.decision_router_node.
  destruct (Nodes.parse_decision llm_response) as [next_action justification].
  cbn [fst snd].
  destruct (Nodes.resolve_tool config next_action) as [chosen_tool tool_category].
  cbn [fst snd]. cbv zeta.
  rewrite !get_log_node_execution by reflexivity.
  rewrite !get_update. cbn [dget_last String.eqb Ascii.eqb Bool.eqb].
  repeat split.
Qed.


(** What the history records for the router itself: the summary of
    utilities.py has no case for this node. *)
Lemma router_outcome_recorded (old new : dict) :
  Utilities.summarize_outcome old new "DECISION_ROUTER" = "Node DECISION_ROUTER completed".
Proof. reflexivity. Qed.

End RouterFacts.

(** ** Ending a conversation (nodes.py, graph_builder.py) *)

Section TerminalFacts.
Context {RT : Runtime}.


(** The exit evaluator writes the flag itself: true when no condition is
    met, false together with [next_action = "end"] otherwise. *)
Lemma exit_evaluator_sets_flag (state config state' : dict) :
  Nodes.exit_evaluator_node state config = Ok state' ->
  get state' "conversation_active" = VBool true \/
  (get state' "conversation_active" = VBool false /\ get state' "next_action" = VStr "end").
Proof.
  unfold Nodes.exit_evaluator_node. intros H.
  match type of H with
  | bind ?r _ = _ => destruct r as [mode|e]; cbn [bind] in H; [|discriminate]
  end.
  match type of H with
  | bind ?r _ = _ => destruct r as [results|e]; cbn [bind] in H; [|discriminate]
  end.
  cbv zeta in H. injection H as <-.
  rewrite !get_log_node_execution by reflexivity.
  match goal with
  | |- context [if ?c then _ else _] => destruct c
  end.
  - right. split; read_dict; reflexivity.
  - left. read_dict. reflexivity.
Qed.

End TerminalFacts.

(** ** Schema validator (validation.py) *)

Section ValidatorFacts.
Context {RT : Runtime}.







(** Unhashable field names are outside the validator's domain: the lookup
    of such a name raises. *)
Lemma validate_raises_on_list_name (data : dict) :
  Validation.validate_against_schema data [VDict [("name", VList [VStr "email"])]]
  = Raise (TypeError "unhashable type: 'list'").
Proof. reflexivity. Qed.

End ValidatorFacts.

(** ** Structured extraction (llamaindex_agent.py, nodes.py) *)

Section ExtractionFacts.
Context {RT : Runtime}.

Lemma unparsable_raises (response : string) :
  json_loads (PyStr.strip response) = None ->
  exists e, LlamaindexAgent.questions_of (PyStr.strip response) = Raise e.
Proof.
  intros H. unfold LlamaindexAgent.questions_of. rewrite H. cbn. eexists. reflexivity.
Qed.

(** C6.  [generate_questions] degrades in three tiers: when the JSON-mode
    attempt fails (in particular when its completion does not parse) the
    conversation model is called once more with the same prompt, and when
    that attempt fails too the result is the two canned questions with
    [fallback = True]; an attempt that succeeds is returned with
    [fallback = False].  The extraction step of [structured_extractor_node]
    has two tiers: it calls the JSON-mode model only, and any failure gives
    the empty mapping.  Both are total: no exception reaches the caller. *)
Theorem structured_extraction_degrades
    (llms : LlamaindexAgent.Models) (document_text language : string) :
  let p := LlamaindexAgent.questions_prompt document_text language in
  let ev := fst (LlamaindexAgent.generate_questions llms document_text language) in
  let calls := snd (LlamaindexAgent.generate_questions llms document_text language) in
  (forall ev1, LlamaindexAgent.json_mode_attempt llms p language = Ok ev1 ->
      ev = ev1 /\ LlamaindexAgent.fallback ev = false /\ calls = [(Nodes.JsonMode, p)]) /\
  (forall e, LlamaindexAgent.json_mode_attempt llms p language = Raise e ->
      calls = [(Nodes.JsonMode, p); (Nodes.Conversation, p)] /\
      (forall ev2, LlamaindexAgent.conversation_attempt llms p language = Ok ev2 ->
          ev = ev2 /\ LlamaindexAgent.fallback ev = false) /\
      (forall e2, LlamaindexAgent.conversation_attempt llms p language = Raise e2 ->
          ev = {| LlamaindexAgent.success := true;
                  LlamaindexAgent.questions := LlamaindexAgent.fallback_questions language;
                  LlamaindexAgent.language := language;
                  LlamaindexAgent.fallback := true |})) /\
  (forall response,
      LlamaindexAgent.json_llm llms p = Ok response ->
      json_loads (PyStr.strip response) = None ->
      exists e, LlamaindexAgent.json_mode_attempt llms p language = Raise e) /\
  (forall response,
      LlamaindexAgent.conversation_llm llms p = Ok response ->
      json_loads (PyStr.strip response) = None ->
      exists e, LlamaindexAgent.conversation_attempt llms p language = Raise e) /\
  (forall reply,
      snd (Nodes.extract_with_llm reply) = [Nodes.JsonMode] /\
      (forall content, reply = Ok content -> json_loads content = None ->
                       fst (Nodes.extract_with_llm reply) = []) /\
      (forall e, reply = Raise e -> fst (Nodes.extract_with_llm reply) = [])).
Proof.
  intros p ev calls. subst ev calls. unfold LlamaindexAgent.generate_questions.
  fold p. split; [|split; [|split; [|split]]].
  - intros ev1 H. rewrite H. cbn [fst snd]. repeat split.
    unfold LlamaindexAgent.json_mode_attempt in H.
    destruct (LlamaindexAgent.json_llm llms p) as [response|e]; cbn [bind] in H; [|discriminate].
    destruct (LlamaindexAgent.questions_of (PyStr.strip response)) as [qs|e];
      cbn [bind] in H; [|discriminate].
    destruct (len qs) as [n|e]; cbn [bind] in H; [|discriminate].
    unfold LlamaindexAgent.make_event in H.
    destruct qs; try discriminate.
    destruct (forallb Utilities.is_dict l); [|discriminate].
    injection H as <-. reflexivity.
  - intros e H. rewrite H. split; [|split].
    + destruct (LlamaindexAgent.conversation_attempt llms p language); reflexivity.
    + intros ev2 H2. rewrite H2. cbn [fst]. split; [reflexivity|].
      unfold LlamaindexAgent.conversation_attempt in H2.
      destruct (LlamaindexAgent.conversation_llm llms p) as [response|e2];
        cbn [bind] in H2; [|discriminate].
      destruct (LlamaindexAgent.questions_of (PyStr.strip response)) as [qs|e2];
        cbn [bind] in H2; [|discriminate].
      unfold LlamaindexAgent.make_event in H2.
      destruct qs; try discriminate.
      destruct (forallb Utilities.is_dict l); [|discriminate].
      injection H2 as <-. reflexivity.
    + intros e2 H2. rewrite H2. reflexivity.
  - intros response H Hparse.
    unfold LlamaindexAgent.json_mode_attempt. rewrite H. cbn [bind].
    destruct (unparsable_raises response Hparse) as [e He]. rewrite He. eexists. reflexivity.
  - intros response H Hparse.
    unfold LlamaindexAgent.conversation_attempt. rewrite H. cbn [bind].
    destruct (unparsable_raises response Hparse) as [e He]. rewrite He. eexists. reflexivity.
  - intros reply. split; [|split].
    + unfold Nodes.extract_with_llm.
      match goal with |- snd (match ?a with _ => _ end) = _ => destruct a end; reflexivity.
    + intros content -> Hparse. unfold Nodes.extract_with_llm. cbn [bind].
      rewrite Hparse. reflexivity.
    + intros e ->. reflexivity.
Qed.

End ExtractionFacts.

(** ** The decision pattern (nodes.py) *)

Section StringFacts.

Lemma length_app (a b : string) : String.length (a ++ b) = String.length a + String.length b.
Proof. induction a as [|c a IH]; simpl; [reflexivity|]. rewrite IH. reflexivity. Qed.

Lemma take_app (a b : string) :
  PyStr.take (String.length (a ++ b) - String.length b) (a ++ b) = a.
Proof.
  rewrite length_app, Nat.add_sub.
  induction a as [|c a IH]; simpl.
  - destruct b; reflexivity.
  - rewrite IH. reflexivity.
Qed.

Lemma lower_app (a b : string) : PyStr.lower (a ++ b) = PyStr.lower a ++ PyStr.lower b.
Proof. induction a as [|c a IH]; simpl; [reflexivity|]. rewrite IH. reflexivity. Qed.

Lemma word_is_not_space (c : ascii) : Regex.token_char c = true -> PyStr.isspace c = false.
Proof.
  destruct c as [[] [] [] [] [] [] [] []]; vm_compute; intros H;
    first [reflexivity | discriminate H].
Qed.

Lemma space_is_not_word (c : ascii) : PyStr.isspace c = true -> Regex.token_char c = false.
Proof.
  intros H. destruct (Regex.token_char c) eqn:E; [|reflexivity].
  rewrite (word_is_not_space c E) in H. discriminate.
Qed.

Lemma hyphen_is_not_space : PyStr.isspace "-" = false.
Proof. reflexivity. Qed.

Lemma lstrip_stops (p : ascii -> bool) (s : string) : stops p s = true -> PyStr.lstrip_by p s = s.
Proof.
  destruct s as [|c r]; simpl; [reflexivity|].
  destruct (p c); [discriminate|reflexivity].
Qed.

Lemma rstrip_none (p : ascii -> bool) (s : string) :
  all_chars (fun c => negb (p c)) s = true -> PyStr.rstrip_by p s = s.
Proof.
  induction s as [|c r IH]; simpl; [reflexivity|].
  intros H. apply andb_prop in H. destruct H as [Hc Hr].
  rewrite (IH Hr). destruct r; [|reflexivity].
  destruct (p c); [discriminate|reflexivity].
Qed.

Lemma all_chars_impl (p q : ascii -> bool) (s : string) :
  (forall c, p c = true -> q c = true) -> all_chars p s = true -> all_chars q s = true.
Proof.
  intros Hpq. induction s as [|c r IH]; simpl; [reflexivity|].
  intros H. apply andb_prop in H. destruct H as [Hc Hr].
  rewrite (Hpq c Hc), (IH Hr). reflexivity.
Qed.

(** A token is not changed by [strip]. *)
Lemma strip_token (tok : string) : all_chars Regex.token_char tok = true -> PyStr.strip tok = tok.
Proof.
  intros H. unfold PyStr.strip.
  assert (Hn : all_chars (fun c => negb (PyStr.isspace c)) tok = true).
  { apply (all_chars_impl Regex.token_char); [|exact H].
    intros c Hc. rewrite (word_is_not_space c Hc). reflexivity. }
  rewrite lstrip_stops.
  - apply rstrip_none. exact Hn.
  - destruct tok as [|c r]; [reflexivity|]. simpl in Hn. simpl.
    apply andb_prop in Hn. tauto.
Qed.

End StringFacts.

Section RegexFacts.

(** A greedy repetition takes a whole run of its class when what follows
    the run lets the rest of the pattern succeed. *)
Lemma star_greedy {A} (p : ascii -> bool) (k : string -> option A) (run_ s : string) (x : A) :
  all_chars p run_ = true ->
  stops p s = true ->
  k s = Some x ->
  Regex.star p k (run_ ++ s) = Some x.
Proof.
  intros Hrun Hstop Hk.
  induction run_ as [|c r IH]; simpl.
  - destruct s as [|c r]; simpl; [exact Hk|].
    simpl in Hstop. destruct (p c); [discriminate|exact Hk].
  - simpl in Hrun. apply andb_prop in Hrun. destruct Hrun as [Hc Hr].
    rewrite Hc, (IH Hr). reflexivity.
Qed.

Lemma run_star_greedy (p : ascii -> bool) (items : list Regex.item) (opens caps : list string)
      (run_ s : string) (x : list string) :
  all_chars p run_ = true ->
  stops p s = true ->
  Regex.run items opens caps s = Some x ->
  Regex.run (Regex.Star p :: items) opens caps (run_ ++ s) = Some x.
Proof.
  intros Hrun Hstop Hk. cbn [Regex.run]. apply star_greedy; assumption.
Qed.

(** The literal prefix of a pattern, case ignored. *)
Lemma run_lits_i (l kw : string) (items : list Regex.item) (opens caps : list string) (s : string) :
  PyStr.lower kw = PyStr.lower l ->
  Regex.run (Regex.lits_i l ++ items) opens caps (kw ++ s) = Regex.run items opens caps s.
Proof.
  revert kw. induction l as [|c l IH]; intros kw H.
  - destruct kw; [reflexivity|discriminate].
  - destruct kw as [|c' kw]; [discriminate|].
    simpl in H. injection H as Hc Hl.
    cbn [Regex.lits_i app Regex.run Regex.lit_i append].
    rewrite Hc, Ascii.eqb_refl. apply IH. exact Hl.
Qed.

Lemma run_lits_i_needs_prefix (l : string) (items : list Regex.item) (opens caps : list string)
      (t : string) (g : list string) :
  Regex.run (Regex.lits_i l ++ items) opens caps t = Some g ->
  String.prefix (PyStr.lower l) (PyStr.lower t) = true.
Proof.
  revert t. induction l as [|c l IH]; intros t H.
  - destruct t; reflexivity.
  - destruct t as [|c' t]; [discriminate|].
    cbn [Regex.lits_i app Regex.run Regex.lit_i] in H.
    destruct (Ascii.eqb (PyStr.lower_char c') (PyStr.lower_char c)) eqn:E; [|discriminate].
    apply Ascii.eqb_eq in E. simpl. rewrite E.
    destruct (ascii_dec (PyStr.lower_char c) (PyStr.lower_char c)) as [_|n]; [|contradiction].
    apply IH. exact H.
Qed.

(** Where the decision pattern matches, the lowered text starts with the
    keyword. *)
Lemma match_needs_keyword (t : string) (g : list string) :
  Regex.match_at Regex.DECISION_REGEX t = Some g ->
  String.prefix "decision:" (PyStr.lower t) = true.
Proof.
  unfold Regex.match_at, Regex.DECISION_REGEX. intros H.
  apply run_lits_i_needs_prefix in H. exact H.
Qed.

Lemma no_keyword_no_match (t : string) :
  String.prefix "decision:" (PyStr.lower t) = false ->
  Regex.match_at Regex.DECISION_REGEX t = None.
Proof.
  intros H. destruct (Regex.match_at Regex.DECISION_REGEX t) as [g|] eqn:E; [|reflexivity].
  rewrite (match_needs_keyword t g E) in H. discriminate.
Qed.

(** Without the keyword anywhere, the search fails. *)
Lemma search_without_keyword (t : string) :
  PyStr.contains "decision:" (PyStr.lower t) = false ->
  Regex.search Regex.DECISION_REGEX t = None.
Proof.
  induction t as [|c t IH]; intros H.
  - reflexivity.
  - cbn [PyStr.lower PyStr.contains] in H. apply orb_false_elim in H. destruct H as [Hp Hc].
    cbn [Regex.search]. rewrite (no_keyword_no_match (String c t)); [|exact Hp].
    apply IH. exact Hc.
Qed.

Lemma prefix_within (a y z : string) :
  String.prefix a (y ++ z) = true -> String.length a <= String.length y ->
  String.prefix a y = true.
Proof.
  revert y. induction a as [|c a IH]; intros y H Hlen.
  - destruct y; reflexivity.
  - destruct y as [|d y]; [simpl in Hlen; lia|].
    simpl in H. simpl. destruct (ascii_dec c d); [|discriminate].
    apply IH; [exact H|]. simpl in Hlen. lia.
Qed.

Lemma prefix_app_within (a x y z : string) :
  String.prefix a (x ++ y ++ z) = true ->
  String.length a <= String.length x + String.length y ->
  String.prefix a (x ++ y) = true.
Proof.
  revert a. induction x as [|d x IH]; intros a H Hlen.
  - simpl in *. apply (prefix_within a y z); assumption.
  - destruct a as [|c a]; [reflexivity|].
    simpl in H. simpl. destruct (ascii_dec c d); [|discriminate].
    apply IH; [exact H|]. simpl in Hlen. lia.
Qed.

(** The search passes over a preamble in which the keyword does not
    start. *)
Lemma search_skips_preamble (pre kw s : string) :
  PyStr.lower kw = "decision:" ->
  PyStr.contains "decision:" (PyStr.lower pre ++ "decision") = false ->
  Regex.search Regex.DECISION_REGEX (pre ++ kw ++ s)
  = Regex.search Regex.DECISION_REGEX (kw ++ s).
Proof.
  intros Hkw. induction pre as [|c pre IH]; intros H; [reflexivity|].
  cbn [PyStr.lower append PyStr.contains] in H.
  apply orb_false_elim in H. destruct H as [Hp Hc].
  cbn [append Regex.search].
  rewrite no_keyword_no_match; [apply IH; exact Hc|].
  destruct (String.prefix "decision:" (PyStr.lower (String c (pre ++ kw ++ s)))) eqn:E;
    [|reflexivity].
  rewrite <- Hp. symmetry.
  change (String c (pre ++ kw ++ s)) with (String c pre ++ kw ++ s) in E.
  rewrite lower_app, lower_app, Hkw in E.
  change "decision:" with ("decision" ++ ":") in E at 2.
  replace (PyStr.lower (String c pre) ++ ("decision" ++ ":") ++ PyStr.lower s)
    with (PyStr.lower (String c pre) ++ "decision" ++ (":" ++ PyStr.lower s)) in E
    by reflexivity.
  apply prefix_app_within in E; [exact E|].
  simpl. lia.
Qed.

End RegexFacts.

Section DecisionLine.

Lemma run_open (items : list Regex.item) (opens caps : list string) (s : string) :
  Regex.run (Regex.GroupOpen :: items) opens caps s = Regex.run items (s :: opens) caps s.
Proof. reflexivity. Qed.

Lemma run_close (items : list Regex.item) (o : string) (opens caps : list string) (s : string) :
  Regex.run (Regex.GroupClose :: items) (o :: opens) caps s
  = Regex.run items opens (PyStr.take (String.length o - String.length s) o :: caps) s.
Proof. reflexivity. Qed.

Lemma run_chr (p : ascii -> bool) (items : list Regex.item) (opens caps : list string)
      (c : ascii) (s : string) :
  p c = true ->
  Regex.run (Regex.Chr p :: items) opens caps (String c s) = Regex.run items opens caps s.
Proof. intros H. cbn [Regex.run]. rewrite H. reflexivity. Qed.

(** The pattern on a decision line: keyword, token, hyphen, reason. *)
Lemma decision_line_matches (kw ws1 tok ws2 ws3 reason rest : string) :
  PyStr.lower kw = "decision:" ->
  all_chars PyStr.isspace ws1 = true ->
  nonempty tok = true ->
  all_chars Regex.token_char tok = true ->
  nonempty ws2 = true ->
  all_chars PyStr.isspace ws2 = true ->
  all_chars PyStr.isspace ws3 = true ->
  stops PyStr.isspace (reason ++ rest) = true ->
  all_chars Regex.dot reason = true ->
  stops Regex.dot rest = true ->
  Regex.match_at Regex.DECISION_REGEX
    (kw ++ ws1 ++ tok ++ ws2 ++ "-" ++ ws3 ++ reason ++ rest)
  = Some [tok; reason].
Proof.
  intros Hkw Hws1 Htok0 Htok Hws20 Hws2 Hws3 Hreason0 Hreason Hrest.
  destruct tok as [|t0 tok]; [discriminate|].
  destruct ws2 as [|w0 ws2]; [discriminate|].
  pose proof Htok as Htok'. simpl in Htok'. apply andb_prop in Htok'.
  destruct Htok' as [Ht0 Htok'].
  pose proof Hws2 as Hws2'. simpl in Hws2'. apply andb_prop in Hws2'.
  destruct Hws2' as [Hw0 _].
  unfold Regex.match_at, Regex.DECISION_REGEX.
  rewrite run_lits_i by (rewrite Hkw; reflexivity).
  apply run_star_greedy; [exact Hws1| |].
  { simpl. rewrite (word_is_not_space t0 Ht0). reflexivity. }
  rewrite run_open.
  change (String t0 tok ++ String w0 ws2 ++ "-" ++ ws3 ++ reason ++ rest)
    with (String t0 (tok ++ String w0 ws2 ++ "-" ++ ws3 ++ reason ++ rest)) at 2.
  rewrite run_chr by exact Ht0.
  apply run_star_greedy; [exact Htok'| |].
  { simpl. rewrite (space_is_not_word w0 Hw0). reflexivity. }
  rewrite run_close, take_app.
  apply run_star_greedy; [exact Hws2|reflexivity|].
  change ("-" ++ ws3 ++ reason ++ rest) with (String "-" (ws3 ++ reason ++ rest)).
  unfold Regex.lit. rewrite run_chr by reflexivity.
  apply run_star_greedy; [exact Hws3|exact Hreason0|].
  rewrite run_open.
  apply run_star_greedy; [exact Hreason|exact Hrest|].
  rewrite run_close, take_app. reflexivity.
Qed.

End DecisionLine.

Section DecisionParsing.
Context {RT : Runtime}.

Lemma parse_decision_line (pre kw ws1 tok ws2 ws3 reason rest : string) :
  PyStr.lower kw = "decision:" ->
  PyStr.contains "decision:" (PyStr.lower pre ++ "decision") = false ->
  all_chars PyStr.isspace ws1 = true ->
  nonempty tok = true ->
  all_chars Regex.token_char tok = true ->
  nonempty ws2 = true ->
  all_chars PyStr.isspace ws2 = true ->
  all_chars PyStr.isspace ws3 = true ->
  stops PyStr.isspace (reason ++ rest) = true ->
  all_chars Regex.dot reason = true ->
  stops Regex.dot rest = true ->
  Nodes.parse_decision (pre ++ kw ++ ws1 ++ tok ++ ws2 ++ "-" ++ ws3 ++ reason ++ rest)
  = (tok, PyStr.strip reason).
Proof.
  intros Hkw Hpre Hws1 Htok0 Htok Hws20 Hws2 Hws3 Hreason0 Hreason Hrest.
  unfold Nodes.parse_decision.
  rewrite (search_skips_preamble pre kw _ Hkw Hpre).
  assert (Hm : Regex.match_at Regex.DECISION_REGEX
                 (kw ++ ws1 ++ tok ++ ws2 ++ "-" ++ ws3 ++ reason ++ rest)
               = Some [tok; reason])
    by (apply decision_line_matches; assumption).
  assert (Hs : Regex.search Regex.DECISION_REGEX
                 (kw ++ ws1 ++ tok ++ ws2 ++ "-" ++ ws3 ++ reason ++ rest)
               = Some [tok; reason]).
  { destruct (kw ++ ws1 ++ tok ++ ws2 ++ "-" ++ ws3 ++ reason ++ rest);
      cbn [Regex.search]; rewrite Hm; reflexivity. }
  rewrite Hs. cbn [nth]. rewrite (strip_token tok Htok). reflexivity.
Qed.

Lemma parse_without_keyword (llm_response : string) :
  PyStr.contains "decision:" (PyStr.lower llm_response) = false ->
  Nodes.parse_decision llm_response = ("chat", PyStr.strip llm_response).
Proof.
  intros H. unfold Nodes.parse_decision.
  rewrite (search_without_keyword _ H). reflexivity.
Qed.

End DecisionParsing.

(** ** The e-mail pattern (validation.py) *)

Section EmailFacts.

(** What a greedy repetition matched is a run of its class, and the rest of
    the pattern matched what follows the run. *)
Lemma star_sound {A} (p : ascii -> bool) (k : string -> option A) (s : string) (x : A) :
  Regex.star p k s = Some x ->
  exists run_ rest, s = run_ ++ rest /\ all_chars p run_ = true /\ k rest = Some x.
Proof.
  induction s as [|c r IH]; simpl; intros H.
  - exists "", "". auto.
  - destruct (p c) eqn:Hc.
    + destruct (Regex.star p k r) as [y|] eqn:E.
      * injection H as <-. destruct (IH eq_refl) as (run_ & rest & -> & Hr & Hk).
        exists (String c run_), rest. simpl. rewrite Hc. auto.
      * exists "", (String c r). auto.
    + exists "", (String c r). auto.
Qed.

(** A repetition followed by a pattern that can match after some run of
    the class does match: backtracking finds a split. *)
Lemma star_complete {A} (p : ascii -> bool) (k : string -> option A) (run_ s : string) :
  all_chars p run_ = true ->
  k s <> None ->
  Regex.star p k (run_ ++ s) <> None.
Proof.
  intros Hrun Hk. induction run_ as [|c r IH]; simpl.
  - destruct s as [|c r]; simpl; [exact Hk|].
    destruct (p c); [|exact Hk].
    destruct (Regex.star p k r); [discriminate|exact Hk].
  - simpl in Hrun. apply andb_prop in Hrun. destruct Hrun as [Hc Hr]. rewrite Hc.
    destruct (Regex.star p k (r ++ s)) eqn:E; [discriminate|].
    exfalso. exact (IH Hr eq_refl).
Qed.

Lemma nonempty_split (s : string) :
  nonempty s = true -> exists c r, s = String c r.
Proof. destruct s as [|c r]; [discriminate|]. intros _. exists c, r. reflexivity. Qed.

Lemma at_sign_not_in_class : Regex.not_at_space "@" = false.
Proof. reflexivity. Qed.

(** What the pattern matched has the shape. *)
Lemma email_matches_sound (s : string) : Regex.email_matches s = true -> email_shape s.
Proof.
  unfold Regex.email_matches, Regex.match_at, Regex.EMAIL_REGEX, email_shape.
  intros H.
  destruct s as [|c0 s]; [discriminate|]. cbn [Regex.run] in H.
  destruct (Regex.not_at_space c0) eqn:Hc0; [|discriminate].
  destruct (Regex.star _ _ s) as [g|] eqn:E1; [|discriminate].
  apply star_sound in E1. destruct E1 as (l & r1 & -> & Hl & E1).
  destruct r1 as [|c1 r1]; [discriminate|]. cbn [Regex.run Regex.lit] in E1.
  destruct (Ascii.eqb "@" c1) eqn:Hat; [|discriminate].
  apply Ascii.eqb_eq in Hat. subst c1.
  destruct r1 as [|c2 r1]; [discriminate|].
  destruct (Regex.not_at_space c2) eqn:Hc2; [|discriminate].
  apply star_sound in E1. destruct E1 as (a & r2 & -> & Ha & E2).
  destruct r2 as [|c3 r2]; [discriminate|]. cbn [Regex.run Regex.lit] in E2.
  destruct (Ascii.eqb "." c3) eqn:Hdot; [|discriminate].
  apply Ascii.eqb_eq in Hdot. subst c3.
  destruct r2 as [|c4 r2]; [discriminate|].
  destruct (Regex.not_at_space c4) eqn:Hc4; [|discriminate].
  apply star_sound in E2. destruct E2 as (b & tail & -> & Hb & E3).
  cbn [Regex.run] in E3.
  destruct (Regex.at_end tail) eqn:Hend; [|discriminate].
  exists (String c0 l), (String c2 a), (String c4 b), tail.
  split; [reflexivity|].
  simpl. rewrite Hc0, Hc2, Hc4.
  repeat (split; [assumption || reflexivity|]).
  destruct tail as [|t [|t' tail]]; [left; reflexivity| |discriminate].
  simpl in Hend. apply Ascii.eqb_eq in Hend. subst t. right. reflexivity.
Qed.

(** What has the shape is matched. *)
Lemma email_shape_matches (s : string) : email_shape s -> Regex.email_matches s = true.
Proof.
  unfold Regex.email_matches, Regex.match_at, Regex.EMAIL_REGEX, email_shape.
  intros (l & a & b & tail & -> & Hl & Hla & Ha & Haa & Hb & Hba & Htail).
  destruct (nonempty_split l Hl) as (c0 & l' & ->).
  destruct (nonempty_split a Ha) as (c2 & a' & ->).
  destruct (nonempty_split b Hb) as (c4 & b' & ->).
  simpl in Hla, Haa, Hba.
  apply andb_prop in Hla. destruct Hla as [Hc0 Hl'].
  apply andb_prop in Haa. destruct Haa as [Hc2 Ha'].
  apply andb_prop in Hba. destruct Hba as [Hc4 Hb'].
  cbn [append Regex.run]. rewrite Hc0.
  match goal with
  | |- match ?r with _ => _ end = true => destruct r eqn:E; [reflexivity|exfalso]
  end.
  revert E. apply star_complete; [exact Hl'|].
  cbn [append Regex.run Regex.lit]. rewrite Ascii.eqb_refl, Hc2.
  apply star_complete; [exact Ha'|].
  cbn [append Regex.run Regex.lit]. rewrite Ascii.eqb_refl, Hc4.
  apply star_complete; [exact Hb'|].
  cbn [Regex.run].
  destruct Htail as [-> | ->]; simpl; discriminate.
Qed.

(** X1.  [EMAIL_REGEX.match] accepts exactly the strings made of a local
    part, an at sign, a domain, a dot and a last part, where each part is
    non-empty and holds no at sign and no whitespace, optionally followed by
    one final newline. *)
Theorem email_pattern_accepts (s : string) :
  Regex.email_matches s = true <-> email_shape s.
Proof.
  split; [apply email_matches_sound|apply email_shape_matches].
Qed.

End EmailFacts.

(** ** Trimming (str.strip) *)

Section TrimFacts.











End TrimFacts.

(** ** The validator contract (validation.py) *)

Section ContractFacts.
Context {RT : Runtime}.















End ContractFacts.

(** ** The shape of a parsed decision (nodes.py) *)

Section DecisionShape.
Context {RT : Runtime}.

Lemma search_sound (items : list Regex.item) (s : string) (g : list string) :
  Regex.search items s = Some g ->
  exists pre s', s = pre ++ s' /\ Regex.match_at items s' = Some g.
Proof.
  induction s as [|c r IH]; cbn [Regex.search]; intros H.
  - destruct (Regex.match_at items "") eqn:E; [|discriminate].
    injection H as <-. exists "", "". auto.
  - destruct (Regex.match_at items (String c r)) eqn:E.
    + injection H as <-. exists "", (String c r). auto.
    + destruct (IH H) as (pre & s' & -> & Hm). exists (String c pre), s'. auto.
Qed.

Lemma run_lits_i_sound (l : string) (items : list Regex.item) (opens caps : list string)
      (t : string) (g : list string) :
  Regex.run (Regex.lits_i l ++ items) opens caps t = Some g ->
  exists kw s, t = kw ++ s /\ Regex.run items opens caps s = Some g.
Proof.
  revert t. induction l as [|c l IH]; intros t H.
  - exists "", t. auto.
  - destruct t as [|c' t]; [discriminate|].
    cbn [Regex.lits_i app Regex.run Regex.lit_i] in H.
    destruct (Ascii.eqb _ _); [|discriminate].
    destruct (IH t H) as (kw & s & -> & Hr). exists (String c' kw), s. auto.
Qed.

(** Where the decision pattern matches, group 1 is a non-empty run of
    [[\w\-_]] and group 2 holds no newline. *)
Lemma decision_match_shape (t : string) (g : list string) :
  Regex.match_at Regex.DECISION_REGEX t = Some g ->
  exists c tok reason,
    g = [String c tok; reason] /\
    Regex.token_char c = true /\ all_chars Regex.token_char tok = true /\
    all_chars Regex.dot reason = true.
Proof.
  unfold Regex.match_at, Regex.DECISION_REGEX. intros H.
  apply run_lits_i_sound in H. destruct H as (kw & s & _ & H).
  cbn [Regex.run] in H.
  apply star_sound in H. destruct H as (ws1 & r1 & _ & _ & H).
  destruct r1 as [|c r1]; [discriminate|].
  destruct (Regex.token_char c) eqn:Hc; [|discriminate].
  apply star_sound in H. destruct H as (tok & r2 & -> & Htok & H).
  change (String c (tok ++ r2)) with (String c tok ++ r2) in H.
  rewrite take_app in H.
  apply star_sound in H. destruct H as (ws2 & r3 & _ & _ & H).
  destruct r3 as [|d r3]; [discriminate|].
  cbn [Regex.run Regex.lit] in H.
  destruct (Ascii.eqb "-" d); [|discriminate].
  apply star_sound in H. destruct H as (ws3 & r4 & _ & _ & H).
  apply star_sound in H. destruct H as (reason & r5 & -> & Hreason & H).
  rewrite take_app in H. cbn [rev app] in H. injection H as <-.
  exists c, tok, reason. auto.
Qed.

Lemma all_chars_lstrip (p q : ascii -> bool) (s : string) :
  all_chars p s = true -> all_chars p (PyStr.lstrip_by q s) = true.
Proof.
  induction s as [|c r IH]; simpl; intros H; [reflexivity|].
  apply andb_prop in H. destruct H as [Hc Hr].
  destruct (q c); [apply IH; exact Hr|]. simpl. rewrite Hc, Hr. reflexivity.
Qed.

Lemma all_chars_rstrip (p q : ascii -> bool) (s : string) :
  all_chars p s = true -> all_chars p (PyStr.rstrip_by q s) = true.
Proof.
  induction s as [|c r IH]; simpl; intros H; [reflexivity|].
  apply andb_prop in H. destruct H as [Hc Hr]. specialize (IH Hr).
  destruct (PyStr.rstrip_by q r) as [|d r'].
  - destruct (q c); [reflexivity|]. simpl. rewrite Hc. reflexivity.
  - cbn [all_chars]. rewrite Hc. exact IH.
Qed.

Lemma all_chars_strip (p : ascii -> bool) (s : string) :
  all_chars p s = true -> all_chars p (PyStr.strip s) = true.
Proof. intros H. apply all_chars_rstrip, all_chars_lstrip, H. Qed.

Lemma parsed_token (llm_response : string) :
  exists c tok,
    fst (Nodes.parse_decision llm_response) = String c tok /\
    all_chars Regex.token_char (String c tok) = true.
Proof.
  unfold Nodes.parse_decision.
  destruct (Regex.search Regex.DECISION_REGEX llm_response) as [g|] eqn:E.
  - apply search_sound in E. destruct E as (pre & s' & _ & E).
    apply decision_match_shape in E. destruct E as (c & tok & reason & -> & Hc & Htok & _).
    cbn [fst nth].
    assert (H : all_chars Regex.token_char (String c tok) = true).
    { simpl. rewrite Hc, Htok. reflexivity. }
    rewrite (strip_token _ H). exists c, tok. auto.
  - exists "c"%char, "hat". split; reflexivity.
Qed.

(** X2.  Whatever the model wrote, the action [parse_decision] returns is a
    non-empty word of letters, digits, underscores and hyphens; and when a
    decision line was found, the justification it returns holds no
    newline. *)
Theorem parse_decision_token_shape (llm_response : string) :
  let (next_action, justification) := Nodes.parse_decision llm_response in
  nonempty next_action = true /\
  all_chars Regex.token_char next_action = true /\
  (Regex.search Regex.DECISION_REGEX llm_response <> None ->
   all_chars Regex.dot justification = true).
Proof.
  destruct (parsed_token llm_response) as (c & tok & Hfst & Htok).
  destruct (Nodes.parse_decision llm_response) as [next_action justification] eqn:Hp.
  cbn [fst] in Hfst. subst next_action.
  split; [reflexivity|]. split; [exact Htok|].
  intros Hfound. unfold Nodes.parse_decision in Hp.
  destruct (Regex.search Regex.DECISION_REGEX llm_response) as [g|] eqn:E; [|contradiction].
  apply search_sound in E. destruct E as (pre & s' & _ & E).
  apply decision_match_shape in E. destruct E as (c' & tok' & reason & -> & _ & _ & Hreason).
  cbn [nth] in Hp. injection Hp as _ <-.
  apply all_chars_strip. exact Hreason.
Qed.

(** X3.  The router always leaves a non-empty string in [next_action]: the
    configured name of the resolved tool, the parsed token, or [chat]. *)
Theorem router_next_action_is_a_name (state config : dict) (llm_response : string) :
  exists s,
    get (Nodes.decision_router_node state config llm_response) "next_action" = VStr s /\
    s <> "".
Proof.
  destruct (router_fields state config llm_response) as (Hna & _).
  cbv zeta in Hna. rewrite Hna. clear Hna.
  destruct (parsed_token llm_response) as (c & tok & Hfst & _). rewrite Hfst.
  destruct (Nodes.repeated_tool state _).
  - exists "chat". split; [reflexivity|discriminate].
  - unfold Nodes.resolve_tool.
    destruct (find _ _) as [t|] eqn:Hfind; cbn [fst].
    + apply find_some in Hfind. destruct Hfind as [_ Hn].
      unfold Nodes.names_decision in Hn.
      destruct (get t "name") as [| | | |name| |]; try discriminate.
      apply andb_prop in Hn. destruct Hn as [Hn _].
      exists name. unfold py_or. cbn [truthy]. rewrite Hn. split; [reflexivity|].
      intros ->. discriminate.
    + exists (String c tok). split; [reflexivity|discriminate].
Qed.

End DecisionShape.

(** ** The decision line (nodes.py:684-691) *)

Section SplitFacts.




Lemma stops_app (p : ascii -> bool) (a b : string) :
  nonempty a = true -> stops p (a ++ b) = stops p a.
Proof. destruct a; [discriminate|reflexivity]. Qed.

Lemma app_assoc_s (a b c : string) : (a ++ b) ++ c = a ++ b ++ c.
Proof. induction a as [|x a IH]; simpl; [reflexivity|]. rewrite IH. reflexivity. Qed.

End SplitFacts.

Section GreedyFacts.

(** A repetition before a pattern that cannot fail takes the whole run. *)
Lemma star_total {A} (p : ascii -> bool) (k : string -> option A) (s : string) :
  (forall t, k t <> None) -> Regex.star p k s = k (PyStr.lstrip_by p s).
Proof.
  intros Hk. induction s as [|c s IH]; cbn [Regex.star PyStr.lstrip_by]; [reflexivity|].
  destruct (p c); [|reflexivity].
  rewrite IH. destruct (k (PyStr.lstrip_by p s)) eqn:E; [reflexivity|].
  exfalso. exact (Hk _ E).
Qed.




Lemma search_none (items : list Regex.item) (text : string) :
  Regex.search items text = None ->
  forall pre s, text = pre ++ s -> Regex.match_at items s = None.
Proof.
  induction text as [|c text IH]; cbn [Regex.search]; intros H pre s Hs.
  - destruct pre; [|discriminate Hs]. cbn [append] in Hs. subst s.
    destruct (Regex.match_at items ""); [discriminate H|reflexivity].
  - destruct (Regex.match_at items (String c text)) eqn:E; [discriminate H|].
    destruct pre as [|d pre]; cbn [append] in Hs.
    + subst s. exact E.
    + injection Hs as _ Hs. exact (IH H pre s Hs).
Qed.

End GreedyFacts.

Section LineFacts.


Lemma close_total (o : string) (caps : list string) (t : string) :
  Regex.run [Regex.GroupClose] [o] caps t <> None.
Proof. cbn [Regex.run]. discriminate. Qed.

Lemma reason_total (caps : list string) (t : string) :
  Regex.run [Regex.GroupOpen; Regex.Star Regex.dot; Regex.GroupClose] [] caps t <> None.
Proof.
  cbn [Regex.run]. rewrite star_total by (intros u; discriminate). discriminate.
Qed.

















End LineFacts.

Section DecisionLines.
Context {RT : Runtime}.






End DecisionLines.

(** ** Action history and input schemas (utilities.py) *)

Section HistoryFacts.
Context {RT : Runtime}.

Lemma last_n_split {A} (n : nat) (l : list A) :
  exists dropped, l = (dropped ++ Utilities.last_n n l)%list /\
                  List.length (Utilities.last_n n l) = Nat.min n (List.length l).
Proof.
  unfold Utilities.last_n. exists (firstn (List.length l - n) l). split.
  - symmetry. apply firstn_skipn.
  - rewrite length_skipn. lia.
Qed.

Lemma last_of_app {A} (l : list A) (x : A) : Utilities.last_of (l ++ [x])%list = Some x.
Proof.
  unfold Utilities.last_of. rewrite map_app. cbn [map]. apply last_last.
Qed.

Lemma last_of_suffix {A} (dropped h l : list A) (x : A) :
  (l ++ [x])%list = (dropped ++ h)%list -> h <> [] -> Utilities.last_of h = Some x.
Proof.
  intros H Hne.
  destruct (exists_last Hne) as (h' & y & ->).
  rewrite app_assoc in H. apply app_inj_tail in H. destruct H as [_ ->].
  apply last_of_app.
Qed.

(** The history a logged state carries. *)
Lemma logged_history (node_name : string) (old_state new_state : dict) :
  let old_history := as_list (get_default old_state "action_history" (VList [])) in
  let history :=
    as_list (get (Utilities.track_action node_name old_state new_state) "action_history") in
  exists record dropped,
    (old_history ++ [VDict record])%list = (dropped ++ history)%list /\
    List.length history = Nat.min 5 (List.length old_history + 1) /\
    Utilities.last_of history = Some (VDict record) /\
    get record "node" = VStr node_name /\
    get record "step" = VInt (Z.of_nat (List.length old_history + 1)).
Proof.
  cbv zeta. unfold Utilities.track_action. rewrite get_dset_same.
  set (old_history := as_list (get_default old_state "action_history" (VList []))).
  match goal with
  | |- context [(old_history ++ [VDict ?r])%list] => set (record := r)
  end.
  set (l := (old_history ++ [VDict record])%list).
  assert (Hl : List.length l = List.length old_history + 1)
    by (unfold l; rewrite List.length_app; reflexivity).
  exists record.
  destruct (5 <? List.length l)%nat eqn:E; cbn [as_list].
  - destruct (last_n_split 5 l) as (dropped & Hsplit & Hlen).
    exists dropped. split; [exact Hsplit|]. split; [rewrite Hlen, Hl; reflexivity|].
    split; [|split; reflexivity].
    apply (last_of_suffix dropped _ old_history); [exact Hsplit|].
    intros Hnil. rewrite Hnil in Hlen. cbn [List.length] in Hlen.
    apply Nat.ltb_lt in E. lia.
  - exists []. split; [reflexivity|].
    apply Nat.ltb_ge in E. split; [lia|].
    split; [apply last_of_app|split; reflexivity].
Qed.

(** X4.  Logging a node keeps every other key of the new state and stores,
    under [action_history], the last five entries at most of the old
    history followed by one new record; the record names the node, and its
    step is the length of the old history plus one (so it is 6 once five
    records are kept). *)
Theorem track_action_keeps_last_five (node_name : string) (old_state new_state : dict) :
  let old_history := as_list (get_default old_state "action_history" (VList [])) in
  let logged := Utilities.track_action node_name old_state new_state in
  let history := as_list (get logged "action_history") in
  (forall k, k <> "action_history" -> get logged k = get new_state k) /\
  exists record dropped,
    (old_history ++ [VDict record])%list = (dropped ++ history)%list /\
    List.length history = Nat.min 5 (List.length old_history + 1) /\
    Utilities.last_of history = Some (VDict record) /\
    get record "node" = VStr node_name /\
    get record "step" = VInt (Z.of_nat (List.length old_history + 1)).
Proof.
  cbv zeta. split.
  - intros k Hk. unfold Utilities.track_action.
    apply get_dset_other. apply String.eqb_neq. intros H. apply Hk. symmetry. exact H.
  - exact (logged_history node_name old_state new_state).
Qed.

End HistoryFacts.

Section SchemaFacts.
Context {RT : Runtime}.

(** X5.  Normalising is idempotent: the list [normalize_input_schema]
    returns is returned unchanged when normalised again. *)
Theorem normalize_input_schema_idempotent (input_schema : pyobj) :
  Utilities.normalize_input_schema (VList (Utilities.normalize_input_schema input_schema))
  = Utilities.normalize_input_schema input_schema.
Proof.
  destruct (Utilities.normalize_input_schema input_schema) as [|f l] eqn:E; reflexivity.
Qed.

Lemma normalized_properties_readable (d : dict) :
  Forall readable (Utilities.normalize_input_schema (VDict d)).
Proof.
  unfold Utilities.normalize_input_schema.
  destruct (negb (truthy (VDict d))); [constructor|].
  destruct (truthy (get_default d "properties" (VDict []))); [|constructor].
  induction (as_dict (get_default d "properties" (VDict []))) as [|[k spec] r IH];
    cbn [flat_map]; [constructor|].
  apply Forall_app. split; [|exact IH].
  destruct spec; constructor; try constructor.
  eexists _, k. split; reflexivity.
Qed.

Lemma schema_loop_readable (data : dict) (schema : list pyobj) (acc : dict * list string) :
  Forall readable schema ->
  exists validated errors, Validation.schema_loop data acc schema = Ok (validated, errors).
Proof.
  intros H. revert acc. induction H as [|f schema (d & s & -> & Hname) _ IH]; intros [v e].
  - exists v, e. reflexivity.
  - cbn [Validation.schema_loop dict_of bind].
    unfold Validation.schema_step. rewrite Hname. cbn [get_obj get_obj_default bind].
    destruct (Validation.blank _).
    + cbn [bind]. apply IH.
    + destruct (Validation.coerce _ _); [|cbn [bind]; apply IH].
      destruct (_ && _); cbn [bind]; apply IH.
Qed.

Lemma membership_of_name (k : string) (required : pyobj) :
  match Utilities.membership (VStr k) required with
  | Ok b => b = py_in (VStr k) required
  | Raise _ => is_container required = false
  end.
Proof. destruct required; reflexivity. Qed.

Lemma schema_fields_returned (required : pyobj) (properties : dict) :
  match Utilities.schema_fields required properties with
  | Ok fields =>
      fields = flat_map (fun kv : string * pyobj =>
                           let (field_name, field_spec) := kv in
                           match field_spec with
                           | VDict spec =>
                               [VDict [("name", VStr field_name);
                                       ("type", get_default spec "type" (VStr "string"));
                                       ("required", VBool (py_in (VStr field_name) required));
                                       ("format", get spec "format");
                                       ("description",
                                         get_default spec "description" (VStr ""))]]
                           | _ => []
                           end)
                        properties
  | Raise _ => is_container required = false
  end.
Proof.
  induction properties as [|[k spec] rest IH]; [reflexivity|].
  cbn [Utilities.schema_fields flat_map].
  destruct spec; try exact IH.
  pose proof (membership_of_name k required) as Hm.
  destruct (Utilities.membership (VStr k) required) as [b|e]; cbn [bind]; [|exact Hm].
  destruct (Utilities.schema_fields required rest) as [fields|e]; cbn [bind]; [|exact IH].
  subst b fields. reflexivity.
Qed.

(** What the raising reading returns is the list of the total one. *)
Lemma normalize_input_schema_returned (input_schema : pyobj) :
  match Utilities.normalize_input_schema_raising input_schema with
  | Ok fields => Utilities.normalize_input_schema input_schema = fields
  | Raise _ =>
      exists d,
        input_schema = VDict d /\
        (Utilities.is_dict (get_default d "properties" (VDict [])) = false \/
         is_container (get_default d "required" (VList [])) = false)
  end.
Proof.
  unfold Utilities.normalize_input_schema_raising, Utilities.normalize_input_schema.
  destruct (negb (truthy input_schema)); [reflexivity|].
  destruct input_schema as [ | | | | | |d]; try reflexivity.
  destruct (truthy (get_default d "properties" (VDict []))); [|reflexivity].
  destruct (get_default d "properties" (VDict [])) eqn:Hp;
    try (exists d; split; [reflexivity|left; rewrite Hp; reflexivity]).
  match goal with
  | |- context [Utilities.schema_fields ?r ?items] =>
      pose proof (schema_fields_returned r items) as H;
      destruct (Utilities.schema_fields r items) as [fields|e]
  end.
  - cbn [as_dict]. symmetry. exact H.
  - exists d. split; [reflexivity|right; exact H].
Qed.

(** X6.  On a schema written as a JSON-schema object,
    [normalize_input_schema] raises only when its properties are not a dict
    or its [required] is not a container ([.items()] and [in] at
    utilities.py:98 and :103).  Whenever it returns, it returns the fields of
    the total reading, and the validator can read them all: validating any
    data against them returns a pair and does not raise. *)
Theorem validate_normalized_object_schema_returns (input_schema data : dict) :
  match Utilities.normalize_input_schema_raising (VDict input_schema) with
  | Ok fields =>
      fields = Utilities.normalize_input_schema (VDict input_schema) /\
      exists validated errors,
        Validation.validate_against_schema data fields = Ok (validated, errors)
  | Raise _ =>
      Utilities.is_dict (get_default input_schema "properties" (VDict [])) = false \/
      is_container (get_default input_schema "required" (VList [])) = false
  end.
Proof.
  pose proof (normalize_input_schema_returned (VDict input_schema)) as H.
  destruct (Utilities.normalize_input_schema_raising (VDict input_schema)) as [fields|e].
  - subst fields. split; [reflexivity|].
    apply schema_loop_readable, normalized_properties_readable.
  - destruct H as (d & Hd & H). injection Hd as <-. exact H.
Qed.

End SchemaFacts.

(** ** Exit conditions, continued (utilities.py) *)

Section ExitMore.
Context {RT : Runtime}.

Lemma last_user_message (before after : list dict) (m : dict) :
  is_user m = true ->
  forallb (fun a => negb (is_user a)) after = true ->
  filter is_user (before ++ m :: after)%list = (filter is_user before ++ [m])%list.
Proof.
  intros Hm Hafter. rewrite filter_app. cbn [filter]. rewrite Hm. f_equal. f_equal.
  induction after as [|a r IH]; [reflexivity|].
  cbn [forallb] in Hafter. apply andb_prop in Hafter. destruct Hafter as [Ha Hr].
  cbn [filter]. apply negb_true_iff in Ha. rewrite Ha. apply IH. exact Hr.
Qed.

Lemma last_user_message_decides (expr : pyobj) (before after : list dict) (m : dict) :
  is_user m = true ->
  forallb (fun a => negb (is_user a)) after = true ->
  ExitConditions.prompt_matches expr (before ++ m :: after)%list
  = ExitConditions.prompt_matches expr [m].
Proof.
  intros Hm Hafter. unfold ExitConditions.prompt_matches.
  change (fun m0 : dict => py_eq (get m0 "role") (VStr "user")) with is_user.
  rewrite (last_user_message before after m Hm Hafter).
  cbn [filter]. rewrite Hm.
  rewrite map_app. cbn [map]. rewrite last_of_app.
  replace (Utilities.last_of [get_default m "content" (VStr "")])
    with (Some (get_default m "content" (VStr ""))) by reflexivity.
  destruct (before ++ m :: after)%list eqn:E; [|reflexivity].
  destruct before; discriminate.
Qed.

(** X7.  A prompt condition is decided on the last message of the user
    alone: the messages before it, and the assistant messages after it, do
    not change the result. *)
Theorem prompt_matches_reads_last_user_message
        (expr : pyobj) (before after : list dict) (m : dict) :
  py_eq (get m "role") (VStr "user") = true ->
  forallb (fun a => negb (py_eq (get a "role") (VStr "user"))) after = true ->
  ExitConditions.prompt_matches expr (before ++ m :: after)%list
  = ExitConditions.prompt_matches expr [m].
Proof. apply last_user_message_decides. Qed.

Lemma split_on_trailing (sep : ascii) (e : string) :
  exists h l, PyStr.split_on sep (e ++ String sep "") = (h :: l ++ [""])%list.
Proof.
  induction e as [|c e (h & l & IH)]; cbn [append PyStr.split_on].
  - rewrite Ascii.eqb_refl. exists "", []. reflexivity.
  - rewrite IH. destruct (Ascii.eqb c sep).
    + exists "", (h :: l). reflexivity.
    + exists (String c h), l. reflexivity.
Qed.

Lemma not_ending_in_slash (e : string) : PyStr.endswith "/" (e ++ "|") = false.
Proof.
  induction e as [|c e IH]; [reflexivity|].
  cbn [append PyStr.endswith]. rewrite IH.
  rewrite orb_false_r. apply String.eqb_neq. destruct e; discriminate.
Qed.

Lemma trailing_bar_truthy (e : string) : truthy (VStr (e ++ "|")) = true.
Proof. destruct e; reflexivity. Qed.

(** X8.  A phrase list that ends with a bar holds an empty phrase, and the
    empty phrase is found in every message: such a condition is met by
    whatever the user writes. *)
Theorem prompt_with_trailing_bar_always_matches (e content : string) (msgs : list dict) :
  ExitConditions.prompt_matches (VStr (e ++ "|")) (msgs ++ [user_says content])%list = Ok true.
Proof.
  rewrite (last_user_message_decides _ msgs [] (user_says content));
    [|reflexivity|reflexivity].
  unfold ExitConditions.prompt_matches. rewrite trailing_bar_truthy.
  cbn [negb orb filter user_says get get_default dget String.eqb Ascii.eqb Bool.eqb py_eq map].
  unfold Utilities.last_of. cbn [map List.last].
  cbn [str_method bind]. rewrite not_ending_in_slash.
  replace (if PyStr.startswith "/" (e ++ "|") then Ok false else Ok false)
    with (@Ok bool false) by (destruct (PyStr.startswith "/" (e ++ "|")); reflexivity).
  cbn [bind]. rewrite andb_false_r.
  destruct (split_on_trailing "|" e) as (h & l & ->).
  f_equal. apply existsb_exists. exists "". split.
  - apply in_map_iff. exists "". split; [reflexivity|].
    right. apply in_or_app. right. left. reflexivity.
  - destruct (PyStr.lower content); reflexivity.
Qed.

(** X9.  On a state of the declared shapes (string contents in the user
    messages, dicts under [extracted_data] and [tool_result]) a condition
    whose prompt expression is a string or is missing is always evaluated to
    a boolean: [evaluate] does not raise. *)
Theorem evaluate_returns_on_declared_shapes (cond state : dict) (msgs : list dict) :
  user_contents_are_strings msgs = true ->
  Utilities.is_dict (get_default state "extracted_data" (VDict [])) = true ->
  Utilities.is_dict (get_default state "tool_result" (VDict [])) = true ->
  prompt_expression_is_text cond = true ->
  exists b, ExitConditions.evaluate cond state msgs = Ok b.
Proof.
  intros Hmsgs Hdata Htool Hexpr. unfold ExitConditions.evaluate.
  destruct (_ || _); [eexists; reflexivity|].
  unfold prompt_expression_is_text in Hexpr.
  destruct (py_eq (get cond "type") (VStr "prompt")).
  - cbn [negb orb] in Hexpr. unfold ExitConditions.prompt_matches.
    destruct (truthy (get cond "expression")) eqn:Ht; [|eexists; reflexivity].
    rewrite orb_false_r in Hexpr.
    destruct (get cond "expression") as [| | | |expr| |]; try discriminate.
    cbn [negb orb]. destruct msgs as [|m0 msgs0] eqn:Em; [eexists; reflexivity|].
    rewrite <- Em in *. clear Em.
    destruct (Utilities.last_of _) as [last|] eqn:El; [|eexists; reflexivity].
    assert (Hlast : is_str last = true).
    { unfold Utilities.last_of in El.
      assert (Hall : Forall (fun o => forall x, o = Some x -> is_str x = true)
                       (map Some (map (fun m => get_default m "content" (VStr ""))
                          (filter (fun m => py_eq (get m "role") (VStr "user")) msgs)))).
      { apply Forall_forall. intros o Ho x ->.
        apply in_map_iff in Ho. destruct Ho as (y & Hy & Ho). injection Hy as ->.
        apply in_map_iff in Ho. destruct Ho as (m & <- & Hin).
        apply filter_In in Hin. destruct Hin as [Hin Hrole].
        unfold user_contents_are_strings in Hmsgs.
        rewrite forallb_forall in Hmsgs. specialize (Hmsgs m Hin).
        rewrite Hrole in Hmsgs. exact Hmsgs. }
      revert El Hall. generalize (map Some (map (fun m => get_default m "content" (VStr ""))
                          (filter (fun m => py_eq (get m "role") (VStr "user")) msgs))).
      intros l El Hall.
      assert (Hin : In (Some last) l).
      { destruct l as [|o l]; [discriminate|].
        destruct (@exists_last _ (o :: l)) as (l' & z & Hz); [discriminate|].
        rewrite Hz in El |- *. rewrite last_last in El. subst z.
        apply in_or_app. right. left. reflexivity. }
      rewrite Forall_forall in Hall. exact (Hall _ Hin last eq_refl). }
    destruct last as [| | | |content| |]; try discriminate.
    cbn [str_method bind].
    destruct (PyStr.startswith "/" expr); cbn [bind].
    + destruct (true && PyStr.endswith "/" expr); [|eexists; reflexivity].
      destruct (re_search_ignorecase _ _); eexists; reflexivity.
    + eexists; reflexivity.
  - clear Hexpr. destruct (py_eq (get cond "type") (VStr "logical")).
    + unfold ExitConditions.logical_matches.
      destruct (truthy (get cond "expression")); cbn [negb]; [|eexists; reflexivity].
      destruct (py_eq (get cond "expression") (VStr "is_data_complete"));
        [|eexists; reflexivity].
      destruct (get_default state "extracted_data" (VDict [])); try discriminate.
      eexists; reflexivity.
    + destruct (py_eq (get cond "type") (VStr "tool_event")).
      * unfold ExitConditions.tool_event_matches.
        destruct (get cond "expression") as [| | | | | |e]; try (eexists; reflexivity).
        destruct (truthy (VDict e)); cbn [negb]; [|eexists; reflexivity].
        destruct (get_default state "tool_result" (VDict [])) as [| | | | | |tr];
          try discriminate.
        destruct (truthy (VDict tr)); cbn [negb]; [|eexists; reflexivity].
        cbn [dict_of bind].
        destruct (truthy (get e "tool")); cbn [bind].
        -- destruct (negb (py_eq (get tr "type") (get e "tool"))); [eexists; reflexivity|].
           destruct (truthy (get e "status")); cbn [bind]; eexists; reflexivity.
        -- destruct (truthy (get e "status")); cbn [bind]; eexists; reflexivity.
      * destruct (py_eq (get cond "type") (VStr "max_turns")); [|eexists; reflexivity].
        unfold ExitConditions.max_turns_matches.
        destruct (get cond "expression"); try (eexists; reflexivity);
          unfold try_except; destruct (bind _ _); eexists; reflexivity.
Qed.

End ExitMore.

(** ** The checks on required fields (validation.py) *)

Section RequiredFieldFacts.
Context {RT : Runtime}.

Lemma dset_not_empty (d : dict) (k : string) (v : pyobj) : dset d k v <> [].
Proof. destruct d as [|[k' v'] r]; simpl; [|destruct (String.eqb k' k)]; discriminate. Qed.

Lemma errors_accumulate (config : dict) (fields : list dict) (data acc errs : dict) :
  Validation.validate_all_fields_in config fields data acc = Ok errs ->
  acc <> [] -> errs <> [].
Proof.
  revert acc. induction fields as [|field rest IH]; intros acc H Hacc.
  - injection H as <-. exact Hacc.
  - cbn [Validation.validate_all_fields_in] in H.
    destruct (get_obj_default data _ _) as [value|]; [|discriminate]. cbn [bind] in H.
    destruct (str_method "strip" PyStr.strip value) as [stripped|]; [|discriminate].
    cbn [bind] in H.
    destruct (Validation.field_errors _ _ _ _ _).
    + exact (IH _ H Hacc).
    + exact (IH _ H (dset_not_empty _ _ _)).
Qed.

Lemma complete_iff_no_errors_in (config : dict) (fields : list dict) (data acc errs : dict) :
  Validation.validate_all_fields_in config fields data acc = Ok errs ->
  exists b, Validation.is_data_complete_in config fields data = Ok b /\
            (b = true -> errs = acc) /\ (b = false -> errs <> []).
Proof.
  revert acc. induction fields as [|field rest IH]; intros acc H.
  - injection H as <-. exists true. split; [reflexivity|]. split; [reflexivity|discriminate].
  - cbn [Validation.validate_all_fields_in Validation.is_data_complete_in] in *.
    destruct (get_obj_default data _ _) as [value|]; [|discriminate]. cbn [bind] in *.
    destruct (str_method "strip" PyStr.strip value) as [stripped|]; [|discriminate].
    cbn [bind] in *. unfold Validation.field_errors in H.
    destruct (String.eqb stripped "").
    + exists false. split; [reflexivity|]. split; [discriminate|]. intros _.
      exact (errors_accumulate _ _ _ _ _ H (dset_not_empty _ _ _)).
    + destruct (Validation.validate_field config _ _); cbn [negb] in *.
      * apply IH. exact H.
      * exists false. split; [reflexivity|]. split; [discriminate|]. intros _.
        destruct (py_eq _ _);
          exact (errors_accumulate _ _ _ _ _ H (dset_not_empty _ _ _)).
Qed.

(** X10.  Whenever [validate_all_fields] returns, [is_data_complete]
    returns too, and it answers [True] exactly when no error was
    reported. *)
Theorem complete_exactly_when_no_errors (config data errs : dict) :
  Validation.validate_all_fields config data = Ok errs ->
  Validation.is_data_complete config data
  = Ok (match errs with [] => true | _ :: _ => false end).
Proof.
  unfold Validation.validate_all_fields, Validation.is_data_complete. intros H.
  apply complete_iff_no_errors_in in H. destruct H as (b & -> & Htrue & Hfalse).
  destruct b.
  - rewrite (Htrue eq_refl). reflexivity.
  - destruct errs; [exfalso; exact (Hfalse eq_refl eq_refl)|reflexivity].
Qed.

Lemma complete_data_in (config : dict) (fields : list dict) (data acc : dict) :
  Validation.is_data_complete_in config fields data = Ok true ->
  Validation.validate_all_fields_in config fields data acc = Ok acc /\
  Validation.get_missing_fields_in fields data = Ok [].
Proof.
  induction fields as [|field rest IH]; intros H.
  - split; reflexivity.
  - cbn [Validation.validate_all_fields_in Validation.is_data_complete_in
           Validation.get_missing_fields_in] in *.
    destruct (get_obj_default data _ _) as [value|]; [|discriminate]. cbn [bind] in *.
    destruct (str_method "strip" PyStr.strip value) as [stripped|]; [|discriminate].
    cbn [bind] in *. unfold Validation.field_errors.
    destruct (String.eqb stripped ""); [discriminate|].
    destruct (Validation.validate_field config _ _); cbn [negb] in *; [|discriminate].
    destruct (IH H) as [Hv Hm]. rewrite Hm. split; [exact Hv|reflexivity].
Qed.

(** X11.  Data that [is_data_complete] accepts has no missing field and no
    validation error: [get_missing_fields] returns the empty list and
    [validate_all_fields] the empty dict. *)
Theorem complete_data_passes_the_other_checks (config data : dict) :
  Validation.is_data_complete config data = Ok true ->
  Validation.validate_all_fields config data = Ok [] /\
  Validation.get_missing_fields config data = Ok [].
Proof.
  unfold Validation.validate_all_fields, Validation.is_data_complete,
    Validation.get_missing_fields.
  apply complete_data_in.
Qed.

End RequiredFieldFacts.

(** ** The tools (tools.py) *)

Section ToolEnvelopes.
Context {RT : Runtime}.

Ltac split_body E :=
  repeat (cbn [bind] in E;
          match type of E with
          | bind ?x _ = _ => destruct x eqn:?; try discriminate E
          | (if ?x then _ else _) = _ => destruct x eqn:?; try discriminate E
          | match ?x with _ => _ end = _ => destruct x eqn:?; try discriminate E
          end).

(** X12.  [sheets_tool] never raises.  What it returns is an envelope of
    type [sheets] that carries the data it was given and a summary; its
    [success] is [True] or [False], and a failure always has an [error]. *)
Theorem sheets_tool_always_answers (w : Tools.World) (extracted_data config : dict) :
  exists env,
    Tools.sheets_tool w extracted_data config = Ok env /\
    get env "type" = VStr "sheets" /\
    get env "data" = VDict extracted_data /\
    has_key env "summary" = true /\
    (get env "success" = VBool true \/
     (get env "success" = VBool false /\ has_key env "error" = true)).
Proof.
  unfold Tools.sheets_tool.
  match goal with
  | |- context [try_except ?b ?h] => destruct b as [env|e] eqn:E
  end; cbn [try_except].
  - exists env. split; [reflexivity|].
    unfold Tools.sheets_failure in E.
    split_body E; injection E as <-;
      (split; [reflexivity|]); (split; [reflexivity|]); (split; [reflexivity|]);
      try (left; reflexivity); right; split; reflexivity.
  - eexists. split; [reflexivity|]. unfold Tools.sheets_failure.
    repeat (split; [reflexivity|]). right. split; reflexivity.
Qed.

(** X13.  [sheets_tool] reports success only when the data passed
    [is_data_complete] and the row was appended; the answer of the sheet is
    returned under [append_response]. *)
Theorem sheets_success_means_row_appended
        (w : Tools.World) (extracted_data config env : dict) :
  Tools.sheets_tool w extracted_data config = Ok env ->
  get env "success" = VBool true ->
  Validation.is_data_complete config extracted_data = Ok true /\
  exists resp,
    Tools.append_to_sheet w config extracted_data = Ok resp /\
    get env "append_response" = resp.
Proof.
  unfold Tools.sheets_tool. intros H Hs.
  match type of H with
  | try_except ?b ?h = _ => destruct b as [env'|e] eqn:E
  end; cbn [try_except] in H.
  - injection H as ->. unfold Tools.sheets_failure in E.
    split_body E; injection E as <-; try discriminate Hs.
    match goal with
    | Hb : negb ?b = false |- _ => apply negb_false_iff in Hb; subst b
    end.
    split; [reflexivity|]. eexists. split; reflexivity.
  - injection H as <-. discriminate Hs.
Qed.

(** X14.  Data that does not pass [is_data_complete] never reaches Google
    Sheets: the result of [sheets_tool] is then the same in every world. *)
Theorem incomplete_data_is_not_sent (w1 w2 : Tools.World) (extracted_data config : dict) :
  Validation.is_data_complete config extracted_data <> Ok true ->
  Tools.sheets_tool w1 extracted_data config = Tools.sheets_tool w2 extracted_data config.
Proof.
  intros H. unfold Tools.sheets_tool.
  destruct (Validation.is_data_complete config extracted_data) as [[|]|e];
    [contradiction|reflexivity|reflexivity].
Qed.

(** X15.  [web_search_tool] never raises.  A success has type [tavily]; a
    failure has type [web_search] and an [error]; both carry a summary. *)
Theorem web_search_tool_always_answers (w : Tools.World) (extracted_data config : dict) :
  exists env,
    Tools.web_search_tool w extracted_data config = Ok env /\
    has_key env "summary" = true /\
    ((get env "success" = VBool true /\ get env "type" = VStr "tavily") \/
     (get env "success" = VBool false /\ get env "type" = VStr "web_search" /\
      has_key env "error" = true)).
Proof.
  unfold Tools.web_search_tool.
  destruct (_ && _).
  - match goal with
    | |- context [try_except ?b ?h] => destruct b as [env|e] eqn:E
    end; cbn [try_except].
    + exists env. split; [reflexivity|].
      split_body E; injection E as <-. split; [reflexivity|]. left. split; reflexivity.
    + eexists. split; [reflexivity|]. split; [reflexivity|].
      right. repeat split; reflexivity.
  - eexists. split; [reflexivity|]. split; [reflexivity|].
    right. repeat split; reflexivity.
Qed.

(** X16.  [api_retrieval_tool] reports success only for an answer of the
    server whose status is in the range 200-299; the status is returned
    under [status_code]. *)
Theorem api_success_means_2xx (w : Tools.World) (extracted_data config env : dict) :
  Tools.api_retrieval_tool w extracted_data config = Ok env ->
  get env "success" = VBool true ->
  exists status,
    get env "status_code" = VInt status /\ (200 <= status < 300)%Z.
Proof.
  unfold Tools.api_retrieval_tool. intros H Hs.
  destruct (negb (Tools.requests_available w)); [injection H as <-; discriminate Hs|].
  destruct (negb (truthy _)); [injection H as <-; discriminate Hs|].
  destruct (py_int _) as [timeout|]; [|discriminate]. cbn [bind] in H.
  match type of H with
  | bind ?x _ = _ => destruct x as [params|]; [|discriminate]
  end.
  cbn [bind] in H.
  destruct (Tools.inject_auth _ _ _ _) as [headers params'].
  match type of H with
  | match ?x with _ => _ end = _ => destruct x as [body|]
  end; [|injection H as <-; discriminate Hs].
  destruct (Tools.http_request _ _ _ _ _ _ _) as [resp|];
    [|injection H as <-; discriminate Hs].
  injection H as <-.
  exists (Tools.status_code resp). split; [reflexivity|].
  assert (Hs' : ((200 <=? Tools.status_code resp)%Z && (Tools.status_code resp <? 300)%Z)
                = true).
  { change (@VBool float ((200 <=? Tools.status_code resp)%Z
                          && (Tools.status_code resp <? 300)%Z) = VBool true) in Hs.
    injection Hs as Hs. exact Hs. }
  clear Hs. rename Hs' into Hs. apply andb_prop in Hs. destruct Hs as [H1 H2].
  apply Z.leb_le in H1. apply Z.ltb_lt in H2. lia.
Qed.

End ToolEnvelopes.

(** ** Tool execution and tool answer (nodes.py) *)

Section ToolNodeFacts.
Context {RT : Runtime}.

(** What [execute_tool] returns (the registry has no generic entry). *)
Lemma execute_tool_answer (w : Tools.World) (tool_type : pyobj) (extracted_data config : dict) :
  Tools.execute_tool w tool_type extracted_data config =
  Ok [("success", VBool false);
      ("data", VDict extracted_data);
      ("type", tool_type);
      ("message", VStr "Tool execution failed: 'generic'");
      ("error", VStr "'generic'")].
Proof. reflexivity. Qed.

(** The two outcomes of the tool execution node. *)
Lemma tool_execution_outcome (w : Tools.World) (state config : dict) :
  exists err new_state,
    Nodes.tool_execution_node w state config
    = Utilities.log_node_execution "TOOL_EXECUTION" state new_state /\
    get (as_dict (get new_state "tool_result")) "error" = VStr err /\
    truthy (get (as_dict (get new_state "tool_result")) "success") = false /\
    ((err = "'generic'" /\
      exists tool_result,
        new_state = update state [("tool_result", tool_result);
                                  ("messages", VList (messages_of state))]) \/
     new_state = update state
                   [("tool_result", VDict [("error", VStr err)]);
                    ("messages",
                      VList (messages_of state
                             ++ [Nodes.message "assistant" ("Tool error: " ++ err)])%list)]).
Proof.
  unfold Nodes.tool_execution_node.
  destruct (Nodes.tool_execution_attempt w state config) as [new_state|e] eqn:E.
  - unfold Nodes.tool_execution_attempt in E.
    match type of E with
    | bind ?x _ = _ => destruct x as [extracted_data|]; [|discriminate]
    end.
    cbn [bind] in E.
    destruct (Nodes.in_registry w _) as [known|]; [|discriminate]. cbn [bind] in E.
    match type of E with
    | bind ?x _ = _ => destruct x as [tool_type|]; [|discriminate]
    end.
    cbn [bind] in E. rewrite execute_tool_answer in E. cbn [bind] in E.
    injection E as <-.
    exists "'generic'". eexists. split; [reflexivity|].
    read_dict. cbn [as_dict].
    split; [reflexivity|]. split; [reflexivity|].
    left. split; [reflexivity|]. eexists. reflexivity.
  - exists (exn_str e). eexists. split; [reflexivity|].
    rewrite !get_update. cbn [dget_last String.eqb Ascii.eqb Bool.eqb as_dict].
    split; [reflexivity|]. split; [reflexivity|].
    right. reflexivity.
Qed.

(** X17.  The tool execution node never stores a successful result:
    whatever the state and the configuration, the [tool_result] it leaves
    has an [error] and no true [success] (the executor it calls fails on
    the missing generic entry, and any exception of the node itself is
    stored as an error). *)
Theorem tool_execution_never_succeeds (w : Tools.World) (state config : dict) :
  let tool_result := as_dict (get (Nodes.tool_execution_node w state config) "tool_result") in
  truthy (get tool_result "success") = false /\
  exists err, get tool_result "error" = VStr err.
Proof.
  cbv zeta.
  destruct (tool_execution_outcome w state config) as (err & new_state & -> & He & Hs & _).
  rewrite get_log_node_execution by reflexivity.
  split; [exact Hs|]. exists err. exact He.
Qed.

Lemma get_default_of_get (d : dict) (k : string) (v dflt : pyobj) :
  get d k = v -> v <> VNone -> get_default d k dflt = v.
Proof.
  unfold get, get_default. destruct (dget d k); [auto|]. intros <- H. contradiction.
Qed.

Lemma messages_of_log (node_name : string) (old new : dict) :
  messages_of (Utilities.log_node_execution node_name old new) = messages_of new.
Proof.
  unfold messages_of, Utilities.log_node_execution, Utilities.track_action.
  rewrite get_default_dset_other by reflexivity. reflexivity.
Qed.

(** What the tool answer node returns. *)
Lemma tool_answer_output (state config : dict) (reply : result pyobj) (state' : dict) :
  Nodes.tool_answer_node state config reply = Ok state' ->
  exists tr answer tool_ctx,
    py_or (get_default state "tool_result" (VDict [])) (VDict []) = VDict tr /\
    get (as_dict tool_ctx) "status"
    = VStr (if truthy (get tr "success") then "success" else "failure") /\
    (raises reply = true ->
     answer = Nodes.last_tool_summary_of (VDict tr)
                (get_default state "tool_category" (VStr "input"))) /\
    state' = Utilities.log_node_execution "TOOL_ANSWER" state
               (update state
                  [("messages",
                     VList (messages_of state ++ [Nodes.message "assistant" answer])%list);
                   ("user_input", VStr "");
                   ("last_tool_summary",
                     VStr (Nodes.last_tool_summary_of (VDict tr)
                             (get_default state "tool_category" (VStr "input"))));
                   ("last_tool_context", tool_ctx);
                   ("next_action", VStr "wait_user_input")]).
Proof.
  unfold Nodes.tool_answer_node. intros H.
  destruct (py_or (get_default state "tool_result" (VDict [])) (VDict []))
    as [| | | | | |tr] eqn:Etr; try discriminate.
  cbn [dict_of bind] in H. injection H as <-.
  exists tr. eexists. eexists. split; [reflexivity|].
  split; [|split]; cycle 2.
  - reflexivity.
  - reflexivity.
  - destruct reply; [discriminate|]. reflexivity.
Qed.

(** X18.  The tool answer node appends exactly one assistant message,
    clears the user input and hands over to [wait_user_input]; when the
    model (or the building of its prompt) raises, the message is the
    summary the node stores under [last_tool_summary]. *)
Theorem tool_answer_appends_one_message
        (state config : dict) (reply : result pyobj) (state' : dict) :
  Nodes.tool_answer_node state config reply = Ok state' ->
  exists answer,
    messages_of state' = (messages_of state ++ [Nodes.message "assistant" answer])%list /\
    get state' "user_input" = VStr "" /\
    get state' "next_action" = VStr "wait_user_input" /\
    (raises reply = true -> get state' "last_tool_summary" = VStr answer).
Proof.
  intros H. apply tool_answer_output in H.
  destruct H as (tr & answer & tool_ctx & _ & _ & Hraise & ->).
  exists answer. rewrite messages_of_log. unfold messages_of at 1.
  rewrite get_default_update. rewrite !get_log_node_execution by reflexivity.
  rewrite !get_update. cbn [dget_last String.eqb Ascii.eqb Bool.eqb as_list].
  repeat (split; [reflexivity|]).
  intros Hr. rewrite (Hraise Hr). reflexivity.
Qed.

(** X19.  Run after the tool execution node, the tool answer node always
    returns, and what it records is a failure: the summary starts with
    [Tool execution failed:] and the status of the tool context is
    [failure]. *)
Theorem tool_answer_after_execution_reports_failure
        (w : Tools.World) (state config : dict) (reply : result pyobj) :
  exists state' err,
    Nodes.tool_answer_node (Nodes.tool_execution_node w state config) config reply
    = Ok state' /\
    get state' "last_tool_summary" = VStr ("Tool execution failed: " ++ err) /\
    get (as_dict (get state' "last_tool_context")) "status" = VStr "failure".
Proof.
  destruct (tool_execution_outcome w state config) as (err & new_state & Hrun & He & Hs & _).
  set (executed := Nodes.tool_execution_node w state config) in *.
  assert (Hres : get executed "tool_result" = get new_state "tool_result").
  { rewrite Hrun. apply get_log_node_execution. reflexivity. }
  destruct (get new_state "tool_result") as [| | | | | |tr] eqn:Etr;
    try (cbn in He; discriminate He).
  cbn [as_dict] in He, Hs.
  assert (Hne : truthy (VDict tr) = true) by (destruct tr; [discriminate He|reflexivity]).
  assert (Hgd : py_or (get_default executed "tool_result" (VDict [])) (VDict []) = VDict tr).
  { rewrite (get_default_of_get _ _ _ _ Hres) by discriminate.
    unfold py_or. rewrite Hne. reflexivity. }
  destruct (Nodes.tool_answer_node executed config reply) as [state'|e] eqn:E.
  - exists state', err. split; [reflexivity|].
    apply tool_answer_output in E.
    destruct E as (tr' & answer & tool_ctx & Htr' & Hstatus & _ & ->).
    rewrite Hgd in Htr'. injection Htr' as <-.
    rewrite !get_log_node_execution by reflexivity.
    rewrite !get_update. cbn [dget_last String.eqb Ascii.eqb Bool.eqb].
    rewrite Hstatus, Hs. split; [|reflexivity].
    unfold Nodes.last_tool_summary_of.
    replace (Nodes.is_True (get tr "success")) with false
      by (destruct (get tr "success") as [|[|]| | | | |]; try reflexivity; discriminate Hs).
    rewrite (get_default_of_get _ _ _ _ He) by discriminate. reflexivity.
  - exfalso. unfold Nodes.tool_answer_node in E. rewrite Hgd in E. discriminate E.
Qed.

End ToolNodeFacts.

(** ** Waiting, validating and routing (nodes.py, graph_builder.py) *)

Section TurnFacts.
Context {RT : Runtime}.

Lemma py_eq_str_refl (s : string) : py_eq (VStr s) (VStr s) = true.
Proof. apply String.eqb_refl. Qed.

(** What the wait node does with an input that is already in the state. *)
Lemma wait_with_input (state : dict) (resume : pyobj) (s : string) :
  get_default state "user_input" (VStr "") = VStr s ->
  PyStr.strip s <> "" ->
  exists messages,
    Nodes.wait_user_input_node state resume
    = Ok (Utilities.log_node_execution "WAIT_USER_INPUT" state
            (update state [("messages", VList messages); ("user_input", VStr s)])) /\
    (forall m, Utilities.last_of (map as_dict (messages_of state)) = Some m ->
               py_eq (get m "role") (VStr "user") = true ->
               py_eq (get m "content") (VStr s) = true ->
               messages = messages_of state) /\
    exists m, Utilities.last_of (map as_dict messages) = Some m /\
              py_eq (get m "role") (VStr "user") = true /\
              py_eq (get m "content") (VStr s) = true.
Proof.
  intros Hin Hs. unfold Nodes.wait_user_input_node. rewrite Hin.
  assert (Ht : truthy (VStr s) = true).
  { destruct s; [contradiction Hs; reflexivity|reflexivity]. }
  rewrite Ht. apply String.eqb_neq in Hs. rewrite Hs. cbn [negb andb bind].
  fold (messages_of state).
  destruct (Utilities.last_of (map as_dict (messages_of state))) as [m|] eqn:El.
  - destruct (py_eq (get m "role") (VStr "user") && py_eq (get m "content") (VStr s)) eqn:Em.
    + exists (messages_of state). split; [reflexivity|]. split; [reflexivity|].
      exists m. apply andb_prop in Em. tauto.
    + eexists. split; [reflexivity|]. split.
      * intros m0 Hm0 Hr Hc. injection Hm0 as <-. rewrite Hr, Hc in Em. discriminate.
      * rewrite map_app. cbn [map]. rewrite last_of_app.
        eexists. split; [reflexivity|]. split; [reflexivity|apply py_eq_str_refl].
  - eexists. split; [reflexivity|]. split; [discriminate|].
    rewrite map_app. cbn [map]. rewrite last_of_app.
    eexists. split; [reflexivity|]. split; [reflexivity|apply py_eq_str_refl].
Qed.

Lemma after_wait (state : dict) (msgs : list pyobj) (s : string) :
  let state' := Utilities.log_node_execution "WAIT_USER_INPUT" state
                  (update state [("messages", VList msgs); ("user_input", VStr s)]) in
  messages_of state' = msgs /\
  get_default state' "user_input" (VStr "") = VStr s /\
  get state' "user_input" = VStr s.
Proof.
  cbv zeta. split; [|split].
  - rewrite messages_of_log. unfold messages_of. rewrite get_default_update. reflexivity.
  - unfold Utilities.log_node_execution, Utilities.track_action.
    rewrite get_default_dset_other by reflexivity.
    rewrite get_default_update. reflexivity.
  - rewrite get_log_node_execution by reflexivity. rewrite get_update. reflexivity.
Qed.

(** X20.  An input that is already in the state is recorded once: the wait
    node returns with the user message last, keeps the input, and running
    it again (whatever a resume would bring) leaves the messages as they
    are. *)
Theorem pending_input_is_recorded_once (state : dict) (resume resume' : pyobj) (s : string) :
  get_default state "user_input" (VStr "") = VStr s ->
  PyStr.strip s <> "" ->
  exists state' state'' m,
    Nodes.wait_user_input_node state resume = Ok state' /\
    Utilities.last_of (map as_dict (messages_of state')) = Some m /\
    py_eq (get m "role") (VStr "user") = true /\
    py_eq (get m "content") (VStr s) = true /\
    get state' "user_input" = VStr s /\
    Nodes.wait_user_input_node state' resume' = Ok state'' /\
    messages_of state'' = messages_of state'.
Proof.
  intros Hin Hs.
  destruct (wait_with_input state resume s Hin Hs) as (msgs & Hrun & _ & m & Hl & Hr & Hc).
  destruct (after_wait state msgs s) as (Hm' & Hin' & Hget).
  set (state' := Utilities.log_node_execution "WAIT_USER_INPUT" state
                   (update state [("messages", VList msgs); ("user_input", VStr s)])) in *.
  destruct (wait_with_input state' resume' s Hin' Hs) as (msgs2 & Hrun2 & Hsame & _).
  rewrite Hm' in Hsame. rewrite (Hsame m Hl Hr Hc) in Hrun2.
  destruct (after_wait state' msgs s) as (Hm'' & _ & _).
  eexists state', _, m. split; [exact Hrun|].
  rewrite Hm'. split; [exact Hl|]. split; [exact Hr|]. split; [exact Hc|].
  split; [exact Hget|]. split; [exact Hrun2|]. exact Hm''.
Qed.

(** X21.  The validation node and the router that follows it agree.
    Either errors were found: they are stored, one assistant message asks
    for corrections, [next_action] is [chat] and the router goes to chat.
    Or none was found: the error list is empty, the messages are as they
    were, [next_action] is [tool_execution] and the router goes there. *)
Theorem validate_inputs_routes_consistently (state config state' : dict) :
  Nodes.validate_inputs_node state config = Ok state' ->
  (truthy (get state' "validation_errors") = true /\
   (exists text,
       messages_of state' = (messages_of state ++ [Nodes.message "assistant" text])%list) /\
   get state' "next_action" = VStr "chat" /\
   GraphBuilder.validate_router state' = GraphBuilder.chat)
  \/
  (get state' "validation_errors" = VList [] /\
   messages_of state' = messages_of state /\
   get state' "next_action" = VStr "tool_execution" /\
   GraphBuilder.validate_router state' = GraphBuilder.tool_execution).
Proof.
  unfold Nodes.validate_inputs_node. intros H.
  destruct (Utilities.get_selected_tool_config config state) as [selected_tool tool_cfg].
  destruct (Validation.validate_against_schema _ _) as [[validated val_errors]|];
    [|discriminate].
  cbn [bind] in H. destruct val_errors as [|e1 es]; injection H as <-.
  - right. unfold GraphBuilder.validate_router.
    rewrite messages_of_log. unfold messages_of at 1.
    rewrite !get_log_node_execution by reflexivity.
    unfold Utilities.log_node_execution, Utilities.track_action.
    read_dict. cbn [truthy].
    repeat split; reflexivity.
  - left. unfold GraphBuilder.validate_router.
    rewrite messages_of_log. unfold messages_of at 1.
    rewrite !get_log_node_execution by reflexivity.
    unfold Utilities.log_node_execution, Utilities.track_action.
    read_dict. cbn [truthy vstrs map as_list].
    split; [reflexivity|]. split; [eexists; reflexivity|]. split; reflexivity.
Qed.

Lemma unresolved_token_is_no_tool_name (config : dict) (c : ascii) (tok : string) :
  Nodes.resolve_tool config (String c tok) = (VNone, VNone) ->
  existsb (py_eq (VStr (String c tok))) (GraphBuilder.tool_names config) = false.
Proof.
  unfold Nodes.resolve_tool, GraphBuilder.tool_names. intros H.
  destruct (find _ _) as [t|] eqn:Hfind.
  - apply find_some in Hfind. destruct Hfind as [_ Hn]. unfold Nodes.names_decision in Hn.
    destruct (get t "name"); discriminate.
  - clear H. destruct (existsb _ _) eqn:E; [|reflexivity]. exfalso.
    apply existsb_exists in E. destruct E as (x & Hx & Heq).
    apply in_map_iff in Hx. destruct Hx as (t & <- & Ht).
    apply filter_In in Ht. destruct Ht as [Ht _].
    assert (Hcfg : py_or (get_default config "tools" (VList [])) (VList [])
                   = py_or (get config "tools") (VList [])).
    { unfold get, get_default. destruct (dget config "tools"); reflexivity. }
    rewrite Hcfg in Ht.
    pose proof (find_none _ _ Hfind t Ht) as Hno. unfold Nodes.names_decision in Hno.
    destruct (get t "name") as [| | | |name| |]; try discriminate.
    cbn [py_eq] in Heq. apply String.eqb_eq in Heq. subst name.
    rewrite String.eqb_refl in Hno. discriminate.
Qed.

(** X22.  A decision that names no configured tool ends the conversation
    only when its token is exactly [end], in lower case: the graph then goes
    to the end node, and with any other token (such as [END]) to chat. *)
Theorem end_decision_is_case_sensitive (state config : dict) (llm_response : string) :
  Nodes.resolve_tool config (fst (Nodes.parse_decision llm_response)) = (VNone, VNone) ->
  GraphBuilder.successor config GraphBuilder.decision_router
    (Nodes.decision_router_node state config llm_response)
  = Some (if String.eqb (fst (Nodes.parse_decision llm_response)) "end"
          then GraphBuilder.end_ else GraphBuilder.chat).
Proof.
  intros Hres. cbn [GraphBuilder.successor]. unfold GraphBuilder.decision_router_fn.
  destruct (router_fields state config llm_response) as (Hna & _). cbv zeta in Hna.
  rewrite Hres in Hna. cbn [fst] in Hna.
  replace (Nodes.repeated_tool state VNone) with false in Hna by reflexivity.
  change (py_or VNone ?x) with x in Hna.
  assert (Hgd : get_default (Nodes.decision_router_node state config llm_response)
                  "next_action" (VStr "chat")
                = VStr (fst (Nodes.parse_decision llm_response))).
  { apply get_default_of_get; [exact Hna|discriminate]. }
  rewrite Hgd.
  destruct (parsed_token llm_response) as (c & tok & Hfst & _). rewrite Hfst in *.
  rewrite (unresolved_token_is_no_tool_name config c tok Hres).
  cbn [py_eq]. reflexivity.
Qed.

(** X23.  When the required fields of the selected schema are already in
    the extracted data, the extractor does not use the model: whatever the
    model would answer the result is the same, [next_action] is
    [validate_inputs] and the extracted data are unchanged. *)
Theorem complete_fields_skip_the_model (state config : dict) (reply reply' : result string) :
  Utilities.selected_schema config state <> [] ->
  Nodes.are_required_fields_complete (extracted_of state)
    (Utilities.selected_schema config state) = Ok true ->
  Nodes.structured_extractor_node state config reply
  = Nodes.structured_extractor_node state config reply' /\
  exists state',
    Nodes.structured_extractor_node state config reply = Ok state' /\
    get state' "next_action" = VStr "validate_inputs" /\
    extracted_of state' = extracted_of state.
Proof.
  intros Hschema Hcomplete. unfold Nodes.structured_extractor_node.
  fold (extracted_of state). rewrite Hcomplete.
  destruct (Utilities.selected_schema config state) as [|f schema]; [contradiction|].
  destruct (Utilities.get_selected_tool_config config state) as [selected_tool tool_cfg].
  split; [reflexivity|]. eexists. split; [reflexivity|].
  rewrite get_log_node_execution by reflexivity. rewrite extracted_of_log.
  unfold extracted_of. rewrite get_update, get_default_update.
  split; reflexivity.
Qed.

End TurnFacts.

(** ** Invariants of the graph (nodes.py, graph_builder.py) *)

Section GraphInvariants.
Context {RT : Runtime}.
Variable w : Tools.World.
Variable config : dict.

Lemma Ok_inj {A} (a b : A) : Ok a = Ok b -> a = b.
Proof. intros H. injection H as H. exact H. Qed.

Lemma length_set_last {A} (l : list A) (x y : A) :
  Utilities.last_of l = Some y -> List.length (Nodes.set_last l x) = List.length l.
Proof.
  intros H. destruct l as [|a l]; [discriminate|].
  destruct (@exists_last _ (a :: l)) as (l' & z & ->); [discriminate|].
  unfold Nodes.set_last. rewrite removelast_last, !List.length_app. reflexivity.
Qed.

Lemma dget_last_none (u : dict) (k : string) : ~ In k (keys u) -> dget_last u k = None.
Proof.
  induction u as [|[k' v] r IH]; intros H; [reflexivity|].
  cbn [dget_last]. rewrite IH by (intros Hin; apply H; right; exact Hin).
  destruct (String.eqb k' k) eqn:E; [|reflexivity].
  apply String.eqb_eq in E. exfalso. apply H. left. exact E.
Qed.

(** The innermost value a computation in the error monad branches on. *)
Ltac scrutinee t k :=
  lazymatch t with
  | bind ?x _ => first [scrutinee x k | k x]
  | match ?y with _ => _ end => first [scrutinee y k | k y]
  end.

Ltac open_cases H :=
  repeat (cbn [bind] in H; cbv beta iota in H;
          match type of H with
          | ?t = _ => scrutinee t ltac:(fun y => destruct y eqn:?; try discriminate H)
          end).

Ltac give_update :=
  eexists; split; [reflexivity|]; split;
  [cbn [keys map fst label may_write]; intros k Hk; cbn [In] in *; tauto
  |intros v Hv; cbn [dget_last String.eqb Ascii.eqb Bool.eqb] in Hv;
   first
     [discriminate Hv
     |injection Hv as <-; eexists; split; [reflexivity|]; split;
      [first [apply Nat.le_refl | rewrite List.length_app; apply Nat.le_add_r]
      |intros _; first [exists []; rewrite app_nil_r; reflexivity | eexists; reflexivity]]]].

Ltac give_nothing :=
  exists []; split; [reflexivity|]; split; [intros k []|intros v Hv; discriminate Hv].

(** Every node returns its input state with some of its own keys
    assigned, logged under its own name; where it assigns the messages, it
    adds to those of the state (the output translation keeps their
    number). *)
Lemma node_output (n : GraphBuilder.node) (state state' : dict) :
  GraphBuilder.node_runs w config n state state' ->
  exists u,
    state' = Utilities.log_node_execution (label n) state (update state u) /\
    incl (keys u) (may_write n) /\
    grows n state u.
Proof.
  unfold grows.
  intros Hrun. destruct Hrun as [n state state' Hrun| state | state reply state' H
                                | state reply | state reply].
  - destruct Hrun as [state resume state' H | state llm_response | state agent_message
                      | state reply state' H | state state' H | state state' H | state].
    + unfold Nodes.wait_user_input_node in H. open_cases H.
      all: apply Ok_inj in H; subst state'.
      all: repeat match goal with
                  | |- context [if ?c then _ else _] => destruct c
                  end.
      all: give_update.
    + unfold Nodes.decision_router_node.
      destruct (Nodes.parse_decision llm_response).
      destruct (Nodes.resolve_tool config _). give_update.
    + unfold Nodes.chat_node. give_update.
    + unfold Nodes.structured_extractor_node in H.
      destruct (Utilities.get_selected_tool_config config state).
      match type of H with
      | (if ?c then _ else _) = _ => destruct c
      end.
      * apply Ok_inj in H. subst state'. give_update.
      * match type of H with
        | bind ?x _ = _ => destruct x; [|discriminate H]; cbn [bind] in H
        end.
        match type of H with
        | (if ?c then _ else _) = _ => destruct c
        end.
        -- match type of H with
           | bind ?x _ = _ => destruct x; [|discriminate H]; cbn [bind] in H
           end.
           apply Ok_inj in H. subst state'. give_update.
        -- apply Ok_inj in H. subst state'. give_update.
    + unfold Nodes.validate_inputs_node in H.
      destruct (Utilities.get_selected_tool_config config state).
      match type of H with
      | bind ?x _ = _ => destruct x as [[validated [|e es]]|]; [| |discriminate H]
      end; cbn [bind] in H; apply Ok_inj in H; subst state'; give_update.
    + unfold Nodes.exit_evaluator_node in H.
      match type of H with
      | bind ?x _ = _ => destruct x; [|discriminate H]; cbn [bind] in H
      end.
      match type of H with
      | bind ?x _ = _ => destruct x; [|discriminate H]; cbn [bind] in H
      end.
      cbv zeta in H. apply Ok_inj in H. subst state'.
      match goal with
      | |- context [if ?c then update _ _ else _] => destruct c
      end; give_update.
    + unfold Nodes.end_node. give_update.
  - destruct (tool_execution_outcome w state config)
      as (err & new_state & -> & _ & _ & [[_ [tool_result ->]] | ->]); give_update.
  - apply tool_answer_output in H.
    destruct H as (tr & answer & tool_ctx & _ & _ & _ & ->). give_update.
  - unfold Nodes.input_translation_node.
    destruct (negb _); [give_update|].
    destruct (bind _ _); give_update.
  - unfold Nodes.output_translation_node.
    destruct (negb _); [give_nothing|].
    destruct (Utilities.last_of _) as [last_message|] eqn:El; [|give_nothing].
    destruct (negb _); [give_nothing|].
    destruct (bind _ _).
    + eexists. split; [reflexivity|]. split.
      * cbn [keys map fst label may_write]. intros k Hk. cbn [In] in *. tauto.
      * intros v Hv. cbn [dget_last String.eqb Ascii.eqb Bool.eqb] in Hv.
        injection Hv as <-. eexists. split; [reflexivity|]. split; [|intros Hn; contradiction].
        rewrite (length_set_last _ _ _ El). apply Nat.le_refl.
    + give_update.
Qed.

(** The keys a node leaves alone. *)
Lemma node_frame (n : GraphBuilder.node) (state state' : dict) (k : string) :
  GraphBuilder.node_runs w config n state state' ->
  k <> "action_history" -> ~ In k (may_write n) ->
  get state' k = get state k.
Proof.
  intros Hrun Hk Hw. destruct (node_output n state state' Hrun) as (u & -> & Hu & _).
  rewrite get_log_node_execution
    by (apply String.eqb_neq; intros H; apply Hk; symmetry; exact H).
  rewrite get_update, dget_last_none; [reflexivity|].
  intros Hin. apply Hw, Hu, Hin.
Qed.

(** How a node changes the messages. *)
Lemma node_messages (n : GraphBuilder.node) (state state' : dict) :
  GraphBuilder.node_runs w config n state state' ->
  List.length (messages_of state) <= List.length (messages_of state') /\
  (n <> GraphBuilder.output_translation ->
   exists suffix, messages_of state' = (messages_of state ++ suffix)%list).
Proof.
  intros Hrun. destruct (node_output n state state' Hrun) as (u & -> & _ & Hg).
  rewrite messages_of_log.
  assert (Hm : messages_of (update state u)
               = match dget_last u "messages" with
                 | Some v => as_list v
                 | None => messages_of state
                 end).
  { unfold messages_of. rewrite get_default_update.
    destruct (dget_last u "messages"); reflexivity. }
  rewrite Hm. clear Hm.
  destruct (dget_last u "messages") as [v|] eqn:E.
  - destruct (Hg v E) as (l & -> & Hlen & Hsuffix). cbn [as_list].
    split; [exact Hlen|exact Hsuffix].
  - split; [apply Nat.le_refl|]. intros _. exists []. rewrite app_nil_r. reflexivity.
Qed.

(** X24.  Whatever node of the graph has run, the action history of the
    state it returns holds five records at most, and the last record names
    that node. *)
Theorem every_node_logs_itself (n : GraphBuilder.node) (state state' : dict) :
  GraphBuilder.node_runs w config n state state' ->
  let history := as_list (get state' "action_history") in
  List.length history <= 5 /\
  exists record,
    Utilities.last_of history = Some (VDict record) /\
    get record "node" = VStr (label n).
Proof.
  intros Hrun. destruct (node_output n state state' Hrun) as (u & -> & _).
  cbv zeta. unfold Utilities.log_node_execution.
  destruct (logged_history (label n) state (update state u))
    as (record & dropped & _ & Hlen & Hlast & Hnode & _).
  cbv zeta in Hlen, Hlast. split; [rewrite Hlen; lia|].
  exists record. split; [exact Hlast|exact Hnode].
Qed.

(** X25.  A node assigns its own keys only: any other key of the state,
    the action history apart, has the same value after the node as
    before. *)
Theorem node_writes_only_its_keys (n : GraphBuilder.node) (state state' : dict) (k : string) :
  GraphBuilder.node_runs w config n state state' ->
  k <> "action_history" -> ~ In k (may_write n) ->
  get state' k = get state k.
Proof. apply node_frame. Qed.

Lemma step_keeps_no_tool_success (c c' : GraphBuilder.node * dict) :
  GraphBuilder.graph_step w config c c' ->
  no_tool_success (snd c) -> no_tool_success (snd c').
Proof.
  intros Hstep. destruct Hstep as [n state state' n' Hrun _]. cbn [snd].
  unfold no_tool_success. intros H.
  destruct n;
    try (rewrite (node_frame _ state state' "tool_result" Hrun);
         [exact H|discriminate|cbn [may_write In]; intuition discriminate]).
  inversion Hrun as [n0 s0 s0' Hmodelled | | | |]; subst.
  - inversion Hmodelled.
  - destruct (tool_execution_outcome w state config) as (err & new & -> & _ & Hs & _).
    rewrite get_log_node_execution by reflexivity. exact Hs.
Qed.

(** X26.  No run of the graph ever holds a successful tool result: from a
    state whose tool result reports no success, every state reached does
    the same. *)
Theorem no_run_sees_a_tool_success (n n' : GraphBuilder.node) (state state' : dict) :
  GraphBuilder.graph_steps w config (n, state) (n', state') ->
  no_tool_success state -> no_tool_success state'.
Proof.
  intros Hsteps.
  change (no_tool_success (snd (n, state)) -> no_tool_success (snd (n', state'))).
  induction Hsteps as [c|c1 c2 c3 Hstep _ IH]; [auto|].
  intros H. apply IH. exact (step_keeps_no_tool_success c1 c2 Hstep H).
Qed.

(** X27.  Along a run of the graph the number of messages never goes
    down. *)
Theorem messages_never_shrink (n n' : GraphBuilder.node) (state state' : dict) :
  GraphBuilder.graph_steps w config (n, state) (n', state') ->
  List.length (messages_of state) <= List.length (messages_of state').
Proof.
  intros Hsteps.
  change (List.length (messages_of (snd (n, state)))
          <= List.length (messages_of (snd (n', state')))).
  induction Hsteps as [c|c1 c2 c3 Hstep _ IH]; [apply Nat.le_refl|].
  destruct Hstep as [n1 s1 s2 n2 Hrun _]. cbn [snd] in *.
  destruct (node_messages n1 s1 s2 Hrun) as [Hlen _]. lia.
Qed.

Lemma output_translation_disabled (state : dict) (reply : result pyobj) :
  GraphBuilder.translation_enabled config = false ->
  Nodes.output_translation_node state config reply
  = Utilities.log_node_execution "OUTPUT_TRANSLATION" state state.
Proof.
  unfold GraphBuilder.translation_enabled, Nodes.output_translation_node,
    Nodes.translation_config.
  intros ->. reflexivity.
Qed.

(** X28.  With translation disabled the messages are append-only: along a
    run of the graph, the messages of the first state are a prefix of those
    of every later state. *)
Theorem messages_are_append_only (n n' : GraphBuilder.node) (state state' : dict) :
  GraphBuilder.translation_enabled config = false ->
  GraphBuilder.graph_steps w config (n, state) (n', state') ->
  exists suffix, messages_of state' = (messages_of state ++ suffix)%list.
Proof.
  intros Hoff Hsteps.
  change (exists suffix,
             messages_of (snd (n', state')) = (messages_of (snd (n, state)) ++ suffix)%list).
  induction Hsteps as [c|c1 c2 c3 Hstep _ IH].
  - exists []. rewrite app_nil_r. reflexivity.
  - destruct IH as (suffix2 & IH). rewrite IH.
    destruct Hstep as [n1 s1 s2 n2 Hrun _]. cbn [snd].
    assert (H1 : exists suffix1, messages_of s2 = (messages_of s1 ++ suffix1)%list).
    { destruct (node_messages n1 s1 s2 Hrun) as [_ Hsuffix].
      destruct n1; try (apply Hsuffix; discriminate).
      inversion Hrun as [n0 s0 s0' Hmodelled | | | |]; subst; [inversion Hmodelled|].
      rewrite (output_translation_disabled _ _ Hoff), messages_of_log.
      exists []. rewrite app_nil_r. reflexivity. }
    destruct H1 as (suffix1 & ->). exists (suffix1 ++ suffix2)%list.
    rewrite app_assoc. reflexivity.
Qed.

Lemma no_edge_into_exit_evaluator (n n' : GraphBuilder.node) (state : dict) :
  GraphBuilder.successor config n state = Some n' -> at_exit_evaluator n' = false.
Proof.
  destruct n; cbn [GraphBuilder.successor];
    unfold GraphBuilder.decision_router_fn, GraphBuilder.validate_router,
      GraphBuilder.exit_router;
    repeat match goal with
           | |- context [if ?c then _ else _] => destruct c
           end;
    intros H; try discriminate H; injection H as <-; reflexivity.
Qed.

(** X29.  The exit evaluator is never run: no edge of the graph leads to
    it, so a run from the entry point never stands at it. *)
Theorem exit_evaluator_is_unreachable (n' : GraphBuilder.node) (state state' : dict) :
  GraphBuilder.graph_steps w config (GraphBuilder.entry_point, state) (n', state') ->
  at_exit_evaluator n' = false.
Proof.
  intros Hsteps.
  assert (H : forall c c', GraphBuilder.graph_steps w config c c' ->
                           at_exit_evaluator (fst c) = false ->
                           at_exit_evaluator (fst c') = false).
  { clear. intros c c' Hsteps. induction Hsteps as [c|c1 c2 c3 Hstep _ IH]; [auto|].
    intros _. apply IH. destruct Hstep as [n1 s1 s2 n2 _ Hedge]. cbn [fst].
    exact (no_edge_into_exit_evaluator n1 n2 s2 Hedge). }
  exact (H _ _ Hsteps eq_refl).
Qed.

End GraphInvariants.

(** ** Output translation (nodes.py) *)

Section TranslationFacts.
Context {RT : Runtime}.

Lemma last_of_split {A} (l : list A) (x : A) :
  Utilities.last_of l = Some x -> exists init, l = (init ++ [x])%list.
Proof.
  intros H. destruct l as [|a l]; [discriminate|].
  destruct (@exists_last _ (a :: l)) as (init & y & Hl); [discriminate|].
  rewrite Hl in H. rewrite last_of_app in H. injection H as ->.
  exists init. exact Hl.
Qed.

(** X30.  The output translation leaves the messages as they are, or
    replaces the content of the last message, which is then one of the
    assistant; it adds and removes none, and touches no earlier message. *)
Theorem output_translation_rewrites_last_content
        (state config : dict) (reply : result pyobj) :
  let state' := Nodes.output_translation_node state config reply in
  messages_of state' = messages_of state \/
  exists init last text,
    messages_of state = (init ++ [last])%list /\
    py_eq (get (as_dict last) "role") (VStr "assistant") = true /\
    messages_of state'
    = (init ++ [VDict (update (as_dict last) [("content", VStr text)])])%list.
Proof.
  cbv zeta. unfold Nodes.output_translation_node.
  destruct (negb (truthy _)); [left; apply messages_of_log|].
  fold (messages_of state).
  destruct (Utilities.last_of (messages_of state)) as [last|] eqn:El;
    [|left; apply messages_of_log].
  destruct (py_eq (get (as_dict last) "role") (VStr "assistant")) eqn:Er; cbn [negb];
    [|left; apply messages_of_log].
  destruct (bind reply _) as [text|e].
  - right. destruct (last_of_split _ _ El) as (init & Hsplit).
    exists init, last, text. split; [exact Hsplit|]. split; [exact Er|].
    rewrite messages_of_log. unfold messages_of at 1. rewrite get_default_update.
    cbn [dget_last String.eqb Ascii.eqb Bool.eqb as_list].
    unfold Nodes.set_last. rewrite Hsplit, removelast_last. reflexivity.
  - left. rewrite messages_of_log. unfold messages_of. rewrite get_default_update.
    reflexivity.
Qed.

End TranslationFacts.

(** ** Concrete runs *)

Import SmallRuntime.





(** C6, counterexample.  The extraction step of the extractor node, given
    a completion that does not parse, makes no second call. *)
Lemma retries_once_when_unparsable_fails : ~ retries_once_when_unparsable (Ok "not json").
Proof.
  intros H. specialize (H "not json" eq_refl eq_refl). discriminate H.
Qed.

(** Two unparsable completions end in the canned questions, after two calls. *)
Lemma structured_extraction_degrades_witness :
  let result := LlamaindexAgent.generate_questions unparsable_models "Some article." "en" in
  LlamaindexAgent.fallback (fst result) = true /\
  LlamaindexAgent.questions (fst result) = LlamaindexAgent.fallback_questions "en" /\
  List.length (snd result) = 2.
Proof.
  pose proof (structured_extraction_degrades unparsable_models "Some article." "en")
    as (_ & H & _).
  destruct (H (ValueError "Expecting value") eq_refl) as (Hcalls & _ & Hfb).
  specialize (Hfb (ValueError "Expecting value") eq_refl).
  cbv zeta. rewrite Hfb, Hcalls. repeat split.
Defined.




(** A state asking for a tool that is not configured gets the first enabled
    one. *)
Lemma first_enabled_tool_fallback_witness :
  names_enabled_tool two_tool_config (get state_naming_unknown_tool "chosen_tool") = false /\
  fst (Utilities.get_selected_tool_config two_tool_config state_naming_unknown_tool)
  = VStr "web_search".
Proof.
  split; [reflexivity|].
  pose proof (first_enabled_tool_fallback two_tool_config state_naming_unknown_tool
                [("name", VStr "web_search"); ("type", VStr "retrieval");
                 ("input_schema",
                   VList [VDict [("name", VStr "query"); ("required", VBool true)]])]
                eq_refl eq_refl eq_refl eq_refl) as (Hsel & _).
  rewrite Hsel. reflexivity.
Defined.

(** C4, counterexample.  A field whose name is a list: looking it up in the
    data raises. *)
Lemma validator_never_raises_fails : ~ validator_never_raises.
Proof.
  intros H.
  destruct (H [] [[("name", VList [VStr "email"])]]) as (validated & errors & Hv).
  discriminate Hv.
Qed.


(** *** Further concrete runs *)

(** X7, witness: with a greeting before it and an assistant message after
    it, the farewell of the user decides the condition. *)
Lemma prompt_matches_reads_last_user_message_witness :
  ExitConditions.prompt_matches (VStr "bye|quit") farewell_messages
  = ExitConditions.prompt_matches (VStr "bye|quit") [user_says "ok bye"] /\
  ExitConditions.prompt_matches (VStr "bye|quit") farewell_messages = Ok true.
Proof.
  pose proof (prompt_matches_reads_last_user_message (VStr "bye|quit")
                [user_says "hello"]
                [[("role", VStr "assistant"); ("content", VStr "see you")]]
                (user_says "ok bye") eq_refl eq_refl) as H.
  split; [exact H|]. unfold farewell_messages. cbn [app] in H. rewrite H. reflexivity.
Defined.

(** X9, witness: a prompt condition on a well-shaped state. *)
Lemma evaluate_returns_on_declared_shapes_witness :
  exists b, ExitConditions.evaluate farewell_condition [] farewell_messages = Ok b.
Proof.
  apply (evaluate_returns_on_declared_shapes farewell_condition [] farewell_messages);
    reflexivity.
Defined.

(** X10, witness: a malformed address is an error, and the data are not
    complete. *)
Lemma complete_exactly_when_no_errors_witness :
  Validation.validate_all_fields signup_config signup_data_bad_email
  = Ok [("email", vstrs ["email must be a valid email address"])] /\
  Validation.is_data_complete signup_config signup_data_bad_email = Ok false.
Proof.
  assert (H : Validation.validate_all_fields signup_config signup_data_bad_email
              = Ok [("email", vstrs ["email must be a valid email address"])])
    by (vm_compute; reflexivity).
  split; [exact H|].
  exact (complete_exactly_when_no_errors signup_config signup_data_bad_email _ H).
Defined.

(** X11, witness *)
Lemma complete_data_passes_the_other_checks_witness :
  Validation.is_data_complete signup_config signup_data = Ok true /\
  Validation.validate_all_fields signup_config signup_data = Ok [] /\
  Validation.get_missing_fields signup_config signup_data = Ok [].
Proof.
  assert (H : Validation.is_data_complete signup_config signup_data = Ok true)
    by (vm_compute; reflexivity).
  split; [exact H|].
  exact (complete_data_passes_the_other_checks signup_config signup_data H).
Defined.

(** X13, witness: a row that was appended. *)
Lemma sheets_success_means_row_appended_witness :
  get (returned (Tools.sheets_tool sheets_world signup_data signup_config)) "success"
  = VBool true /\
  Validation.is_data_complete signup_config signup_data = Ok true /\
  exists resp,
    Tools.append_to_sheet sheets_world signup_config signup_data = Ok resp /\
    get (returned (Tools.sheets_tool sheets_world signup_data signup_config))
        "append_response" = resp.
Proof.
  assert (Hs : get (returned (Tools.sheets_tool sheets_world signup_data signup_config))
                   "success" = VBool true) by (vm_compute; reflexivity).
  split; [exact Hs|].
  apply (sheets_success_means_row_appended sheets_world signup_data signup_config);
    [vm_compute; reflexivity|exact Hs].
Defined.

(** X14, witness: without the required fields nothing depends on the
    world. *)
Lemma incomplete_data_is_not_sent_witness :
  Validation.is_data_complete signup_config [] = Ok false /\
  Tools.sheets_tool sheets_world [] signup_config
  = Tools.sheets_tool (answering 404 "") [] signup_config.
Proof.
  split; [vm_compute; reflexivity|].
  apply incomplete_data_is_not_sent. vm_compute. discriminate.
Defined.

(** X16, witness: a server that answers 200. *)
Lemma api_success_means_2xx_witness :
  exists status,
    get (returned (Tools.api_retrieval_tool (answering 200 "ok") [] api_config)) "status_code"
    = VInt status /\
    (200 <= status < 300)%Z.
Proof.
  apply (api_success_means_2xx (answering 200 "ok") [] api_config);
    vm_compute; reflexivity.
Defined.

(** X18, witness: the model is down, the summary is shown. *)
Lemma tool_answer_appends_one_message_witness :
  exists answer,
    messages_of (returned (Nodes.tool_answer_node failed_tool_state []
                             (Raise (OtherError "model unavailable"))))
    = (messages_of failed_tool_state ++ [Nodes.message "assistant" answer])%list /\
    get (returned (Nodes.tool_answer_node failed_tool_state []
                     (Raise (OtherError "model unavailable")))) "last_tool_summary"
    = VStr answer.
Proof.
  destruct (tool_answer_appends_one_message failed_tool_state []
              (Raise (OtherError "model unavailable")) _ eq_refl)
    as (answer & Hm & _ & _ & Hs).
  exists answer. split; [exact Hm|exact (Hs eq_refl)].
Defined.

(** X20, witness *)
Lemma pending_input_is_recorded_once_witness :
  exists state' state'' m,
    Nodes.wait_user_input_node pending_input_state VNone = Ok state' /\
    Utilities.last_of (map as_dict (messages_of state')) = Some m /\
    py_eq (get m "role") (VStr "user") = true /\
    py_eq (get m "content") (VStr "hi") = true /\
    get state' "user_input" = VStr "hi" /\
    Nodes.wait_user_input_node state' (VStr "something else") = Ok state'' /\
    messages_of state'' = messages_of state'.
Proof.
  apply (pending_input_is_recorded_once pending_input_state VNone (VStr "something else") "hi");
    [reflexivity|vm_compute; discriminate].
Defined.

(** X21, witness: the query is there, validation passes and the router
    goes to tool execution. *)
Lemma validate_inputs_routes_consistently_witness :
  let state' := returned (Nodes.validate_inputs_node state_naming_unknown_tool two_tool_config) in
  get state' "next_action" = VStr "tool_execution" /\
  GraphBuilder.validate_router state' = GraphBuilder.tool_execution.
Proof.
  cbv zeta.
  destruct (validate_inputs_routes_consistently state_naming_unknown_tool two_tool_config
              (returned (Nodes.validate_inputs_node state_naming_unknown_tool two_tool_config)))
    as [(He & _) | (_ & _ & Hn & Hr)].
  - vm_compute. reflexivity.
  - vm_compute in He. discriminate He.
  - split; [exact Hn|exact Hr].
Defined.

(** X22, witness: [END] in capitals goes to chat. *)
Lemma end_decision_is_case_sensitive_witness :
  GraphBuilder.successor [] GraphBuilder.decision_router
    (Nodes.decision_router_node [] [] "DECISION: END - the user said goodbye")
  = Some GraphBuilder.chat.
Proof.
  pose proof (end_decision_is_case_sensitive [] [] "DECISION: END - the user said goodbye"
                eq_refl) as H.
  rewrite H. vm_compute. reflexivity.
Defined.

(** X24, witness: the chat node logs itself. *)
Lemma every_node_logs_itself_witness :
  let history := as_list (get (Nodes.chat_node [] [] "Hello!") "action_history") in
  List.length history <= 5 /\
  exists record,
    Utilities.last_of history = Some (VDict record) /\
    get record "node" = VStr "CHAT_NODE".
Proof.
  exact (every_node_logs_itself sheets_world [] GraphBuilder.chat [] _
           (GraphBuilder.runs_modelled sheets_world [] _ _ _
              (GraphBuilder.run_chat [] [] "Hello!"))).
Defined.

(** X25, witness: the chat node leaves the session identifier alone. *)
Lemma node_writes_only_its_keys_witness :
  get (Nodes.chat_node [("session_id", VStr "s-1")] [] "Hello!") "session_id" = VStr "s-1".
Proof.
  apply (node_writes_only_its_keys sheets_world [] GraphBuilder.chat
           [("session_id", VStr "s-1")] _ "session_id"
           (GraphBuilder.runs_modelled sheets_world [] _ _ _
              (GraphBuilder.run_chat [] [("session_id", VStr "s-1")] "Hello!"))).
  - discriminate.
  - cbn. intuition discriminate.
Defined.

(** X26, witness: one step through tool execution. *)
Lemma no_run_sees_a_tool_success_witness :
  no_tool_success (Nodes.tool_execution_node sheets_world signup_data signup_config).
Proof.
  apply (no_run_sees_a_tool_success sheets_world signup_config
           GraphBuilder.tool_execution GraphBuilder.tool_answer signup_data).
  - eapply GraphBuilder.graph_steps_cons; [|apply GraphBuilder.graph_steps_refl].
    apply GraphBuilder.graph_step_node.
    + apply GraphBuilder.runs_tool_execution.
    + reflexivity.
  - reflexivity.
Defined.

(** X27, witness: one step through the chat node. *)
Lemma messages_never_shrink_witness :
  List.length (messages_of pending_input_state)
  <= List.length (messages_of (Nodes.chat_node pending_input_state [] "Hello!")).
Proof.
  apply (messages_never_shrink sheets_world [] GraphBuilder.chat GraphBuilder.wait_user_input).
  eapply GraphBuilder.graph_steps_cons; [|apply GraphBuilder.graph_steps_refl].
  apply GraphBuilder.graph_step_node.
  - apply GraphBuilder.runs_modelled, GraphBuilder.run_chat.
  - reflexivity.
Defined.

(** X28, witness *)
Lemma messages_are_append_only_witness :
  exists suffix,
    messages_of (Nodes.chat_node pending_input_state [] "Hello!")
    = (messages_of pending_input_state ++ suffix)%list.
Proof.
  apply (messages_are_append_only sheets_world [] GraphBuilder.chat
           GraphBuilder.wait_user_input pending_input_state _ eq_refl).
  eapply GraphBuilder.graph_steps_cons; [|apply GraphBuilder.graph_steps_refl].
  apply GraphBuilder.graph_step_node.
  - apply GraphBuilder.runs_modelled, GraphBuilder.run_chat.
  - reflexivity.
Defined.

(** X29, witness: a turn from the entry point to the router and on to
    chat. *)
Lemma exit_evaluator_is_unreachable_witness :
  at_exit_evaluator
    (GraphBuilder.decision_router_fn []
       (Nodes.decision_router_node
          (returned (Nodes.wait_user_input_node pending_input_state VNone)) []
          "DECISION: chat - greet the user"))
  = false.
Proof.
  apply (exit_evaluator_is_unreachable sheets_world [] _ pending_input_state
           (Nodes.decision_router_node
              (returned (Nodes.wait_user_input_node pending_input_state VNone)) []
              "DECISION: chat - greet the user")).
  eapply GraphBuilder.graph_steps_cons.
  - apply GraphBuilder.graph_step_node
      with (state' := returned (Nodes.wait_user_input_node pending_input_state VNone)).
    + apply GraphBuilder.runs_modelled, (GraphBuilder.run_wait [] _ VNone).
      vm_compute. reflexivity.
    + reflexivity.
  - eapply GraphBuilder.graph_steps_cons; [|apply GraphBuilder.graph_steps_refl].
    apply GraphBuilder.graph_step_node.
    + apply GraphBuilder.runs_modelled, GraphBuilder.run_router.
    + reflexivity.
Defined.

(** X23, witness: the query is already there. *)
Lemma complete_fields_skip_the_model_witness :
  Nodes.structured_extractor_node state_naming_unknown_tool two_tool_config (Ok "{}")
  = Nodes.structured_extractor_node state_naming_unknown_tool two_tool_config
      (Raise (OtherError "model unavailable")).
Proof.
  apply (complete_fields_skip_the_model state_naming_unknown_tool two_tool_config).
  - vm_compute. discriminate.
  - vm_compute. reflexivity.
Defined.
